(** * Funding-rate arbitrage engine of binance.py: a shallow embedding

    The development follows [src/binance.py]: the tools that talk to the
    exchange ([get_symbol_price], [get_account_balance],
    [place_market_order], [get_funding_rate_history],
    [place_futures_order]), the hedge executor
    [execute_hedge_arbitrage_strategy] and the scanner
    [find_arbitrage_pairs].

    Modelling conventions.
    - Numbers.  A Python float is a binary64 value.  A finite float is
      carried as the rational it stands for ([Q]), on which comparisons,
      [min], [abs] and negation are exact.  The arithmetic that rounds,
      the fees and the profit of lines 269-277, is carried out in binary64
      ([PrimFloat.float]): [to_binary64] goes from the rational to the
      float, [round_binary64] is [round(x, ndigits)] on a float.
      NaN and the infinities, which [float(...)] accepts as the texts
      'nan' and 'inf', have no counterpart among the inputs ([scalar]):
      statements about quantities, balances, rates and prices are about
      finite ones.  The quotient of line 356 is kept as the exact ratio
      and [round(stability, 2)] of line 369 is taken on that ratio, ties
      to even; the code rounds the binary64 quotient, which differs in
      the last digit when the ratio is a decimal tie (37 aligned samples
      of 40 are reported as 0.93 by the code and as 0.92 here).
    - A value that the code hands to [float(...)] is a [scalar]: either
      numeric text or a number that [float] turns into the finite float
      of value [q] ([Num q]), or something [float] rejects ([Junk]).  A
      dictionary key that may be absent is an [option].
    - The exchange is an oracle [Exchange]: for every endpoint, the reply
      to the request issued at time [t], where time is the number of
      events (requests and sleeps) the process has produced so far.  A
      request is answered by a [response] (status code, decoded JSON body,
      text) or not at all ([NoReply]: [requests] raises).  Request signing,
      timestamps and headers are glue and are left out.
    - Code runs in a state-and-exception monad over [World]: the
      chronological event [log] and the contents of the [lru_cache] that
      decorates [get_symbol_price].
    - [mcp.use_tool(name, args...)] is read as a call of the tool
      registered under [name]. *)

From Stdlib Require Import QArith Qabs Qround Qminmax ZArith List String Bool Lia Lqa.
From Stdlib Require Import Sorting.Sorted Sorting.Permutation.
From Stdlib Require Import Floats.
Import ListNotations.
Open Scope string_scope.
Open Scope Q_scope.

(** ** Numbers *)

Definition Qltb (x y : Q) : bool := negb (Qle_bool y x).

Infix "<?" := Qltb (at level 70, no associativity) : Q_scope.
Infix "<=?" := Qle_bool (at level 70, no associativity) : Q_scope.

(** Python's [min(a, b)]: [b] when [b < a], else [a]. *)
Definition py_min (a b : Q) : Q := if b <? a then b else a.

(** Nearest integer, ties to even. *)
Definition round_half_even (x : Q) : Z :=
  let f := Qfloor x in
  match Qcompare (x - inject_Z f)%Q (1 # 2)%Q with
  | Lt => f
  | Gt => (f + 1)%Z
  | Eq => if Z.even f then f else (f + 1)%Z
  end.

(** Python's [round(x, ndigits)] on an exact value. *)
Definition round (x : Q) (ndigits : nat) : Q :=
  let scale := Pos.pow 10 (Pos.of_nat ndigits) in
  match ndigits with
  | O => inject_Z (round_half_even x)
  | S _ => round_half_even (x * inject_Z (Zpos scale)) # scale
  end.

(** ** Binary64 *)

(** The rational a finite binary64 value stands for. *)
Definition exact_value (x : PrimFloat.float) : option Q :=
  match Prim2SF x with
  | S754_zero _ => Some 0
  | S754_finite s m e =>
      let v := inject_Z (Zpos m) * Qpower 2 e in
      Some (if s then - v else v)
  | S754_infinity _ => None
  | S754_nan => None
  end.

Definition signbit (x : PrimFloat.float) : bool :=
  match Prim2SF x with
  | S754_zero s => s
  | S754_finite s _ _ => s
  | S754_infinity s => s
  | S754_nan => false
  end.

(** The binary64 value nearest to a rational, ties to even: what
    [float(text)] makes of a decimal text, and the float itself when the
    rational is the value of a float.  The quotient of numerator and
    denominator is rounded once, by the division of the IEEE 754
    specification. *)
Definition to_binary64 (q : Q) : PrimFloat.float :=
  match Qnum q with
  | Z0 => PrimFloat.zero
  | Zpos n =>
      SF2Prim (SFdiv prec emax (S754_finite false n 0)
                                (S754_finite false (Qden q) 0))
  | Zneg n =>
      SF2Prim (SFdiv prec emax (S754_finite true n 0)
                                (S754_finite false (Qden q) 0))
  end.

(** The decimal with [ndigits] places nearest to the exact value of [x],
    ties to even: the digits that [round(x, ndigits)] and the format
    [{x:.4f}] arrive at.  NaN and the infinities have none. *)
Definition round_decimal (x : PrimFloat.float) (ndigits : positive) : option Q :=
  match exact_value x with
  | Some v =>
      let scale := Pos.pow 10 ndigits in
      Some (round_half_even (v * inject_Z (Zpos scale)) # scale)
  | None => None
  end.

(** Python's [round(x, ndigits)] on a float: the float nearest to that
    decimal, a zero taking the sign of [x]; NaN and the infinities are
    returned as they are. *)
Definition round_binary64 (x : PrimFloat.float) (ndigits : positive)
  : PrimFloat.float :=
  match round_decimal x ndigits with
  | Some d =>
      match Qnum d with
      | Z0 => if signbit x then PrimFloat.neg_zero else PrimFloat.zero
      | _ => to_binary64 d
      end
  | None => x
  end.

(** ** Values exchanged with the outside *)

Inductive scalar : Type :=
| Num (q : Q)
| Junk.

Inductive Side : Type := BUY | SELL.

Record response (J : Type) : Type := mkResponse {
  status_code : Z;
  json : J;
  text : string
}.
Arguments mkResponse {J} _ _ _.
Arguments status_code {J} _.
Arguments json {J} _.
Arguments text {J} _.

Inductive reply (J : Type) : Type :=
| Responded (r : response J)
| NoReply.
Arguments Responded {J} _.
Arguments NoReply {J}.

(** Element of ["balances"] in the account payload. *)
Record balance_json : Type := mkBalance {
  b_asset : option string;
  b_free : option scalar
}.

(** Element of the funding-rate history payload. *)
Record funding_json : Type := mkFunding {
  fundingRate : option scalar
}.

(** Element of the premium-index payload. *)
Record premium_json : Type := mkPremium {
  p_symbol : option string;
  lastFundingRate : option scalar
}.

(** The 24h ticker payload. *)
Record ticker_json : Type := mkTicker {
  quoteVolume : option scalar
}.

(** The spot ticker payload: the ["price"] entry, if any. *)
Record price_json : Type := mkPrice {
  j_price : option scalar
}.

Record Exchange : Type := mkExchange {
  ticker_price : nat -> string -> reply price_json;
  account : nat -> reply (list balance_json);
  spot_order : nat -> string -> Side -> Q -> reply unit;
  futures_order : nat -> string -> Side -> Q -> reply unit;
  funding_rate : nat -> string -> Z -> reply (list funding_json);
  premium_index : nat -> reply (list premium_json);
  ticker_24hr : nat -> string -> reply ticker_json
}.

Inductive request : Type :=
| GetTickerPrice (symbol : string)
| GetAccount
| PostSpotOrder (symbol : string) (side : Side) (quantity : Q)
| PostFuturesOrder (symbol : string) (side : Side) (quantity : Q)
| GetFundingRate (symbol : string) (limit : Z)
| GetPremiumIndex
| GetTicker24hr (symbol : string).

Inductive event : Type :=
| Sent (r : request)
| Slept (seconds : Z).

(** ** Results of the tools *)

Inductive price_dict : Type :=
| PriceInfo (price : scalar) (symbol : string)
| PriceError (error : string).

Inductive balance_dict : Type :=
| BalanceInfo (asset : string) (balance : scalar)
| BalanceError (error : string).

Inductive order_dict : Type :=
| OrderMessage (side : Side) (quantity : Q) (symbol : string)
| OrderJson
| OrderError (error : string).

Inductive funding_data : Type :=
| FundingList (l : list funding_json)
| FundingError (error : string).

Inductive hedge_dict : Type :=
| HedgeError (error : string)
| HedgeDone (net_profit fees : PrimFloat.float) (message_net_profit : option Q).

Record candidate : Type := mkCandidate {
  c_symbol : string;
  current_funding_rate : Q;
  avg_volume : Q;
  c_stability : Q
}.

Inductive scan_item : Type :=
| Cand (c : candidate)
| ScanError (error : string).

(** ** The monad *)

Record World : Type := mkWorld {
  log : list event;
  price_cache : list (string * price_dict)
}.

Inductive exn : Type :=
| KeyError
| IndexError
| ValueError
| RequestException.

Inductive outcome (A : Type) : Type :=
| Returned (a : A)
| Raised (e : exn).
Arguments Returned {A} _.
Arguments Raised {A} _.

Definition M (A : Type) : Type := World -> outcome A * World.

Definition ret {A} (a : A) : M A := fun w => (Returned a, w).

Definition raise {A} (e : exn) : M A := fun w => (Raised e, w).

Definition bind {A B} (m : M A) (k : A -> M B) : M B :=
  fun w =>
    match m w with
    | (Returned a, w') => k a w'
    | (Raised e, w') => (Raised e, w')
    end.

(** [try: m  except: h] -- the events of [m] stay in the world. *)
Definition try_except {A} (m : M A) (h : M A) : M A :=
  fun w =>
    match m w with
    | (Returned a, w') => (Returned a, w')
    | (Raised _, w') => h w'
    end.

Declare Scope monad_scope.
Delimit Scope monad_scope with monad.
Notation "x <- m ;; k" := (bind m (fun x => k))
  (at level 100, m at next level, right associativity) : monad_scope.
Notation "m ;; k" := (bind m (fun _ => k))
  (at level 100, right associativity) : monad_scope.
Open Scope monad_scope.

Definition clock (w : World) : nat := List.length (log w).

Definition emit (e : event) : M unit :=
  fun w => (Returned tt, mkWorld (log w ++ [e]) (price_cache w)).

(** One HTTP request: logged, then answered by the oracle at the time it
    is issued. *)
Definition send {J} (req : request) (oracle : nat -> reply J) : M (response J) :=
  fun w =>
    let w' := mkWorld (log w ++ [Sent req]) (price_cache w) in
    match oracle (clock w) with
    | Responded r => (Returned r, w')
    | NoReply => (Raised RequestException, w')
    end.

(** [time.sleep(seconds)] *)
Definition sleep (seconds : Z) : M unit := emit (Slept seconds).

(** [float(v)] *)
Definition float (v : scalar) : M Q :=
  match v with
  | Num q => ret q
  | Junk => raise ValueError
  end.

(** [d[key]] *)
Definition getitem {A} (field : option A) : M A :=
  match field with
  | Some a => ret a
  | None => raise KeyError
  end.

(** [d.get(key, default)] *)
Definition dict_get {A} (field : option A) (default : A) : A :=
  match field with
  | Some a => a
  | None => default
  end.

Fixpoint mapM {A B} (f : A -> M B) (l : list A) : M (list B) :=
  match l with
  | [] => ret []
  | a :: l' => b <- f a ;; bs <- mapM f l' ;; ret (b :: bs)
  end.

(** [mcp.use_tool(name, ...)]: call of the registered tool. *)
Definition use_tool {A} (tool : M A) : M A := tool.

(** ** Strings *)

(** [s.replace(old, new)] for a non-empty [old]: [skip] counts the
    characters of a match still to be dropped. *)
Fixpoint replace_from (old new : string) (skip : nat) (s : string) : string :=
  match s with
  | EmptyString => EmptyString
  | String c s' =>
      match skip with
      | S k => replace_from old new k s'
      | O =>
          if prefix old s
          then new ++ replace_from old new (String.length old - 1) s'
          else String c (replace_from old new O s')
      end
  end.

Definition replace (old new s : string) : string := replace_from old new O s.

(** ** lru_cache(maxsize=100): most recently used entry first *)

Definition maxsize : nat := 100.

Fixpoint cache_find (key : string) (cache : list (string * price_dict))
  : option price_dict :=
  match cache with
  | [] => None
  | (k, v) :: rest => if String.eqb k key then Some v else cache_find key rest
  end.

Fixpoint cache_remove (key : string) (cache : list (string * price_dict))
  : list (string * price_dict) :=
  match cache with
  | [] => []
  | (k, v) :: rest =>
      if String.eqb k key then rest else (k, v) :: cache_remove key rest
  end.

Definition cache_store (key : string) (v : price_dict)
  (cache : list (string * price_dict)) : list (string * price_dict) :=
  (key, v) :: firstn (maxsize - 1) cache.

Definition set_cache (c : list (string * price_dict)) : M unit :=
  fun w => (Returned tt, mkWorld (log w) c).

Definition get_cache : M (list (string * price_dict)) :=
  fun w => (Returned (price_cache w), w).

Definition lru_cache (f : string -> M price_dict) (key : string) : M price_dict :=
  cache <- get_cache ;;
  match cache_find key cache with
  | Some v => set_cache ((key, v) :: cache_remove key cache) ;; ret v
  | None =>
      v <- f key ;;
      cache' <- get_cache ;;
      set_cache (cache_store key v cache') ;;
      ret v
  end.

(** ** The stability score (lines 355-356) *)

Definition aligned (current_rate r : Q) : bool :=
  ((0 <? r) && (0 <? current_rate)) || ((r <? 0) && (current_rate <? 0)).

(** [sum(1 for r in rates if ...)] *)
Definition same_dir_count (current_rate : Q) (rates : list Q) : nat :=
  List.length (filter (aligned current_rate) rates).

(** [same_dir / len(rates) if rates else 0] *)
Definition stability_score (current_rate : Q) (rates : list Q) : Q :=
  match rates with
  | [] => 0
  | _ :: _ =>
      Z.of_nat (same_dir_count current_rate rates)
      # Pos.of_nat (List.length rates)
  end.

Section Tools.

Variable ex : Exchange.

(** ** The tools *)

Definition get_symbol_price_body (symbol : string) : M price_dict :=
  response <- send (GetTickerPrice symbol) (fun t => ticker_price ex t symbol) ;;
  if (status_code response =? 200)%Z then
    price <- getitem (j_price (json response)) ;;
    ret (PriceInfo price symbol)
  else ret (PriceError (text response)).

Definition get_symbol_price : string -> M price_dict :=
  lru_cache get_symbol_price_body.

Fixpoint find_balance (asset : string) (balances : list balance_json)
  : M balance_dict :=
  match balances with
  | [] => ret (BalanceError ("No balance found for " ++ asset))
  | balance :: rest =>
      a <- getitem (b_asset balance) ;;
      if String.eqb a asset then
        free <- getitem (b_free balance) ;;
        ret (BalanceInfo asset free)
      else find_balance asset rest
  end.

Definition get_account_balance (asset : string) : M balance_dict :=
  response <- send GetAccount (account ex) ;;
  if (status_code response =? 200)%Z then find_balance asset (json response)
  else ret (BalanceError (text response)).

Definition place_market_order (symbol : string) (side : Side) (quantity : Q)
  : M order_dict :=
  response <- send (PostSpotOrder symbol side quantity)
                   (fun t => spot_order ex t symbol side quantity) ;;
  if (status_code response =? 200)%Z then ret (OrderMessage side quantity symbol)
  else ret (OrderError (text response)).

Definition get_funding_rate_history (symbol : string) (limit : Z)
  : M funding_data :=
  response <- send (GetFundingRate symbol limit)
                   (fun t => funding_rate ex t symbol limit) ;;
  if (status_code response =? 200)%Z then ret (FundingList (json response))
  else ret (FundingError (text response)).

Definition place_futures_order (symbol : string) (side : Side) (quantity : Q)
  : M order_dict :=
  response <- send (PostFuturesOrder symbol side quantity)
                   (fun t => futures_order ex t symbol side quantity) ;;
  if (status_code response =? 200)%Z then ret OrderJson
  else ret (OrderError (text response)).

(** ** The hedge executor *)

(** The literals [0.001] and [0.0002]: the floats nearest to 1/1000 and
    2/10000, which is what the correctly rounded division of the two
    integers yields. *)
Definition SPOT_FEE : PrimFloat.float := (1 / 1000)%float.
Definition FUTURES_FEE : PrimFloat.float := (2 / 10000)%float.

(** [balance_result.get("balance", 0)] *)
Definition balance_get (balance_result : balance_dict) : scalar :=
  match balance_result with
  | BalanceInfo _ balance => balance
  | BalanceError _ => Num 0
  end.

(** [funding_rate_data[0]['fundingRate']] *)
Definition first_funding_rate (funding_rate_data : funding_data) : M scalar :=
  match funding_rate_data with
  | FundingError _ => raise KeyError
  | FundingList [] => raise IndexError
  | FundingList (x :: _) => getitem (fundingRate x)
  end.

(** [spot_price_data["price"]] *)
Definition price_getitem (spot_price_data : price_dict) : M scalar :=
  match spot_price_data with
  | PriceInfo price _ => ret price
  | PriceError _ => raise KeyError
  end.

(** Lines 239-242: [try: float(...)  except: 0]. *)
Definition available_balance_of (balance_result : balance_dict) : M Q :=
  try_except (float (balance_get balance_result)) (ret 0).

(** Line 244:
    [min(float(quantity), available_balance) if available_balance > 0 else 0] *)
Definition actual_quantity_of (quantity : scalar) (available_balance : Q) : M Q :=
  if 0 <? available_balance
  then q <- float quantity ;; ret (py_min q available_balance)
  else ret 0.

(** Lines 248-251: the funding rate and the spot price. *)
Definition market_data (symbol : string) : M (Q * Q) :=
  funding_rate_data <- use_tool (get_funding_rate_history symbol 100) ;;
  fr <- first_funding_rate funding_rate_data ;;
  funding_rate <- float fr ;;
  spot_price_data <- use_tool (get_symbol_price symbol) ;;
  sp <- price_getitem spot_price_data ;;
  spot_price <- float sp ;;
  ret (funding_rate, spot_price).

(** Lines 253-267: open both legs, hold, close both legs. *)
Definition trade (symbol : string) (funding_rate actual_quantity : Q) : M unit :=
  (if 0 <? funding_rate then
     use_tool (place_market_order symbol BUY actual_quantity) ;;
     place_futures_order symbol SELL actual_quantity
   else
     use_tool (place_market_order symbol SELL actual_quantity) ;;
     place_futures_order symbol BUY actual_quantity) ;;
  sleep 10 ;;
  (if 0 <? funding_rate then
     place_futures_order symbol BUY actual_quantity ;;
     use_tool (place_market_order symbol SELL actual_quantity)
   else
     place_futures_order symbol SELL actual_quantity ;;
     use_tool (place_market_order symbol BUY actual_quantity)) ;;
  ret tt.

(** Lines 269-279: fees, profit and the returned dictionary, in binary64
    and in Python's order of evaluation.  The third field is the number
    the message shows. *)
Definition fee_of (spot_price actual_quantity : PrimFloat.float) : PrimFloat.float :=
  (spot_price * actual_quantity * SPOT_FEE * 2
   + spot_price * actual_quantity * FUTURES_FEE * 2)%float.

Definition profit_of (funding_rate spot_price actual_quantity : PrimFloat.float)
  : PrimFloat.float :=
  (PrimFloat.abs funding_rate * spot_price * actual_quantity)%float.

Definition report (funding_rate spot_price actual_quantity : Q) : hedge_dict :=
  let fee := fee_of (to_binary64 spot_price) (to_binary64 actual_quantity) in
  let profit := profit_of (to_binary64 funding_rate) (to_binary64 spot_price)
                          (to_binary64 actual_quantity) in
  let net_profit := (profit - fee)%float in
  HedgeDone (round_binary64 net_profit 4) (round_binary64 fee 4)
            (round_decimal net_profit 4).

(** Lines 248-279: what runs once the quantity check has passed. *)
Definition run_hedge (symbol : string) (actual_quantity : Q) : M hedge_dict :=
  data <- market_data symbol ;;
  let funding_rate := fst data in
  let spot_price := snd data in
  trade symbol funding_rate actual_quantity ;;
  ret (report funding_rate spot_price actual_quantity).

Definition insufficient (asset : string) : hedge_dict :=
  HedgeError ("Insufficient " ++ asset ++ " balance.").

Definition execute_hedge_arbitrage_strategy (symbol : string) (quantity : scalar)
  : M hedge_dict :=
  let asset := replace "USDT" "" symbol in
  balance_result <- use_tool (get_account_balance asset) ;;
  available_balance <- available_balance_of balance_result ;;
  actual_quantity <- actual_quantity_of quantity available_balance ;;
  if actual_quantity <=? 0 then ret (insufficient asset)
  else run_hedge symbol actual_quantity.

(** ** The scanner *)

Section Scan.

Variables (min_funding_rate min_avg_volume : Q) (history_days : Z)
          (stability_threshold : Q).

(** The body of the [try] block; [None] is [continue]. *)
Definition scan_body (pair : premium_json) : M (option candidate) :=
  symbol <- getitem (p_symbol pair) ;;
  lfr <- getitem (lastFundingRate pair) ;;
  current_rate <- float lfr ;;
  if Qabs current_rate <? min_funding_rate then ret None
  else
    history_resp <- send (GetFundingRate symbol (history_days * 3))
                      (fun t => funding_rate ex t symbol (history_days * 3)%Z) ;;
    if negb (status_code history_resp =? 200)%Z then ret None
    else
      rates <- mapM (fun x => v <- getitem (fundingRate x) ;; float v)
                    (json history_resp) ;;
      let stability := stability_score current_rate rates in
      ticker_resp <- send (GetTicker24hr symbol)
                       (fun t => ticker_24hr ex t symbol) ;;
      if negb (status_code ticker_resp =? 200)%Z then ret None
      else
        volume <- float (dict_get (quoteVolume (json ticker_resp)) (Num 0)) ;;
        if (min_avg_volume <? volume) && (stability_threshold <=? stability)
        then ret (Some (mkCandidate symbol current_rate volume
                                    (round stability 2)))
        else ret None.

(** One iteration of the [for] loop. *)
Definition scan_pair (pair : premium_json) : M (option candidate) :=
  try_except (scan_body pair) (ret None).

Fixpoint scan_pairs (pairs : list premium_json) (candidates : list candidate)
  : M (list candidate) :=
  match pairs with
  | [] => ret candidates
  | p :: rest =>
      c <- scan_pair p ;;
      scan_pairs rest
        (match c with Some c => candidates ++ [c] | None => candidates end)
  end.

(** The sort key [-abs(x["current_funding_rate"])]. *)
Definition sort_key (c : candidate) : Q := - Qabs (current_funding_rate c).

(** [sorted(l, key=...)]: ascending in the key and stable, as Python's
    sort is; written as an insertion sort that places an element before
    the first one whose key is not smaller.  ([sorted_perm],
    [sorted_ranked] and [sorted_tied] below pin the result down.) *)
Fixpoint insert_sorted (x : candidate) (l : list candidate) : list candidate :=
  match l with
  | [] => [x]
  | y :: l' =>
      if sort_key y <? sort_key x then y :: insert_sorted x l'
      else x :: y :: l'
  end.

Definition sorted (l : list candidate) : list candidate :=
  fold_right insert_sorted [] l.

Definition find_arbitrage_pairs : M (list scan_item) :=
  response <- send GetPremiumIndex (premium_index ex) ;;
  if negb (status_code response =? 200)%Z then
    ret [ScanError "Failed to fetch current funding data"]
  else
    candidates <- scan_pairs (json response) [] ;;
    ret (map Cand (sorted candidates)).

End Scan.

End Tools.

(** * Vocabulary of the statements *)

(** ** Worlds and logs *)

(** The world of a fresh process: nothing logged, nothing cached. *)
Definition w0 : World := mkWorld [] [].

Definition extend (w : World) (e : event) : World :=
  mkWorld (log w ++ [e]) (price_cache w).

(** The events a run adds to the log. *)
Definition new_events (w w' : World) : list event := skipn (clock w) (log w').

(** [grows w w' l]: going from [w] to [w'] appends the events [l] and may
    change the cache. *)
Definition grows (w w' : World) (l : list event) : Prop :=
  log w' = (log w ++ l)%list.

(** Order requests among a list of events. *)
Definition is_order (e : event) : bool :=
  match e with
  | Sent (PostSpotOrder _ _ _) | Sent (PostFuturesOrder _ _ _) => true
  | _ => false
  end.

Definition order_calls (events : list event) : list event := filter is_order events.

(** The quantity of an order request. *)
Definition order_quantity (e : event) : option Q :=
  match e with
  | Sent (PostSpotOrder _ _ q) | Sent (PostFuturesOrder _ _ q) => Some q
  | _ => None
  end.

(** Orders and the holding interval. *)
Definition is_step (e : event) : bool :=
  match e with
  | Slept _ => true
  | _ => is_order e
  end.

Definition steps (events : list event) : list event := filter is_step events.

(** ** The executor *)

(** The value of [available_balance] after lines 239-242. *)
Definition available_balance (balance_result : balance_dict) : Q :=
  match balance_get balance_result with
  | Num q => q
  | Junk => 0
  end.

(** The balance tool's answer carries no number under ["balance"]. *)
Definition no_parseable_balance (balance_result : balance_dict) : Prop :=
  match balance_result with
  | BalanceError _ => True
  | BalanceInfo _ Junk => True
  | BalanceInfo _ (Num _) => False
  end.

(** The value of [actual_quantity] after line 244, or the exception
    [float(quantity)] raises. *)
Definition actual_quantity (quantity : scalar) (available : Q) : outcome Q :=
  if 0 <? available then
    match quantity with
    | Num q => Returned (py_min q available)
    | Junk => Raised ValueError
    end
  else Returned 0.

(** What lines 248-249 make of the funding-rate request issued at time
    [t]: the first sample's rate, or the exception raised on the way. *)
Definition funding_rate_outcome (ex : Exchange) (symbol : string) (t : nat)
  : outcome Q :=
  match funding_rate ex t symbol 100 with
  | Responded r =>
      if (status_code r =? 200)%Z then
        match json r with
        | x :: _ =>
            match fundingRate x with
            | Some (Num fr) => Returned fr
            | Some Junk => Raised ValueError
            | None => Raised KeyError
            end
        | [] => Raised IndexError
        end
      else Raised KeyError
  | NoReply => Raised RequestException
  end.

Definition fetched_funding_rate (ex : Exchange) (symbol : string) (t : nat)
  : option Q :=
  match funding_rate_outcome ex symbol t with
  | Returned fr => Some fr
  | Raised _ => None
  end.

Definition is_done (result : outcome hedge_dict) : bool :=
  match result with
  | Returned (HedgeDone _ _ _) => true
  | _ => false
  end.

(** The five steps of one execution, as the events they leave in the log:
    opening spot leg, opening futures leg, holding interval, closing
    futures leg, closing spot leg; long spot and short futures on open when
    the funding rate is positive, the mirror image otherwise. *)
Definition spec_legs (symbol : string) (funding_rate quantity : Q) : list event :=
  if 0 <? funding_rate then
    [Sent (PostSpotOrder symbol BUY quantity);
     Sent (PostFuturesOrder symbol SELL quantity);
     Slept 10;
     Sent (PostFuturesOrder symbol BUY quantity);
     Sent (PostSpotOrder symbol SELL quantity)]
  else
    [Sent (PostSpotOrder symbol SELL quantity);
     Sent (PostFuturesOrder symbol BUY quantity);
     Slept 10;
     Sent (PostFuturesOrder symbol SELL quantity);
     Sent (PostSpotOrder symbol BUY quantity)].

(** The exchange's reply to an order request issued at time [t]. *)
Definition order_reply (ex : Exchange) (t : nat) (e : event) : option (reply unit) :=
  match e with
  | Sent (PostSpotOrder s side q) => Some (spot_order ex t s side q)
  | Sent (PostFuturesOrder s side q) => Some (futures_order ex t s side q)
  | _ => None
  end.

(** The order request [e] issued at time [t] fails: no reply, or a reply
    with a status other than 200. *)
Definition order_failed (ex : Exchange) (t : nat) (e : event) : bool :=
  match order_reply ex t e with
  | Some (Responded r) => negb (status_code r =? 200)%Z
  | Some NoReply => true
  | None => false
  end.

(** Every order request gets a reply, of whatever status. *)
Definition orders_answered (ex : Exchange) : Prop :=
  forall (t : nat) (s : string) (side : Side) (q : Q),
    spot_order ex t s side q <> NoReply /\ futures_order ex t s side q <> NoReply.

(** The reading of the failure rule on one run: once an order request of
    the run has failed, the run does not report success and sends no
    further order. *)
Definition stops_at_failed_leg (ex : Exchange) (symbol : string)
           (quantity : scalar) (w : World) : Prop :=
  let run := execute_hedge_arbitrage_strategy ex symbol quantity w in
  forall (t : nat) (e : event),
    (clock w <= t)%nat ->
    nth_error (log (snd run)) t = Some e ->
    order_failed ex t e = true ->
    is_done (fst run) = false
    /\ order_calls (skipn (S t) (log (snd run))) = [].

(** The balance lookup of a run started in [w] fails: the balance tool
    raises, or what it returns carries no number under ["balance"]. *)
Definition balance_lookup_fails (ex : Exchange) (asset : string) (w : World) : Prop :=
  match fst (get_account_balance ex asset w) with
  | Returned balance_result => no_parseable_balance balance_result
  | Raised _ => True
  end.

(** The reading of the balance-failure rule on one run: a failed lookup
    makes the run return the insufficient-balance error. *)
Definition failure_surfaces_as_insufficient_balance (ex : Exchange)
           (symbol : string) (quantity : scalar) (w : World) : Prop :=
  balance_lookup_fails ex (replace "USDT" "" symbol) w ->
  fst (execute_hedge_arbitrage_strategy ex symbol quantity w)
  = Returned (insufficient (replace "USDT" "" symbol)).

(** The reading of "the five steps always occur" on one run: a run that
    has sent its first order performs all five steps. *)
Definition performs_all_five_steps (ex : Exchange) (symbol : string)
           (quantity : scalar) (w : World) : Prop :=
  let run := execute_hedge_arbitrage_strategy ex symbol quantity w in
  steps (new_events w (snd run)) <> [] ->
  exists fr q, steps (new_events w (snd run)) = spec_legs symbol fr q.

(** ** The stability score *)

(** The score in the words of its contract: a sample is aligned when it and
    the reference rate are both strictly positive or both strictly
    negative; the score is the number of aligned samples over the length
    of the history, and 0 for an empty history. *)
Definition shares_sign (reference sample : Q) : Prop :=
  (0 < sample /\ 0 < reference) \/ (sample < 0 /\ reference < 0).

Definition sign (q : Q) : comparison := Qcompare q 0.

Definition shares_signb (reference sample : Q) : bool :=
  match sign reference, sign sample with
  | Gt, Gt | Lt, Lt => true
  | _, _ => false
  end.

Fixpoint aligned_count (reference : Q) (history : list Q) : nat :=
  match history with
  | [] => O
  | sample :: rest =>
      if shares_signb reference sample
      then S (aligned_count reference rest)
      else aligned_count reference rest
  end.

Definition spec_score (reference : Q) (history : list Q) : Q :=
  match history with
  | [] => 0
  | _ :: _ =>
      inject_Z (Z.of_nat (aligned_count reference history))
      / inject_Z (Z.of_nat (List.length history))
  end.

(** ** The scanner *)

(** What line 354 makes of a history payload: the list of rates, or the
    exception raised at the first sample that cannot be read. *)
Fixpoint history_rates (l : list funding_json) : outcome (list Q) :=
  match l with
  | [] => Returned []
  | x :: rest =>
      match fundingRate x with
      | Some (Num q) =>
          match history_rates rest with
          | Returned qs => Returned (q :: qs)
          | Raised e => Raised e
          end
      | Some Junk => Raised ValueError
      | None => Raised KeyError
      end
  end.

Section ScanVocabulary.

Variable ex : Exchange.
Variables (min_funding_rate min_avg_volume : Q) (history_days : Z)
          (stability_threshold : Q).

(** The world reached after the loop has gone through [pairs]. *)
Fixpoint world_after (pairs : list premium_json) (w : World) : World :=
  match pairs with
  | [] => w
  | p :: rest =>
      world_after rest
        (snd (scan_pair ex min_funding_rate min_avg_volume history_days
                stability_threshold p w))
  end.

(** The candidates the loop appends while going through [pairs]. *)
Fixpoint collected (pairs : list premium_json) (w : World) : list candidate :=
  match pairs with
  | [] => []
  | p :: rest =>
      let run := scan_pair ex min_funding_rate min_avg_volume history_days
                   stability_threshold p w in
      match fst run with
      | Returned (Some c) => c :: collected rest (snd run)
      | _ => collected rest (snd run)
      end
  end.


(** The history request of an iteration started in [w] fails. *)
Definition history_fetch_fails (w : World) (symbol : string) : Prop :=
  match funding_rate ex (clock w) symbol (history_days * 3) with
  | Responded r => status_code r <> 200%Z
  | NoReply => True
  end.

(** The 24h ticker request of an iteration started in [w] fails. *)
Definition ticker_fetch_fails (w : World) (symbol : string) : Prop :=
  match ticker_24hr ex (S (clock w)) symbol with
  | Responded r => status_code r <> 200%Z
  | NoReply => True
  end.

(** The batched request of a scan started in [w] fails. *)
Definition batched_fetch_fails (w : World) : Prop :=
  match premium_index ex (clock w) with
  | Responded r => status_code r <> 200%Z
  | NoReply => True
  end.

End ScanVocabulary.



(** A scan fails wholesale: it raises, or what it returns holds an error
    entry. *)
Definition scan_fails (result : outcome (list scan_item)) : Prop :=
  match result with
  | Returned items => exists error, In (ScanError error) items
  | Raised _ => True
  end.

(** ** Ranking *)

Definition abs_rate (c : candidate) : Q := Qabs (current_funding_rate c).

(** Sorted by descending absolute current funding rate. *)
Definition ranked (l : list candidate) : Prop :=
  StronglySorted (fun a b => abs_rate b <= abs_rate a) l.

(** No two distinct candidates of [l] have the same absolute rate. *)
Definition no_ties (l : list candidate) : Prop :=
  forall a b, In a l -> In b l -> abs_rate a == abs_rate b -> a = b.

(** The absolute rate in lowest terms: equal rates have equal keys. *)
Definition rank_key (c : candidate) : Q := Qred (abs_rate c).

(** The candidates whose absolute rate is [k]. *)
Definition tied (k : Q) (l : list candidate) : list candidate :=
  filter (fun c => Qeq_bool (abs_rate c) k) l.

Definition candidates_of (items : list scan_item) : list candidate :=
  flat_map (fun i => match i with Cand c => [c] | ScanError _ => [] end) items.

(** The per-symbol endpoints answer the same at all times. *)
Definition static (ex : Exchange) : Prop :=
  (forall (t t' : nat) (s : string) (limit : Z),
      funding_rate ex t s limit = funding_rate ex t' s limit)
  /\ (forall (t t' : nat) (s : string), ticker_24hr ex t s = ticker_24hr ex t' s).

(** What one premium-index entry contributes to the candidates when the
    per-symbol endpoints are static. *)
Definition picked (ex : Exchange) (min_funding_rate min_avg_volume : Q)
           (history_days : Z) (stability_threshold : Q) (p : premium_json)
  : list candidate :=
  match fst (scan_pair ex min_funding_rate min_avg_volume history_days
               stability_threshold p w0) with
  | Returned (Some c) => [c]
  | _ => []
  end.

(** ** Sample exchanges and parameters *)

Definition ok {J} (j : J) : reply J := Responded (mkResponse 200 j "").

Definition refused {J} (j : J) : reply J :=
  Responded (mkResponse 400 j "{code: -1013, msg: rejected}").

(** An exchange that accepts every order, holds [free] BTC for the
    account, and quotes one funding rate and one spot price. *)
Definition quiet_exchange (free : scalar) (rate price : Q) : Exchange :=
  mkExchange
    (fun _ _ => ok (mkPrice (Some (Num price))))
    (fun _ => ok [mkBalance (Some "ETH") (Some (Num 7));
                  mkBalance (Some "BTC") (Some free)])
    (fun _ _ _ _ => ok tt)
    (fun _ _ _ _ => ok tt)
    (fun _ _ _ => ok [mkFunding (Some (Num rate))])
    (fun _ => ok [])
    (fun _ _ => ok (mkTicker None)).

(** An exchange whose account endpoint is down. *)
Definition account_down : Exchange :=
  mkExchange
    (ticker_price (quiet_exchange (Num 1) (1 # 1000) 100))
    (fun _ => Responded (mkResponse 503 [] "Service Unavailable"))
    (spot_order (quiet_exchange (Num 1) (1 # 1000) 100))
    (futures_order (quiet_exchange (Num 1) (1 # 1000) 100))
    (funding_rate (quiet_exchange (Num 1) (1 # 1000) 100))
    (premium_index (quiet_exchange (Num 1) (1 # 1000) 100))
    (ticker_24hr (quiet_exchange (Num 1) (1 # 1000) 100)).

(** An exchange whose account endpoint does not answer. *)
Definition account_unreachable : Exchange :=
  mkExchange
    (ticker_price (quiet_exchange (Num 1) (1 # 1000) 100))
    (fun _ => NoReply)
    (spot_order (quiet_exchange (Num 1) (1 # 1000) 100))
    (futures_order (quiet_exchange (Num 1) (1 # 1000) 100))
    (funding_rate (quiet_exchange (Num 1) (1 # 1000) 100))
    (premium_index (quiet_exchange (Num 1) (1 # 1000) 100))
    (ticker_24hr (quiet_exchange (Num 1) (1 # 1000) 100)).

(** An exchange whose account payload lists BTC without a free amount. *)
Definition account_without_free : Exchange :=
  mkExchange
    (ticker_price (quiet_exchange (Num 1) (1 # 1000) 100))
    (fun _ => ok [mkBalance (Some "BTC") None])
    (spot_order (quiet_exchange (Num 1) (1 # 1000) 100))
    (futures_order (quiet_exchange (Num 1) (1 # 1000) 100))
    (funding_rate (quiet_exchange (Num 1) (1 # 1000) 100))
    (premium_index (quiet_exchange (Num 1) (1 # 1000) 100))
    (ticker_24hr (quiet_exchange (Num 1) (1 # 1000) 100)).

(** An exchange whose futures endpoint does not answer. *)
Definition futures_unreachable : Exchange :=
  mkExchange
    (ticker_price (quiet_exchange (Num 1) (1 # 1000) 100))
    (account (quiet_exchange (Num 1) (1 # 1000) 100))
    (spot_order (quiet_exchange (Num 1) (1 # 1000) 100))
    (fun _ _ _ _ => NoReply)
    (funding_rate (quiet_exchange (Num 1) (1 # 1000) 100))
    (premium_index (quiet_exchange (Num 1) (1 # 1000) 100))
    (ticker_24hr (quiet_exchange (Num 1) (1 # 1000) 100)).

(** An exchange that turns down every futures order. *)
Definition futures_refused : Exchange :=
  mkExchange
    (ticker_price (quiet_exchange (Num 1) (1 # 1000) 100))
    (account (quiet_exchange (Num 1) (1 # 1000) 100))
    (spot_order (quiet_exchange (Num 1) (1 # 1000) 100))
    (fun _ _ _ _ => refused tt)
    (funding_rate (quiet_exchange (Num 1) (1 # 1000) 100))
    (premium_index (quiet_exchange (Num 1) (1 # 1000) 100))
    (ticker_24hr (quiet_exchange (Num 1) (1 # 1000) 100)).

(** An exchange whose spot price is 100 at time 0 and 200 afterwards. *)
Definition moving_price : Exchange :=
  mkExchange
    (fun t _ => ok (mkPrice (Some (Num (if Nat.eqb t 0 then 100 else 200)))))
    (account (quiet_exchange (Num 1) (1 # 1000) 100))
    (spot_order (quiet_exchange (Num 1) (1 # 1000) 100))
    (futures_order (quiet_exchange (Num 1) (1 # 1000) 100))
    (funding_rate (quiet_exchange (Num 1) (1 # 1000) 100))
    (premium_index (quiet_exchange (Num 1) (1 # 1000) 100))
    (ticker_24hr (quiet_exchange (Num 1) (1 # 1000) 100)).

(** A static market with three listed symbols, two of them tied in
    absolute rate; the listing comes in one order at time 0 and reversed
    later. *)
Definition listing : list premium_json :=
  [mkPremium (Some "AAAUSDT") (Some (Num (1 # 1000)));
   mkPremium (Some "BBBUSDT") (Some (Num (- 2 # 1000)));
   mkPremium (Some "TIEUSDT") (Some (Num (- 1 # 1000)))].

Definition history_of (s : string) : list funding_json :=
  if String.eqb s "AAAUSDT"
  then [mkFunding (Some (Num (1 # 1000))); mkFunding (Some (Num (2 # 1000)))]
  else [mkFunding (Some (Num (- 1 # 1000))); mkFunding (Some (Num (- 3 # 1000)))].

Definition market : Exchange :=
  mkExchange
    (fun _ _ => ok (mkPrice (Some (Num 100))))
    (fun _ => ok [])
    (fun _ _ _ _ => ok tt)
    (fun _ _ _ _ => ok tt)
    (fun _ s _ => ok (history_of s))
    (fun t => if Nat.eqb t 0 then ok listing else ok (rev listing))
    (fun _ _ => ok (mkTicker (Some (Num 2000000)))).

(** The same market with the per-symbol endpoints of BBBUSDT down. *)
Definition market_with_outage : Exchange :=
  mkExchange
    (ticker_price market)
    (account market)
    (spot_order market)
    (futures_order market)
    (fun t s limit =>
       if String.eqb s "BBBUSDT" then NoReply else funding_rate market t s limit)
    (premium_index market)
    (ticker_24hr market).

(** The defaults of [find_arbitrage_pairs]. *)
Definition default_min_funding_rate : Q := 5 # 10000.
Definition default_min_avg_volume : Q := 1000000.
Definition default_history_days : Z := 7.
Definition default_stability_threshold : Q := 8 # 10.

(** * Further vocabulary *)

(** [old] occurs in [s]. *)
Definition occurs (old s : string) : Prop := exists a b, s = a ++ old ++ b.

(** An exchange whose spot ticker endpoint turns every request down. *)
Definition price_refused : Exchange :=
  mkExchange
    (fun _ _ => refused (mkPrice None))
    (account (quiet_exchange (Num 1) (1 # 1000) 100))
    (spot_order (quiet_exchange (Num 1) (1 # 1000) 100))
    (futures_order (quiet_exchange (Num 1) (1 # 1000) 100))
    (funding_rate (quiet_exchange (Num 1) (1 # 1000) 100))
    (premium_index (quiet_exchange (Num 1) (1 # 1000) 100))
    (ticker_24hr (quiet_exchange (Num 1) (1 # 1000) 100)).

(** A balance entry for another asset than [asset]. *)
Definition other_asset (asset : string) (b : balance_json) : Prop :=
  exists a, b_asset b = Some a /\ a <> asset.

(** The symbol of an order request. *)
Definition order_symbol (e : event) : option string :=
  match e with
  | Sent (PostSpotOrder s _ _) | Sent (PostFuturesOrder s _ _) => Some s
  | _ => None
  end.

Definition is_ticker_request (e : event) : bool :=
  match e with
  | Sent (GetTickerPrice _) => true
  | _ => false
  end.

(** A premium-index entry that gets past the funding-rate filter of
    line 343: it names a symbol and a numeric rate whose absolute value is
    not below [min_funding_rate]. *)
Definition survives (min_funding_rate : Q) (p : premium_json) : bool :=
  match p_symbol p, lastFundingRate p with
  | Some _, Some (Num rate) => negb (Qabs rate <? min_funding_rate)
  | _, _ => false
  end.

(** The entries the batched request of a scan started in [w] delivers. *)
Definition listed (ex : Exchange) (w : World) : list premium_json :=
  match premium_index ex (clock w) with
  | Responded r => if (status_code r =? 200)%Z then json r else []
  | NoReply => []
  end.

(** * The account tools: trade history and open orders (lines 107-173)

    These two tools send one signed request each and summarise the reply.
    Their requests are kept in a log of their own, and their endpoints in
    an oracle of their own, indexed like [Exchange] by the number of
    requests sent so far.  A raw JSON value that is passed through is kept
    as text. *)

(** Element of the myTrades payload. *)
Record trade_json : Type := mkTrade {
  tr_time : option string;
  tr_isBuyer : option bool;
  tr_qty : option string;
  tr_price : option string
}.

(** Element of the openOrders payload. *)
Record order_json : Type := mkOrder {
  or_side : option string;
  or_origQty : option string;
  or_price : option string
}.

Inductive account_request : Type :=
| GetMyTrades (symbol : string) (limit : Z)
| GetOpenOrders (symbol : string).

Record AccountDesk : Type := mkDesk {
  my_trades : nat -> string -> Z -> reply (list trade_json);
  open_orders : nat -> string -> reply (list order_json)
}.

(** One entry of what [get_trade_history] returns. *)
Record trade_summary : Type := mkTradeSummary {
  ts_time : string;
  ts_side : Side;
  ts_qty : string;
  ts_price : string
}.

(** One entry of what [get_open_orders] returns. *)
Record order_summary : Type := mkOrderSummary {
  os_side : string;
  os_quantity : string;
  os_price : string
}.

Inductive trade_history : Type :=
| TradeList (l : list trade_summary)
| TradeError (error : string).

Inductive open_orders_result : Type :=
| OpenOrderList (l : list order_summary)
| OpenOrdersError (error : string).

(** The dictionary built for one trade (lines 133-138); a missing key
    raises [KeyError]. *)
Definition summarise_trade (trade : trade_json) : outcome trade_summary :=
  match tr_time trade, tr_isBuyer trade, tr_qty trade, tr_price trade with
  | Some time, Some isBuyer, Some qty, Some price =>
      Returned (mkTradeSummary time (if isBuyer then BUY else SELL) qty price)
  | _, _, _, _ => Raised KeyError
  end.

(** The dictionary built for one open order (lines 167-171). *)
Definition summarise_order (order : order_json) : outcome order_summary :=
  match or_side order, or_origQty order, or_price order with
  | Some side, Some origQty, Some price =>
      Returned (mkOrderSummary side origQty price)
  | _, _, _ => Raised KeyError
  end.

(** A list comprehension [[f(x) for x in l]]: the first exception ends
    it. *)
Fixpoint comprehension {A B} (f : A -> outcome B) (l : list A) : outcome (list B) :=
  match l with
  | [] => Returned []
  | x :: rest =>
      match f x with
      | Returned y =>
          match comprehension f rest with
          | Returned ys => Returned (y :: ys)
          | Raised e => Raised e
          end
      | Raised e => Raised e
      end
  end.

Definition get_trade_history (desk : AccountDesk) (symbol : string) (limit : Z)
           (sent : list account_request)
  : outcome trade_history * list account_request :=
  let sent' := (sent ++ [GetMyTrades symbol limit])%list in
  match my_trades desk (List.length sent) symbol limit with
  | Responded response =>
      if (status_code response =? 200)%Z then
        match comprehension summarise_trade (json response) with
        | Returned l => (Returned (TradeList l), sent')
        | Raised e => (Raised e, sent')
        end
      else (Returned (TradeError (text response)), sent')
  | NoReply => (Raised RequestException, sent')
  end.

Definition get_open_orders (desk : AccountDesk) (symbol : string)
           (sent : list account_request)
  : outcome open_orders_result * list account_request :=
  let sent' := (sent ++ [GetOpenOrders symbol])%list in
  match open_orders desk (List.length sent) symbol with
  | Responded response =>
      if (status_code response =? 200)%Z then
        match comprehension summarise_order (json response) with
        | Returned l => (Returned (OpenOrderList l), sent')
        | Raised e => (Raised e, sent')
        end
      else (Returned (OpenOrdersError (text response)), sent')
  | NoReply => (Raised RequestException, sent')
  end.

(** Every key the summary reads is present. *)
Definition complete_trade (trade : trade_json) : Prop :=
  tr_time trade <> None /\ tr_isBuyer trade <> None
  /\ tr_qty trade <> None /\ tr_price trade <> None.

Definition complete_order (order : order_json) : Prop :=
  or_side order <> None /\ or_origQty order <> None /\ or_price order <> None.

(** The summary [s] renders the trade [trade]. *)
Definition renders_trade (trade : trade_json) (s : trade_summary) : Prop :=
  tr_time trade = Some (ts_time s)
  /\ tr_isBuyer trade = Some (match ts_side s with BUY => true | SELL => false end)
  /\ tr_qty trade = Some (ts_qty s)
  /\ tr_price trade = Some (ts_price s).

Definition renders_order (order : order_json) (s : order_summary) : Prop :=
  or_side order = Some (os_side s)
  /\ or_origQty order = Some (os_quantity s)
  /\ or_price order = Some (os_price s).

(** A desk with two trades and one open order. *)
Definition sample_desk : AccountDesk :=
  mkDesk
    (fun _ _ _ =>
       ok [mkTrade (Some "1700000000000") (Some true) (Some "0.5") (Some "100.0");
           mkTrade (Some "1700000360000") (Some false) (Some "0.5") (Some "101.5")])
    (fun _ _ => ok [mkOrder (Some "SELL") (Some "0.25") (Some "120.0")]).

(** * Properties *)

(** ** Comparisons *)

Lemma Qltb_lt (x y : Q) : (x <? y) = true <-> x < y.
Proof.
  unfold Qltb. rewrite negb_true_iff, <- not_true_iff_false, Qle_bool_iff.
  split; [apply Qnot_le_lt | apply Qlt_not_le].
Qed.

Lemma Qltb_ge (x y : Q) : (x <? y) = false <-> y <= x.
Proof.
  unfold Qltb. rewrite negb_false_iff. apply Qle_bool_iff.
Qed.

Lemma Qleb_gt (x y : Q) : (x <=? y) = false <-> y < x.
Proof.
  rewrite <- not_true_iff_false, Qle_bool_iff.
  split; [apply Qnot_le_lt | apply Qlt_not_le].
Qed.

(** Python's [min] of two numbers: below both, one of them, and the
    minimum of the rationals. *)
Lemma py_min_bounds (a b : Q) : py_min a b <= a /\ py_min a b <= b.
Proof.
  unfold py_min. destruct (b <? a) eqn:H.
  - apply Qltb_lt in H. split; lra.
  - apply Qltb_ge in H. split; lra.
Qed.

Lemma py_min_cases (a b : Q) : py_min a b = a \/ py_min a b = b.
Proof. unfold py_min. destruct (b <? a); [now right | now left]. Qed.

Lemma py_min_Qmin (a b : Q) : py_min a b == Qmin a b.
Proof.
  unfold py_min. destruct (b <? a) eqn:H.
  - apply Qltb_lt in H. symmetry. apply Q.min_r. lra.
  - apply Qltb_ge in H. symmetry. apply Q.min_l. exact H.
Qed.

(** ** Running monadic code *)

Lemma bind_returned {A B} (m : M A) (k : A -> M B) (w w' : World) (a : A) :
  m w = (Returned a, w') -> bind m k w = k a w'.
Proof. intros H; unfold bind; now rewrite H. Qed.

Lemma bind_raised {A B} (m : M A) (k : A -> M B) (w w' : World) (e : exn) :
  m w = (Raised e, w') -> bind m k w = (Raised e, w').
Proof. intros H; unfold bind; now rewrite H. Qed.

Lemma bind_assoc {A B C} (m : M A) (f : A -> M B) (g : B -> M C) (w : World) :
  bind (bind m f) g w = bind m (fun x => bind (f x) g) w.
Proof. unfold bind. now destruct (m w) as [[a|e] w']. Qed.

Lemma bind_ret {A B} (a : A) (k : A -> M B) (w : World) :
  bind (ret a) k w = k a w.
Proof. reflexivity. Qed.

Lemma bind_sleep {B} (n : Z) (k : unit -> M B) (w : World) :
  bind (sleep n) k w = k tt (extend w (Slept n)).
Proof. reflexivity. Qed.

Lemma clock_extend (w : World) (e : event) : clock (extend w e) = S (clock w).
Proof. unfold clock, extend; simpl. rewrite length_app; simpl; lia. Qed.

Lemma send_responded {J} (req : request) (oracle : nat -> reply J)
      (w : World) (r : response J) :
  oracle (clock w) = Responded r ->
  send req oracle w = (Returned r, extend w (Sent req)).
Proof. intros H; unfold send; now rewrite H. Qed.

Lemma send_world {J} (req : request) (oracle : nat -> reply J) (w : World) :
  snd (send req oracle w) = extend w (Sent req).
Proof. unfold send; now destruct (oracle (clock w)). Qed.

(** ** Growth of the log *)

Lemma grows_trans (w w1 w2 : World) (l1 l2 : list event) :
  grows w w1 l1 -> grows w1 w2 l2 -> grows w w2 (l1 ++ l2).
Proof. unfold grows. intros H1 H2. now rewrite H2, H1, app_assoc. Qed.

Lemma grows_extend (w : World) (e : event) : grows w (extend w e) [e].
Proof. reflexivity. Qed.

Lemma new_events_app (w w' : World) (l : list event) :
  log w' = (log w ++ l)%list -> new_events w w' = l.
Proof.
  intros H. unfold new_events, clock. rewrite H.
  rewrite skipn_app, skipn_all, Nat.sub_diag. reflexivity.
Qed.

Lemma grows_new_events (w w' : World) (l : list event) :
  grows w w' l -> new_events w w' = l.
Proof. apply new_events_app. Qed.

Lemma steps_app (l1 l2 : list event) : steps (l1 ++ l2) = (steps l1 ++ steps l2)%list.
Proof. apply filter_app. Qed.

(** ** The balance tool *)

Lemma find_balance_world (asset : string) (balances : list balance_json) (w : World) :
  snd (find_balance asset balances w) = w.
Proof.
  induction balances as [|b rest IH]; simpl; [reflexivity|].
  unfold bind, getitem.
  destruct (b_asset b) as [a|]; simpl; [|reflexivity].
  destruct (String.eqb a asset); [|exact IH].
  now destruct (b_free b).
Qed.

(** The balance tool issues exactly one request, whatever it answers. *)
Lemma get_account_balance_world (ex : Exchange) (asset : string) (w : World) :
  snd (get_account_balance ex asset w) = extend w (Sent GetAccount).
Proof.
  unfold get_account_balance, bind.
  pose proof (send_world GetAccount (account ex) w) as Hs.
  destruct (send GetAccount (account ex) w) as [[r|e] w1]; simpl in Hs; subst w1;
    [|reflexivity].
  destruct (status_code r =? 200)%Z; [|reflexivity].
  apply find_balance_world.
Qed.

Lemma get_account_balance_refused (ex : Exchange) (asset : string) (w : World)
      (r : response (list balance_json)) :
  account ex (clock w) = Responded r ->
  status_code r <> 200%Z ->
  get_account_balance ex asset w
  = (Returned (BalanceError (text r)), extend w (Sent GetAccount)).
Proof.
  intros Hr Hs. unfold get_account_balance.
  rewrite (bind_returned _ _ _ _ _ (send_responded _ _ _ _ Hr)).
  apply Z.eqb_neq in Hs. now rewrite Hs.
Qed.

(** ** The order tools *)

Lemma place_market_order_world (ex : Exchange) (symbol : string) (side : Side)
      (q : Q) (w : World) :
  snd (place_market_order ex symbol side q w)
  = extend w (Sent (PostSpotOrder symbol side q)).
Proof.
  unfold place_market_order, bind, send.
  destruct (spot_order ex (clock w) symbol side q) as [r|]; [|reflexivity].
  now destruct (status_code r =? 200)%Z.
Qed.

Lemma place_futures_order_world (ex : Exchange) (symbol : string) (side : Side)
      (q : Q) (w : World) :
  snd (place_futures_order ex symbol side q w)
  = extend w (Sent (PostFuturesOrder symbol side q)).
Proof.
  unfold place_futures_order, bind, send.
  destruct (futures_order ex (clock w) symbol side q) as [r|]; [|reflexivity].
  now destruct (status_code r =? 200)%Z.
Qed.

(** An answered order request returns to the caller, whatever its status. *)
Lemma place_market_order_answered (ex : Exchange) (symbol : string) (side : Side)
      (q : Q) (w : World) :
  spot_order ex (clock w) symbol side q <> NoReply ->
  exists d, place_market_order ex symbol side q w
            = (Returned d, extend w (Sent (PostSpotOrder symbol side q))).
Proof.
  intros H. unfold place_market_order, bind, send.
  destruct (spot_order ex (clock w) symbol side q) as [r|]; [|contradiction].
  destruct (status_code r =? 200)%Z; eexists; reflexivity.
Qed.

Lemma place_futures_order_answered (ex : Exchange) (symbol : string) (side : Side)
      (q : Q) (w : World) :
  futures_order ex (clock w) symbol side q <> NoReply ->
  exists d, place_futures_order ex symbol side q w
            = (Returned d, extend w (Sent (PostFuturesOrder symbol side q))).
Proof.
  intros H. unfold place_futures_order, bind, send.
  destruct (futures_order ex (clock w) symbol side q) as [r|]; [|contradiction].
  destruct (status_code r =? 200)%Z; eexists; reflexivity.
Qed.

(** ** The cached price tool *)

Lemma get_symbol_price_body_world (ex : Exchange) (symbol : string) (w : World) :
  snd (get_symbol_price_body ex symbol w) = extend w (Sent (GetTickerPrice symbol)).
Proof.
  unfold get_symbol_price_body, bind, send.
  destruct (ticker_price ex (clock w) symbol) as [r|]; [|reflexivity].
  destruct (status_code r =? 200)%Z; [|reflexivity].
  now destruct (j_price (json r)).
Qed.

(** A hit answers from the cache and sends nothing. *)
Lemma get_symbol_price_hit (ex : Exchange) (symbol : string) (w : World)
      (v : price_dict) :
  cache_find symbol (price_cache w) = Some v ->
  get_symbol_price ex symbol w
  = (Returned v,
     mkWorld (log w) ((symbol, v) :: cache_remove symbol (price_cache w))).
Proof.
  intros H. unfold get_symbol_price, lru_cache, bind, get_cache; simpl.
  now rewrite H.
Qed.

(** A miss runs the body and stores what it returns. *)
Lemma get_symbol_price_miss (ex : Exchange) (symbol : string) (w : World) :
  cache_find symbol (price_cache w) = None ->
  get_symbol_price ex symbol w
  = match fst (get_symbol_price_body ex symbol w) with
    | Returned v =>
        (Returned v,
         mkWorld (log w ++ [Sent (GetTickerPrice symbol)])
                 (cache_store symbol v (price_cache w)))
    | Raised e => (Raised e, extend w (Sent (GetTickerPrice symbol)))
    end.
Proof.
  intros H. unfold get_symbol_price, lru_cache, bind, get_cache; simpl.
  rewrite H.
  pose proof (get_symbol_price_body_world ex symbol w) as Hw.
  destruct (get_symbol_price_body ex symbol w) as [[v|e] w1]; simpl in *; subst w1;
    reflexivity.
Qed.

Lemma get_symbol_price_grows (ex : Exchange) (symbol : string) (w : World) :
  exists l, grows w (snd (get_symbol_price ex symbol w)) l /\ steps l = [].
Proof.
  destruct (cache_find symbol (price_cache w)) as [v|] eqn:Hc.
  - rewrite (get_symbol_price_hit _ _ _ _ Hc). exists []. split; [|reflexivity].
    unfold grows; simpl. now rewrite app_nil_r.
  - rewrite (get_symbol_price_miss _ _ _ Hc).
    exists [Sent (GetTickerPrice symbol)]. split; [|reflexivity].
    now destruct (fst (get_symbol_price_body ex symbol w)).
Qed.

Lemma cache_find_store (key : string) (v : price_dict)
      (cache : list (string * price_dict)) :
  cache_find key (cache_store key v cache) = Some v.
Proof. unfold cache_store; simpl. now rewrite String.eqb_refl. Qed.

(** Once [get_symbol_price] has returned for a symbol, the next call for
    that symbol returns the same dictionary without any request, whatever
    the exchange would answer by then. *)
Lemma get_symbol_price_repeats (ex ex' : Exchange) (symbol : string)
      (w w1 : World) (v : price_dict) :
  get_symbol_price ex symbol w = (Returned v, w1) ->
  exists w2, get_symbol_price ex' symbol w1 = (Returned v, w2)
             /\ log w2 = log w1.
Proof.
  intros Hfirst.
  assert (Hc : cache_find symbol (price_cache w1) = Some v).
  { destruct (cache_find symbol (price_cache w)) as [v0|] eqn:Hw.
    - rewrite (get_symbol_price_hit _ _ _ _ Hw) in Hfirst.
      inversion Hfirst; subst. simpl. now rewrite String.eqb_refl.
    - rewrite (get_symbol_price_miss _ _ _ Hw) in Hfirst.
      destruct (fst (get_symbol_price_body ex symbol w)) as [v0|e];
        inversion Hfirst; subst. simpl. apply cache_find_store. }
  rewrite (get_symbol_price_hit _ _ _ _ Hc). eexists. split; reflexivity.
Qed.

(** ** Market data *)

(** Lines 248-251, step by step. *)
Lemma market_data_run (ex : Exchange) (symbol : string) (w : World) :
  market_data ex symbol w
  = let w1 := extend w (Sent (GetFundingRate symbol 100)) in
    match funding_rate_outcome ex symbol (clock w) with
    | Raised e => (Raised e, w1)
    | Returned fr =>
        match get_symbol_price ex symbol w1 with
        | (Returned (PriceInfo (Num sp) _), w2) => (Returned (fr, sp), w2)
        | (Returned (PriceInfo Junk _), w2) => (Raised ValueError, w2)
        | (Returned (PriceError _), w2) => (Raised KeyError, w2)
        | (Raised e, w2) => (Raised e, w2)
        end
    end.
Proof.
  unfold market_data, use_tool, funding_rate_outcome, get_funding_rate_history.
  unfold bind at 1 2. unfold send.
  destruct (funding_rate ex (clock w) symbol 100) as [r|]; [|reflexivity].
  destruct (status_code r =? 200)%Z; [|reflexivity].
  simpl. destruct (json r) as [|x rest]; [reflexivity|].
  simpl. unfold bind at 1. unfold getitem.
  destruct (fundingRate x) as [[fr|]|]; try reflexivity.
  simpl. unfold bind at 1. simpl. unfold bind at 1.
  fold (extend w (Sent (GetFundingRate symbol 100))).
  destruct (get_symbol_price ex symbol (extend w (Sent (GetFundingRate symbol 100))))
    as [[[[sp|] sy|err]|e] w2]; reflexivity.
Qed.

Lemma market_data_grows (ex : Exchange) (symbol : string) (w : World) :
  exists l,
    grows w (snd (market_data ex symbol w)) l
    /\ steps l = []
    /\ (forall d, fst (market_data ex symbol w) = Returned d ->
                  fetched_funding_rate ex symbol (clock w) = Some (fst d)).
Proof.
  rewrite market_data_run. unfold fetched_funding_rate. cbv zeta.
  destruct (funding_rate_outcome ex symbol (clock w)) as [fr|e].
  - destruct (get_symbol_price_grows ex symbol
                (extend w (Sent (GetFundingRate symbol 100)))) as [l [Hg Hs]].
    exists (Sent (GetFundingRate symbol 100) :: l).
    destruct (get_symbol_price ex symbol (extend w (Sent (GetFundingRate symbol 100))))
      as [[[[sp|] sy|err]|e] w2]; simpl in *;
      (split; [exact (grows_trans _ _ _ [_] l (grows_extend _ _) Hg)|]);
      (split; [exact Hs|]); intros d Hd; inversion Hd; reflexivity.
  - exists [Sent (GetFundingRate symbol 100)]. simpl.
    split; [apply grows_extend|]. split; [reflexivity|]. discriminate.
Qed.

(** ** The five steps *)

Lemma extend_log (w : World) (l : list event) (e : event) :
  extend (mkWorld (log w ++ l) (price_cache w)) e
  = mkWorld (log w ++ (l ++ [e])) (price_cache w).
Proof. unfold extend; simpl. now rewrite app_assoc. Qed.

Lemma world_eta (w : World) : w = mkWorld (log w ++ []) (price_cache w).
Proof. destruct w; simpl. now rewrite app_nil_r. Qed.

(** Run the order request at the head of the goal, given that it is
    answered. *)
Ltac answer Hans :=
  rewrite ?bind_assoc;
  match goal with
  | |- bind (place_market_order ?ex ?s ?sd ?x) _ ?w0 = _ =>
      let H := fresh "Hrun" in
      destruct (place_market_order_answered ex s sd x w0 (proj1 (Hans _ _ _ _)))
        as [? H];
      rewrite (bind_returned _ _ _ _ _ H); clear H
  | |- bind (place_futures_order ?ex ?s ?sd ?x) _ ?w0 = _ =>
      let H := fresh "Hrun" in
      destruct (place_futures_order_answered ex s sd x w0 (proj2 (Hans _ _ _ _)))
        as [? H];
      rewrite (bind_returned _ _ _ _ _ H); clear H
  end.

(** With every order answered, [trade] performs the five steps. *)
Lemma trade_answered (ex : Exchange) (symbol : string) (fr q : Q) (w : World) :
  orders_answered ex ->
  trade ex symbol fr q w
  = (Returned tt, mkWorld (log w ++ spec_legs symbol fr q) (price_cache w)).
Proof.
  intros Hans. unfold trade, spec_legs, use_tool.
  rewrite (world_eta w) at 1.
  destruct (0 <? fr);
    answer Hans; answer Hans; rewrite bind_sleep; answer Hans; answer Hans;
    unfold ret; rewrite !extend_log; reflexivity.
Qed.

(** Run the order request at the head of the goal: it returns or raises,
    and is logged either way. *)
Ltac order_step :=
  rewrite ?bind_assoc;
  match goal with
  | |- context [bind (place_market_order ?ex ?s ?sd ?x) ?k ?w0] =>
      let Hw := fresh "Hw" in
      let E := fresh "E" in
      pose proof (place_market_order_world ex s sd x w0) as Hw;
      destruct (place_market_order ex s sd x w0) as [[?|?] ?] eqn:E;
      simpl in Hw; subst;
      [ rewrite (bind_returned _ _ _ _ _ E)
      | rewrite (bind_raised _ _ _ _ _ E) ]; clear E
  | |- context [bind (place_futures_order ?ex ?s ?sd ?x) ?k ?w0] =>
      let Hw := fresh "Hw" in
      let E := fresh "E" in
      pose proof (place_futures_order_world ex s sd x w0) as Hw;
      destruct (place_futures_order ex s sd x w0) as [[?|?] ?] eqn:E;
      simpl in Hw; subst;
      [ rewrite (bind_returned _ _ _ _ _ E)
      | rewrite (bind_raised _ _ _ _ _ E) ]; clear E
  end.

(** Whatever the exchange does, [trade] performs an initial segment of the
    five steps, in order, and returns only after all five. *)
Lemma trade_prefix (ex : Exchange) (symbol : string) (fr q : Q) (w : World) :
  exists (n : nat) (o : outcome unit),
    trade ex symbol fr q w
    = (o, mkWorld (log w ++ firstn n (spec_legs symbol fr q)) (price_cache w))
    /\ (n <= 5)%nat
    /\ (forall u, o = Returned u -> n = 5%nat).
Proof.
  unfold trade, spec_legs, use_tool.
  destruct (0 <? fr);
    (order_step; [order_step; [rewrite bind_sleep; order_step; [order_step|]|]|]);
    unfold ret, extend; simpl; rewrite <- ?app_assoc; simpl;
    let close n :=
      solve [ exists n; eexists;
              (split; [reflexivity | split; [lia | intros; congruence]]) ] in
    first [ close 5%nat | close 4%nat | close 2%nat | close 1%nat ].
Qed.

Lemma steps_firstn_legs (symbol : string) (fr q : Q) (n : nat) :
  steps (firstn n (spec_legs symbol fr q)) = firstn n (spec_legs symbol fr q).
Proof.
  unfold spec_legs. destruct (0 <? fr);
    do 6 (destruct n as [|n]; [reflexivity|]); reflexivity.
Qed.

Lemma firstn_legs_all (symbol : string) (fr q : Q) :
  firstn 5 (spec_legs symbol fr q) = spec_legs symbol fr q.
Proof. unfold spec_legs. now destruct (0 <? fr). Qed.

(** ** The executor, stage by stage *)

Lemma available_balance_of_run (balance_result : balance_dict) (w : World) :
  available_balance_of balance_result w
  = (Returned (available_balance balance_result), w).
Proof.
  unfold available_balance_of, available_balance, try_except.
  now destruct (balance_get balance_result).
Qed.

Lemma actual_quantity_of_run (quantity : scalar) (available : Q) (w : World) :
  actual_quantity_of quantity available w = (actual_quantity quantity available, w).
Proof.
  unfold actual_quantity_of, actual_quantity.
  destruct (0 <? available); [|reflexivity].
  now destruct quantity.
Qed.

Lemma run_hedge_run (ex : Exchange) (symbol : string) (q : Q) (w : World) :
  run_hedge ex symbol q w
  = match market_data ex symbol w with
    | (Returned d, w2) =>
        match trade ex symbol (fst d) q w2 with
        | (Returned _, w3) => (Returned (report (fst d) (snd d) q), w3)
        | (Raised e, w3) => (Raised e, w3)
        end
    | (Raised e, w2) => (Raised e, w2)
    end.
Proof.
  unfold run_hedge, bind.
  destruct (market_data ex symbol w) as [[d|e] w2]; [|reflexivity].
  now destruct (trade ex symbol (fst d) q w2) as [[u|e] w3].
Qed.

Lemma execute_run (ex : Exchange) (symbol : string) (quantity : scalar) (w : World) :
  execute_hedge_arbitrage_strategy ex symbol quantity w
  = match get_account_balance ex (replace "USDT" "" symbol) w with
    | (Returned balance_result, w1) =>
        match actual_quantity quantity (available_balance balance_result) with
        | Returned q =>
            if q <=? 0
            then (Returned (insufficient (replace "USDT" "" symbol)), w1)
            else run_hedge ex symbol q w1
        | Raised e => (Raised e, w1)
        end
    | (Raised e, w1) => (Raised e, w1)
    end.
Proof.
  unfold execute_hedge_arbitrage_strategy, use_tool.
  unfold bind at 1.
  destruct (get_account_balance ex (replace "USDT" "" symbol) w) as [[br|e] w1];
    [|reflexivity].
  rewrite (bind_returned _ _ _ _ _ (available_balance_of_run _ _)).
  unfold bind at 1. rewrite actual_quantity_of_run.
  destruct (actual_quantity quantity (available_balance br)) as [q|e]; [|reflexivity].
  now destruct (q <=? 0).
Qed.

(** A run that reports success went through every stage. *)
Lemma execute_done_inv (ex : Exchange) (symbol : string) (quantity : scalar)
      (w w' : World) (n f : PrimFloat.float) (m : option Q) :
  execute_hedge_arbitrage_strategy ex symbol quantity w
  = (Returned (HedgeDone n f m), w') ->
  exists balance_result w1 q fr sp w2,
    get_account_balance ex (replace "USDT" "" symbol) w = (Returned balance_result, w1)
    /\ actual_quantity quantity (available_balance balance_result) = Returned q
    /\ 0 < q
    /\ market_data ex symbol w1 = (Returned (fr, sp), w2)
    /\ trade ex symbol fr q w2 = (Returned tt, w')
    /\ HedgeDone n f m = report fr sp q.
Proof.
  rewrite execute_run.
  destruct (get_account_balance ex (replace "USDT" "" symbol) w) as [[br|e] w1] eqn:Hb;
    [|discriminate].
  destruct (actual_quantity quantity (available_balance br)) as [q|e] eqn:Hq;
    [|discriminate].
  destruct (q <=? 0) eqn:Hpos; [discriminate|].
  rewrite run_hedge_run.
  destruct (market_data ex symbol w1) as [[[fr sp]|e] w2] eqn:Hm; [|discriminate].
  simpl.
  destruct (trade ex symbol fr q w2) as [[[]|e] w3] eqn:Ht; [|discriminate].
  intros H. inversion H; subst.
  exists br, w1, q, fr, sp, w2.
  apply Qleb_gt in Hpos. repeat split; auto.
Qed.

Lemma execute_insufficient (ex : Exchange) (symbol : string) (quantity : scalar)
      (w w1 : World) (balance_result : balance_dict) :
  get_account_balance ex (replace "USDT" "" symbol) w = (Returned balance_result, w1) ->
  available_balance balance_result <= 0 ->
  execute_hedge_arbitrage_strategy ex symbol quantity w
  = (Returned (insufficient (replace "USDT" "" symbol)), w1).
Proof.
  intros Hb Hle. unfold execute_hedge_arbitrage_strategy, use_tool.
  rewrite (bind_returned _ _ _ _ _ Hb).
  rewrite (bind_returned _ _ _ _ _ (available_balance_of_run _ _)).
  unfold actual_quantity_of.
  apply Qltb_ge in Hle. rewrite Hle. reflexivity.
Qed.

Lemma execute_with_balance (ex : Exchange) (symbol : string) (requested : Q)
      (w w1 : World) (balance_result : balance_dict) :
  get_account_balance ex (replace "USDT" "" symbol) w = (Returned balance_result, w1) ->
  0 < available_balance balance_result ->
  execute_hedge_arbitrage_strategy ex symbol (Num requested) w
  = if py_min requested (available_balance balance_result) <=? 0
    then (Returned (insufficient (replace "USDT" "" symbol)), w1)
    else run_hedge ex symbol (py_min requested (available_balance balance_result)) w1.
Proof.
  intros Hb Hlt. unfold execute_hedge_arbitrage_strategy, use_tool.
  rewrite (bind_returned _ _ _ _ _ Hb).
  rewrite (bind_returned _ _ _ _ _ (available_balance_of_run _ _)).
  unfold actual_quantity_of.
  apply Qltb_lt in Hlt. rewrite Hlt.
  unfold bind at 1. simpl.
  now destruct (py_min requested (available_balance balance_result) <=? 0).
Qed.

Lemma no_parseable_balance_zero (balance_result : balance_dict) :
  no_parseable_balance balance_result -> available_balance balance_result = 0.
Proof.
  destruct balance_result as [a [q|]|e]; simpl; intros H;
    [contradiction | reflexivity | reflexivity].
Qed.

(** A run that stops before the first order performs no step. *)
Lemma quiet_run (ex : Exchange) (symbol : string) (w w' : World)
      (o : outcome hedge_dict) (l : list event) :
  is_done o = false ->
  grows w w' l ->
  steps l = [] ->
  match fetched_funding_rate ex symbol (S (clock w)) with
  | Some fr =>
      exists q n,
        steps (new_events w w') = firstn n (spec_legs symbol fr q)
        /\ (is_done o = true ->
            steps (new_events w w') = spec_legs symbol fr q /\ 0 < q)
  | None => steps (new_events w w') = [] /\ is_done o = false
  end.
Proof.
  intros Ho Hg Hs. rewrite (grows_new_events _ _ _ Hg), Hs, Ho.
  destruct (fetched_funding_rate ex symbol (S (clock w))) as [fr|].
  - exists 0, 0%nat. split; [reflexivity | discriminate].
  - split; reflexivity.
Qed.

Lemma order_calls_no_steps (l : list event) : steps l = [] -> order_calls l = [].
Proof.
  unfold steps, order_calls. induction l as [|e l IH]; [reflexivity|].
  destruct e as [r|n]; [destruct r|]; simpl; intros H;
    try discriminate; auto.
Qed.

Lemma order_calls_legs (symbol : string) (fr q : Q) (n : nat) :
  Forall (fun e => order_quantity e = Some q)
         (order_calls (firstn n (spec_legs symbol fr q))).
Proof.
  unfold spec_legs. destruct (0 <? fr);
    do 6 (destruct n as [|n]; [repeat constructor|]); repeat constructor.
Qed.

(** All orders of [run_hedge] carry the quantity it was given. *)
Lemma run_hedge_orders (ex : Exchange) (symbol : string) (q : Q) (w : World) :
  exists l,
    grows w (snd (run_hedge ex symbol q w)) l
    /\ Forall (fun e => order_quantity e = Some q) (order_calls l).
Proof.
  rewrite run_hedge_run.
  destruct (market_data_grows ex symbol w) as [l [Hg [Hs _]]].
  destruct (market_data ex symbol w) as [[d|e] w2]; simpl in Hg.
  - destruct (trade_prefix ex symbol (fst d) q w2) as [n [o [Ht _]]].
    rewrite Ht. exists (l ++ firstn n (spec_legs symbol (fst d) q))%list.
    split.
    + apply (grows_trans _ w2 _ _ _ Hg). now destruct o.
    + unfold order_calls. rewrite filter_app.
      fold (order_calls l). rewrite (order_calls_no_steps _ Hs).
      apply order_calls_legs.
  - exists l. split; [exact Hg|]. rewrite (order_calls_no_steps _ Hs). constructor.
Qed.

(** ** Pre-flight *)

(** C2 -- pre-flight of [execute_hedge_arbitrage_strategy]: with the balance
    tool's answer giving [available_balance], a call with a requested
    quantity returns the insufficient-balance error, having issued the
    balance request and no order, whenever [available_balance <= 0] or the
    smaller of the requested quantity and the balance is [<= 0]; otherwise
    it goes on with an actual quantity that is the smaller of the two: not
    above the request, not above the balance, and equal to one of them;
    this is the quantity of every order it sends. *)
Theorem preflight_caps_quantity_or_fails :
  forall (ex : Exchange) (symbol : string) (requested : Q) (w w1 : World)
         (balance_result : balance_dict),
    get_account_balance ex (replace "USDT" "" symbol) w
    = (Returned balance_result, w1) ->
    let available := available_balance balance_result in
    (available <= 0 \/ Qmin requested available <= 0 ->
     execute_hedge_arbitrage_strategy ex symbol (Num requested) w
     = (Returned (insufficient (replace "USDT" "" symbol)), w1)
     /\ new_events w w1 = [Sent GetAccount]
     /\ order_calls (new_events w w1) = [])
    /\ (0 < available -> 0 < Qmin requested available ->
        exists actual_quantity : Q,
          actual_quantity <= requested
          /\ actual_quantity <= available
          /\ (actual_quantity = requested \/ actual_quantity = available)
          /\ actual_quantity == Qmin requested available
          /\ execute_hedge_arbitrage_strategy ex symbol (Num requested) w
             = run_hedge ex symbol actual_quantity w1
          /\ Forall (fun e => order_quantity e = Some actual_quantity)
                    (order_calls
                       (new_events w
                          (snd (execute_hedge_arbitrage_strategy ex symbol
                                  (Num requested) w))))).
Proof.
  intros ex symbol requested w w1 br Hb available.
  assert (Hw : new_events w w1 = [Sent GetAccount]).
  { pose proof (get_account_balance_world ex (replace "USDT" "" symbol) w) as H.
    rewrite Hb in H; simpl in H; subst w1. now apply new_events_app. }
  destruct (py_min_bounds requested available) as [Hle1 Hle2].
  pose proof (py_min_Qmin requested available) as Hmin.
  split.
  - intros Hfail. split; [|split; [exact Hw | now rewrite Hw]].
    destruct (Qlt_le_dec 0 available) as [Hpos|Hneg].
    + destruct Hfail as [Hle|Hle]; [exfalso; lra|].
      rewrite (execute_with_balance _ _ _ _ _ _ Hb Hpos).
      fold available.
      assert (Hact : py_min requested available <= 0) by lra.
      apply Qle_bool_iff in Hact. now rewrite Hact.
    + exact (execute_insufficient _ _ _ _ _ _ Hb Hneg).
  - intros Hpos Hact.
    exists (py_min requested available).
    split; [exact Hle1|]. split; [exact Hle2|].
    split; [apply py_min_cases|]. split; [exact Hmin|].
    rewrite (execute_with_balance _ _ _ _ _ _ Hb Hpos).
    fold available.
    assert (Hgt : 0 < py_min requested available) by lra.
    apply Qleb_gt in Hgt. rewrite Hgt. split; [reflexivity|].
    destruct (run_hedge_orders ex symbol (py_min requested available) w1)
      as [l [Hg Hall]].
    assert (Hg1 : grows w w1 [Sent GetAccount]).
    { pose proof (get_account_balance_world ex (replace "USDT" "" symbol) w) as H.
      rewrite Hb in H; simpl in H; subst w1. apply grows_extend. }
    rewrite (grows_new_events _ _ _ (grows_trans _ _ _ _ _ Hg1 Hg)).
    exact Hall.
Qed.

(** Balance 0 and request 1: no order.  Balance 0.5 and request 2: the
    balance caps the quantity.  Balance 3 and request 1: the request is
    the quantity. *)
Lemma preflight_caps_quantity_or_fails_witness :
  (execute_hedge_arbitrage_strategy (quiet_exchange (Num 0) (1 # 1000) 100)
     "BTCUSDT" (Num 1) w0
   = (Returned (insufficient "BTC"), extend w0 (Sent GetAccount))
   /\ new_events w0 (extend w0 (Sent GetAccount)) = [Sent GetAccount]
   /\ order_calls (new_events w0 (extend w0 (Sent GetAccount))) = [])
  /\ (exists actual_quantity : Q,
         actual_quantity <= 2
         /\ actual_quantity <= 1 # 2
         /\ (actual_quantity = 2 \/ actual_quantity = 1 # 2)
         /\ actual_quantity == Qmin 2 (1 # 2)
         /\ execute_hedge_arbitrage_strategy
              (quiet_exchange (Num (1 # 2)) (1 # 1000) 100) "BTCUSDT" (Num 2) w0
            = run_hedge (quiet_exchange (Num (1 # 2)) (1 # 1000) 100)
                "BTCUSDT" actual_quantity (extend w0 (Sent GetAccount))
         /\ Forall (fun e => order_quantity e = Some actual_quantity)
                   (order_calls
                      (new_events w0
                         (snd (execute_hedge_arbitrage_strategy
                                 (quiet_exchange (Num (1 # 2)) (1 # 1000) 100)
                                 "BTCUSDT" (Num 2) w0)))))
  /\ (exists actual_quantity : Q,
         actual_quantity <= 1
         /\ actual_quantity <= 3
         /\ (actual_quantity = 1 \/ actual_quantity = 3)
         /\ actual_quantity == Qmin 1 3
         /\ execute_hedge_arbitrage_strategy
              (quiet_exchange (Num 3) (1 # 1000) 100) "BTCUSDT" (Num 1) w0
            = run_hedge (quiet_exchange (Num 3) (1 # 1000) 100)
                "BTCUSDT" actual_quantity (extend w0 (Sent GetAccount))
         /\ Forall (fun e => order_quantity e = Some actual_quantity)
                   (order_calls
                      (new_events w0
                         (snd (execute_hedge_arbitrage_strategy
                                 (quiet_exchange (Num 3) (1 # 1000) 100)
                                 "BTCUSDT" (Num 1) w0))))).
Proof.
  split; [|split].
  - refine (proj1 (preflight_caps_quantity_or_fails
                     (quiet_exchange (Num 0) (1 # 1000) 100) "BTCUSDT" 1 w0
                     (extend w0 (Sent GetAccount)) (BalanceInfo "BTC" (Num 0))
                     eq_refl) _).
    left. vm_compute. discriminate.
  - refine (proj2 (preflight_caps_quantity_or_fails
                     (quiet_exchange (Num (1 # 2)) (1 # 1000) 100) "BTCUSDT" 2 w0
                     (extend w0 (Sent GetAccount)) (BalanceInfo "BTC" (Num (1 # 2)))
                     eq_refl) _ _); reflexivity.
  - refine (proj2 (preflight_caps_quantity_or_fails
                     (quiet_exchange (Num 3) (1 # 1000) 100) "BTCUSDT" 1 w0
                     (extend w0 (Sent GetAccount)) (BalanceInfo "BTC" (Num 3))
                     eq_refl) _ _); reflexivity.
Defined.

(** The capped run and the uncapped run, evaluated: every order carries
    0.5 when 2 are requested of a balance of 0.5, and 1 when 1 is
    requested of a balance of 3. *)
Lemma capped_and_uncapped_orders :
  order_calls
    (new_events w0
       (snd (execute_hedge_arbitrage_strategy
               (quiet_exchange (Num (1 # 2)) (1 # 1000) 100) "BTCUSDT" (Num 2) w0)))
  = [Sent (PostSpotOrder "BTCUSDT" BUY (1 # 2));
     Sent (PostFuturesOrder "BTCUSDT" SELL (1 # 2));
     Sent (PostFuturesOrder "BTCUSDT" BUY (1 # 2));
     Sent (PostSpotOrder "BTCUSDT" SELL (1 # 2))]
  /\ order_calls
       (new_events w0
          (snd (execute_hedge_arbitrage_strategy
                  (quiet_exchange (Num 3) (1 # 1000) 100) "BTCUSDT" (Num 1) w0)))
     = [Sent (PostSpotOrder "BTCUSDT" BUY 1);
        Sent (PostFuturesOrder "BTCUSDT" SELL 1);
        Sent (PostFuturesOrder "BTCUSDT" BUY 1);
        Sent (PostSpotOrder "BTCUSDT" SELL 1)].
Proof. split; reflexivity. Qed.

(** ** Failure of the balance lookup *)

(** C10, as stated, fails: when the account request gets no reply, the
    balance tool raises and the exception leaves the executor, which does
    not return the insufficient-balance error. *)
Lemma unanswered_balance_request_raises :
  ~ failure_surfaces_as_insufficient_balance account_unreachable "BTCUSDT"
      (Num 1) w0.
Proof.
  intros H. specialize (H I). vm_compute in H. discriminate.
Qed.

(** The same with an account payload whose BTC entry has no free amount:
    the balance tool raises [KeyError], and so does the executor. *)
Lemma balance_entry_without_free_raises :
  execute_hedge_arbitrage_strategy account_without_free "BTCUSDT" (Num 1) w0
  = (Raised KeyError, extend w0 (Sent GetAccount))
  /\ ~ failure_surfaces_as_insufficient_balance account_without_free "BTCUSDT"
         (Num 1) w0.
Proof.
  split; [reflexivity|].
  intros H. specialize (H I). vm_compute in H. discriminate.
Qed.

(** C10 (as amended) -- what a failed balance lookup leads to.  When the
    balance tool returns -- its error dictionary after a reply with a
    status other than 200, or any dictionary with no parseable
    ["balance"] -- the available balance is 0 and the executor returns the
    insufficient-balance error after the single balance request, with no
    order placed.  When the balance tool raises -- the account request
    gets no reply, or a key is missing in the payload -- the call of
    line 238 is outside the [try], and the executor raises the same
    exception after the single balance request, again with no order
    placed. *)
Theorem balance_lookup_failure_outcomes :
  forall (ex : Exchange) (symbol : string) (quantity : scalar) (w : World),
    let asset := replace "USDT" "" symbol in
    let run := execute_hedge_arbitrage_strategy ex symbol quantity w in
    (forall r : response (list balance_json),
        account ex (clock w) = Responded r ->
        status_code r <> 200%Z ->
        run = (Returned (insufficient asset), extend w (Sent GetAccount)))
    /\ (forall (balance_result : balance_dict) (w1 : World),
           get_account_balance ex asset w = (Returned balance_result, w1) ->
           no_parseable_balance balance_result ->
           available_balance balance_result = 0
           /\ run = (Returned (insufficient asset), w1)
           /\ new_events w w1 = [Sent GetAccount]
           /\ order_calls (new_events w w1) = [])
    /\ (account ex (clock w) = NoReply ->
        run = (Raised RequestException, extend w (Sent GetAccount)))
    /\ (forall (e : exn) (w1 : World),
           get_account_balance ex asset w = (Raised e, w1) ->
           run = (Raised e, w1)
           /\ new_events w w1 = [Sent GetAccount]
           /\ order_calls (new_events w w1) = []).
Proof.
  intros ex symbol quantity w asset run.
  assert (Hmain : forall br w1,
             get_account_balance ex asset w = (Returned br, w1) ->
             no_parseable_balance br ->
             run = (Returned (insufficient asset), w1)).
  { intros br w1 Hb Hno. apply (execute_insufficient _ _ _ _ _ _ Hb).
    rewrite (no_parseable_balance_zero _ Hno). apply Qle_refl. }
  assert (Hw : forall o w1, get_account_balance ex asset w = (o, w1) ->
                            new_events w w1 = [Sent GetAccount]).
  { intros o w1 Hb.
    pose proof (get_account_balance_world ex asset w) as H.
    rewrite Hb in H; simpl in H; subst w1. now apply new_events_app. }
  assert (Hraise : forall e w1, get_account_balance ex asset w = (Raised e, w1) ->
                                run = (Raised e, w1)).
  { intros e w1 Hb. unfold run. rewrite execute_run. fold asset. now rewrite Hb. }
  split; [|split; [|split]].
  - intros r Hr Hs.
    apply (Hmain _ _ (get_account_balance_refused ex asset w r Hr Hs)).
    exact I.
  - intros br w1 Hb Hno.
    repeat split.
    + now apply no_parseable_balance_zero.
    + now apply (Hmain br).
    + exact (Hw _ _ Hb).
    + now rewrite (Hw _ _ Hb).
  - intros Hno. apply Hraise.
    unfold get_account_balance, bind, send. now rewrite Hno.
  - intros e w1 Hb. repeat split.
    + now apply Hraise.
    + exact (Hw _ _ Hb).
    + now rewrite (Hw _ _ Hb).
Qed.

Lemma balance_lookup_failure_outcomes_witness :
  execute_hedge_arbitrage_strategy account_down "BTCUSDT" (Num 1) w0
  = (Returned (insufficient "BTC"), extend w0 (Sent GetAccount))
  /\ (available_balance (BalanceInfo "BTC" Junk) = 0
      /\ execute_hedge_arbitrage_strategy (quiet_exchange Junk (1 # 1000) 100)
           "BTCUSDT" (Num 1) w0
         = (Returned (insufficient "BTC"), extend w0 (Sent GetAccount))
      /\ new_events w0 (extend w0 (Sent GetAccount)) = [Sent GetAccount]
      /\ order_calls (new_events w0 (extend w0 (Sent GetAccount))) = [])
  /\ execute_hedge_arbitrage_strategy account_unreachable "BTCUSDT" (Num 1) w0
     = (Raised RequestException, extend w0 (Sent GetAccount))
  /\ (execute_hedge_arbitrage_strategy account_without_free "BTCUSDT" (Num 1) w0
      = (Raised KeyError, extend w0 (Sent GetAccount))
      /\ new_events w0 (extend w0 (Sent GetAccount)) = [Sent GetAccount]
      /\ order_calls (new_events w0 (extend w0 (Sent GetAccount))) = []).
Proof.
  split; [|split; [|split]].
  - refine (proj1 (balance_lookup_failure_outcomes
                     account_down "BTCUSDT" (Num 1) w0) _ eq_refl _).
    discriminate.
  - exact (proj1 (proj2 (balance_lookup_failure_outcomes
                           (quiet_exchange Junk (1 # 1000) 100) "BTCUSDT" (Num 1) w0))
             (BalanceInfo "BTC" Junk) _ eq_refl I).
  - exact (proj1 (proj2 (proj2 (balance_lookup_failure_outcomes
                                  account_unreachable "BTCUSDT" (Num 1) w0)))
             eq_refl).
  - exact (proj2 (proj2 (proj2 (balance_lookup_failure_outcomes
                                  account_without_free "BTCUSDT" (Num 1) w0)))
             KeyError _ eq_refl).
Defined.

(** ** Direction and order of the legs *)

Lemma spec_legs_length (symbol : string) (fr q : Q) :
  List.length (spec_legs symbol fr q) = 5%nat.
Proof. unfold spec_legs. now destruct (0 <? fr). Qed.

Lemma steps_spec_legs (symbol : string) (fr q : Q) :
  steps (spec_legs symbol fr q) = spec_legs symbol fr q.
Proof. unfold spec_legs. now destruct (0 <? fr). Qed.

(** A request for which all goes well: the quantity check passes, the data
    are fetched and every order is answered.  The run then reports, having
    performed the five steps. *)
Lemma execute_completes (ex : Exchange) (symbol : string) (requested : Q)
      (w w1 w2 : World) (balance_result : balance_dict) (fr sp : Q) :
  orders_answered ex ->
  get_account_balance ex (replace "USDT" "" symbol) w
  = (Returned balance_result, w1) ->
  0 < available_balance balance_result ->
  0 < requested ->
  market_data ex symbol w1 = (Returned (fr, sp), w2) ->
  let q := py_min requested (available_balance balance_result) in
  let run := execute_hedge_arbitrage_strategy ex symbol (Num requested) w in
  0 < q
  /\ fst run = Returned (report fr sp q)
  /\ steps (new_events w (snd run)) = spec_legs symbol fr q
  /\ fetched_funding_rate ex symbol (S (clock w)) = Some fr.
Proof.
  intros Hans Hb Hav Hreq Hm q run.
  assert (Hq : 0 < q).
  { unfold q. destruct (py_min_cases requested (available_balance balance_result))
      as [-> | ->]; assumption. }
  split; [exact Hq|].
  pose proof (get_account_balance_world ex (replace "USDT" "" symbol) w) as Hw.
  rewrite Hb in Hw; simpl in Hw; subst w1.
  destruct (market_data_grows ex symbol (extend w (Sent GetAccount)))
    as [l [Hg [Hs Hf]]].
  rewrite clock_extend, Hm in Hf. rewrite Hm in Hg. simpl in Hg.
  specialize (Hf _ eq_refl). simpl in Hf.
  assert (Hrun : run = (Returned (report fr sp q),
                        mkWorld (log w2 ++ spec_legs symbol fr q) (price_cache w2))).
  { unfold run. rewrite execute_run, Hb. unfold actual_quantity.
    apply Qltb_lt in Hav. rewrite Hav. fold q.
    apply Qleb_gt in Hq. rewrite Hq.
    rewrite run_hedge_run, Hm. simpl.
    now rewrite (trade_answered ex symbol fr q w2 Hans). }
  rewrite Hrun. simpl. split; [reflexivity|]. split; [|exact Hf].
  assert (HgW : grows w (mkWorld (log w2 ++ spec_legs symbol fr q) (price_cache w2))
                      ([Sent GetAccount] ++ l ++ spec_legs symbol fr q)).
  { apply (grows_trans _ (extend w (Sent GetAccount)) _ [_] _ (grows_extend _ _)).
    apply (grows_trans _ w2 _ _ _ Hg). reflexivity. }
  rewrite (grows_new_events _ _ _ HgW).
  rewrite !steps_app, Hs, steps_spec_legs. reflexivity.
Qed.

(** C8, as stated, fails: the five steps do not always occur.  When the
    futures endpoint does not answer, the request of the opening futures
    leg raises, and the run ends after two order requests, with the spot
    leg open. *)
Lemma unanswered_futures_order_ends_the_run :
  ~ performs_all_five_steps futures_unreachable "BTCUSDT" (Num 1) w0.
Proof.
  intros H. unfold performs_all_five_steps in H. cbv zeta in H.
  destruct H as [fr [q Hs]].
  - vm_compute. discriminate.
  - apply (f_equal (@List.length event)) in Hs.
    rewrite spec_legs_length in Hs. vm_compute in Hs. discriminate.
Qed.

(** The run on that exchange, evaluated. *)
Lemma unanswered_futures_order_run :
  let run := execute_hedge_arbitrage_strategy futures_unreachable "BTCUSDT"
               (Num 1) w0 in
  fst run = Raised RequestException
  /\ steps (new_events w0 (snd run))
     = [Sent (PostSpotOrder "BTCUSDT" BUY 1);
        Sent (PostFuturesOrder "BTCUSDT" SELL 1)].
Proof. split; reflexivity. Qed.

(** C8 (as amended) -- direction and order of the five steps.  In any run
    of [execute_hedge_arbitrage_strategy] the orders and the sleep form an
    initial segment of: spot BUY, futures SELL, hold, futures BUY, spot
    SELL when the fetched funding rate is positive; spot SELL, futures
    BUY, hold, futures SELL, spot BUY otherwise; a run that reports
    success performed exactly these five steps, all with one positive
    quantity; when no funding rate could be fetched, no step is
    performed.  And whenever the quantity check passes, the funding rate
    and the price are fetched and every order request is answered, the
    run performs all five steps in this order, with the smaller of the
    requested quantity and the balance, and reports success. *)
Theorem legs_follow_funding_sign :
  forall (ex : Exchange) (symbol : string) (quantity : scalar) (w : World),
    let run := execute_hedge_arbitrage_strategy ex symbol quantity w in
    let performed := steps (new_events w (snd run)) in
    match fetched_funding_rate ex symbol (S (clock w)) with
    | Some fr =>
        exists q n,
          performed = firstn n (spec_legs symbol fr q)
          /\ (is_done (fst run) = true ->
              performed = spec_legs symbol fr q /\ 0 < q)
    | None => performed = [] /\ is_done (fst run) = false
    end
    /\ (forall (balance_result : balance_dict) (w1 w2 : World)
               (requested fr sp : Q),
           orders_answered ex ->
           quantity = Num requested ->
           get_account_balance ex (replace "USDT" "" symbol) w
           = (Returned balance_result, w1) ->
           0 < available_balance balance_result ->
           0 < requested ->
           market_data ex symbol w1 = (Returned (fr, sp), w2) ->
           exists q : Q,
             0 < q
             /\ q <= requested
             /\ q <= available_balance balance_result
             /\ (q = requested \/ q = available_balance balance_result)
             /\ fetched_funding_rate ex symbol (S (clock w)) = Some fr
             /\ is_done (fst run) = true
             /\ (0 < fr ->
                 performed
                 = [Sent (PostSpotOrder symbol BUY q);
                    Sent (PostFuturesOrder symbol SELL q);
                    Slept 10;
                    Sent (PostFuturesOrder symbol BUY q);
                    Sent (PostSpotOrder symbol SELL q)])
             /\ (fr <= 0 ->
                 performed
                 = [Sent (PostSpotOrder symbol SELL q);
                    Sent (PostFuturesOrder symbol BUY q);
                    Slept 10;
                    Sent (PostFuturesOrder symbol SELL q);
                    Sent (PostSpotOrder symbol BUY q)])).
Proof.
  intros ex symbol quantity w. cbv zeta. split.
  - rewrite execute_run.
    pose proof (get_account_balance_world ex (replace "USDT" "" symbol) w) as Hw.
    destruct (get_account_balance ex (replace "USDT" "" symbol) w) as [[br|e] w1];
      simpl in Hw; subst w1;
      [|exact (quiet_run ex symbol w _ (Raised e) [Sent GetAccount] eq_refl
                 (grows_extend w _) eq_refl)].
    destruct (actual_quantity quantity (available_balance br)) as [q|e];
      [|exact (quiet_run ex symbol w _ (Raised e) [Sent GetAccount] eq_refl
                 (grows_extend w _) eq_refl)].
    destruct (q <=? 0) eqn:Hq;
      [exact (quiet_run ex symbol w _ (Returned (insufficient _)) [Sent GetAccount]
                eq_refl (grows_extend w _) eq_refl)|].
    apply Qleb_gt in Hq.
    rewrite run_hedge_run.
    destruct (market_data_grows ex symbol (extend w (Sent GetAccount)))
      as [l [Hg [Hs Hf]]].
    rewrite clock_extend in Hf.
    destruct (market_data ex symbol (extend w (Sent GetAccount))) as [[d|e] w2];
      simpl in Hg, Hf.
    + rewrite (Hf d eq_refl).
      destruct (trade_prefix ex symbol (fst d) q w2) as [n [o [Ht [Hn Hall]]]].
      rewrite Ht.
      assert (Hperf : forall W, log W = (log w2 ++ firstn n (spec_legs symbol (fst d) q))%list ->
                                steps (new_events w W)
                                = firstn n (spec_legs symbol (fst d) q)).
      { intros W HW.
        assert (HgW : grows w W ([Sent GetAccount] ++ l
                                   ++ firstn n (spec_legs symbol (fst d) q))).
        { apply (grows_trans _ (extend w (Sent GetAccount)) _ [_] _ (grows_extend _ _)).
          apply (grows_trans _ w2 _ _ _ Hg). exact HW. }
        rewrite (grows_new_events _ _ _ HgW).
        rewrite !steps_app, Hs, steps_firstn_legs. reflexivity. }
      specialize (Hperf (mkWorld (log w2 ++ firstn n (spec_legs symbol (fst d) q))
                                 (price_cache w2)) eq_refl).
      exists q, n. destruct o as [u|e]; simpl; rewrite Hperf.
      * split; [reflexivity|]. intros _.
        rewrite (Hall u eq_refl). split; [apply firstn_legs_all | exact Hq].
      * split; [reflexivity | discriminate].
    + refine (quiet_run ex symbol w w2 (Raised e) (Sent GetAccount :: l) eq_refl _ Hs).
      exact (grows_trans _ _ _ [_] l (grows_extend _ _) Hg).
  - intros br w1 w2 requested fr sp Hans -> Hb Hav Hreq Hm.
    destruct (execute_completes ex symbol requested w w1 w2 br fr sp
                Hans Hb Hav Hreq Hm) as [Hq [Hret [Hsteps Hf]]].
    destruct (py_min_bounds requested (available_balance br)) as [Hle1 Hle2].
    exists (py_min requested (available_balance br)).
    split; [exact Hq|]. split; [exact Hle1|]. split; [exact Hle2|].
    split; [apply py_min_cases|]. split; [exact Hf|].
    split; [now rewrite Hret|].
    rewrite Hsteps. unfold spec_legs. split.
    + intros Hfr. apply Qltb_lt in Hfr. now rewrite Hfr.
    + intros Hfr. apply Qltb_ge in Hfr. now rewrite Hfr.
Qed.

(** A balance of 3 and a request for 2 at a funding rate of -0.001: the
    mirrored sequence, with quantity 2. *)
Lemma legs_follow_funding_sign_witness :
  exists q : Q,
    0 < q
    /\ q <= 2
    /\ q <= available_balance (BalanceInfo "BTC" (Num 3))
    /\ (q = 2 \/ q = available_balance (BalanceInfo "BTC" (Num 3)))
    /\ fetched_funding_rate (quiet_exchange (Num 3) (- 1 # 1000) 100) "BTCUSDT"
         (S (clock w0)) = Some (- 1 # 1000)
    /\ is_done (fst (execute_hedge_arbitrage_strategy
                       (quiet_exchange (Num 3) (- 1 # 1000) 100) "BTCUSDT"
                       (Num 2) w0)) = true
    /\ (0 < - 1 # 1000 ->
        steps (new_events w0
                 (snd (execute_hedge_arbitrage_strategy
                         (quiet_exchange (Num 3) (- 1 # 1000) 100) "BTCUSDT"
                         (Num 2) w0)))
        = [Sent (PostSpotOrder "BTCUSDT" BUY q);
           Sent (PostFuturesOrder "BTCUSDT" SELL q);
           Slept 10;
           Sent (PostFuturesOrder "BTCUSDT" BUY q);
           Sent (PostSpotOrder "BTCUSDT" SELL q)])
    /\ (- 1 # 1000 <= 0 ->
        steps (new_events w0
                 (snd (execute_hedge_arbitrage_strategy
                         (quiet_exchange (Num 3) (- 1 # 1000) 100) "BTCUSDT"
                         (Num 2) w0)))
        = [Sent (PostSpotOrder "BTCUSDT" SELL q);
           Sent (PostFuturesOrder "BTCUSDT" BUY q);
           Slept 10;
           Sent (PostFuturesOrder "BTCUSDT" SELL q);
           Sent (PostSpotOrder "BTCUSDT" BUY q)]).
Proof.
  refine (proj2 (legs_follow_funding_sign
                   (quiet_exchange (Num 3) (- 1 # 1000) 100) "BTCUSDT" (Num 2) w0)
            (BalanceInfo "BTC" (Num 3)) (extend w0 (Sent GetAccount))
            (mkWorld [Sent GetAccount; Sent (GetFundingRate "BTCUSDT" 100);
                      Sent (GetTickerPrice "BTCUSDT")]
                     [("BTCUSDT", PriceInfo (Num 100) "BTCUSDT")])
            2 (- 1 # 1000) 100 _ eq_refl eq_refl _ _ eq_refl).
  - intros t s side q. split; discriminate.
  - reflexivity.
  - reflexivity.
Defined.

(** A complete run on a negative funding rate: the mirror image. *)
Lemma negative_rate_run :
  let run := execute_hedge_arbitrage_strategy
               (quiet_exchange (Num 3) (- 1 # 1000) 100) "BTCUSDT" (Num 2) w0 in
  is_done (fst run) = true
  /\ steps (new_events w0 (snd run))
     = [Sent (PostSpotOrder "BTCUSDT" SELL 2);
        Sent (PostFuturesOrder "BTCUSDT" BUY 2);
        Slept 10;
        Sent (PostFuturesOrder "BTCUSDT" SELL 2);
        Sent (PostSpotOrder "BTCUSDT" BUY 2)].
Proof. split; reflexivity. Qed.

(** ** Failed orders *)

(** C1, as stated, fails: with every futures order refused (status 400),
    the run still sends both closing legs after the refused opening
    futures leg, and reports success. *)
Lemma refused_futures_leg_is_followed_by_closing_legs :
  ~ stops_at_failed_leg futures_refused "BTCUSDT" (Num 1) w0.
Proof.
  intros H.
  destruct (H 4%nat (Sent (PostFuturesOrder "BTCUSDT" SELL 1))) as [Hdone _].
  - unfold clock; simpl; lia.
  - reflexivity.
  - reflexivity.
  - vm_compute in Hdone. discriminate.
Qed.

(** C1 (as amended) -- the outcome of an order call is never inspected:
    once the quantity check has passed and the funding rate and the spot
    price are fetched, then, provided every order request is answered --
    with a success status or not -- the executor performs all five steps
    in order and returns the success dictionary computed from the fetched
    values; no failed leg is reported. *)
Theorem order_outcomes_are_ignored :
  forall (ex : Exchange) (symbol : string) (requested : Q) (w w1 w2 : World)
         (balance_result : balance_dict) (fr sp : Q),
    orders_answered ex ->
    get_account_balance ex (replace "USDT" "" symbol) w
    = (Returned balance_result, w1) ->
    0 < available_balance balance_result ->
    0 < py_min requested (available_balance balance_result) ->
    market_data ex symbol w1 = (Returned (fr, sp), w2) ->
    let q := py_min requested (available_balance balance_result) in
    execute_hedge_arbitrage_strategy ex symbol (Num requested) w
    = (Returned (report fr sp q),
       mkWorld (log w2 ++ spec_legs symbol fr q) (price_cache w2)).
Proof.
  intros ex symbol requested w w1 w2 br fr sp Hans Hb Hav Hq Hm q.
  rewrite execute_run, Hb. unfold actual_quantity.
  apply Qltb_lt in Hav. rewrite Hav. fold q.
  apply Qleb_gt in Hq. fold q in Hq. rewrite Hq.
  rewrite run_hedge_run, Hm. simpl.
  now rewrite (trade_answered ex symbol fr q w2 Hans).
Qed.

Lemma order_outcomes_are_ignored_witness :
  execute_hedge_arbitrage_strategy futures_refused "BTCUSDT" (Num 1) w0
  = (Returned (report (1 # 1000) 100 1),
     mkWorld
       ([Sent GetAccount; Sent (GetFundingRate "BTCUSDT" 100);
         Sent (GetTickerPrice "BTCUSDT")]
        ++ spec_legs "BTCUSDT" (1 # 1000) 1)
       [("BTCUSDT", PriceInfo (Num 100) "BTCUSDT")]).
Proof.
  refine (order_outcomes_are_ignored futures_refused "BTCUSDT" 1 w0
            (extend w0 (Sent GetAccount))
            (mkWorld [Sent GetAccount; Sent (GetFundingRate "BTCUSDT" 100);
                      Sent (GetTickerPrice "BTCUSDT")]
                     [("BTCUSDT", PriceInfo (Num 100) "BTCUSDT")])
            (BalanceInfo "BTC" (Num 1)) (1 # 1000) 100 _ eq_refl _ _ eq_refl).
  - intros t s side q. split; discriminate.
  - reflexivity.
  - reflexivity.
Defined.

(** ** Rounding and the report *)

Lemma round_half_even_near (x : Q) :
  x - (1 # 2) <= inject_Z (round_half_even x)
  /\ inject_Z (round_half_even x) <= x + (1 # 2).
Proof.
  unfold round_half_even.
  pose proof (Qfloor_le x) as Hlo.
  pose proof (Qlt_floor x) as Hhi.
  rewrite inject_Z_plus in Hhi. change (inject_Z 1) with 1 in Hhi.
  destruct (Qcompare_spec (x - inject_Z (Qfloor x)) (1 # 2)) as [He|Hl|Hg].
  - destruct (Z.even (Qfloor x)); rewrite ?inject_Z_plus;
      change (inject_Z 1) with 1; split; lra.
  - split; lra.
  - rewrite inject_Z_plus. change (inject_Z 1) with 1. split; lra.
Qed.

(** Half-way between two integers, the even one is taken. *)
Lemma round_half_even_tie (x : Q) :
  Qabs (inject_Z (round_half_even x) - x) == 1 # 2 ->
  Z.even (round_half_even x) = true.
Proof.
  unfold round_half_even.
  pose proof (Qfloor_le x) as Hlo.
  pose proof (Qlt_floor x) as Hhi.
  rewrite inject_Z_plus in Hhi. change (inject_Z 1) with 1 in Hhi.
  destruct (Qcompare_spec (x - inject_Z (Qfloor x)) (1 # 2)) as [He|Hl|Hg].
  - intros _. destruct (Z.even (Qfloor x)) eqn:E; [exact E|].
    rewrite Z.even_add, E. reflexivity.
  - intros H. exfalso.
    rewrite Qabs_neg in H by lra. lra.
  - intros H. exfalso. rewrite inject_Z_plus in H. change (inject_Z 1) with 1 in H.
    rewrite Qabs_pos in H by lra. lra.
Qed.

(** From units of the last decimal to the value itself. *)
Lemma scaled_distance (k : Z) (p : positive) (v : Q) :
  Qabs ((k # p) - v) * inject_Z (Zpos p) == Qabs (inject_Z k - v * inject_Z (Zpos p)).
Proof.
  assert (Hs : 0 < inject_Z (Zpos p)) by reflexivity.
  rewrite <- (Qabs_pos (inject_Z (Zpos p))) at 1 by lra.
  rewrite <- Qabs_Qmult. apply Qabs_wd.
  rewrite (Qmake_Qdiv k p). field. lra.
Qed.

(** What rounding a finite float to [ndigits] decimals arrives at: the
    multiple of the unit nearest to its exact value, the even one of two
    that are equally near. *)
Lemma round_decimal_nearest (x : PrimFloat.float) (v : Q) (ndigits : positive) :
  exact_value x = Some v ->
  let scale := Pos.pow 10 ndigits in
  exists k : Z,
    round_decimal x ndigits = Some (k # scale)
    /\ Qabs ((k # scale) - v) <= 1 # (2 * scale)
    /\ (Qabs ((k # scale) - v) == 1 # (2 * scale) -> Z.even k = true)
    /\ round_binary64 x ndigits
       = match k with
         | Z0 => if signbit x then PrimFloat.neg_zero else PrimFloat.zero
         | _ => to_binary64 (k # scale)
         end.
Proof.
  intros Hv scale.
  set (s := inject_Z (Zpos scale)).
  assert (Hs : 0 < s) by reflexivity.
  exists (round_half_even (v * s)).
  set (k := round_half_even (v * s)).
  assert (Hd : round_decimal x ndigits = Some (k # scale))
    by (unfold round_decimal; now rewrite Hv).
  assert (Hunit : (1 # (2 * scale)) * s == 1 # 2).
  { unfold s. rewrite (Qmake_Qdiv 1 (2 * scale)).
    rewrite Pos2Z.inj_mul, inject_Z_mult. field. discriminate. }
  pose proof (scaled_distance k scale v) as Hsc. fold s in Hsc.
  split; [exact Hd|]. split; [|split].
  - apply (Qmult_le_r _ _ s Hs). rewrite Hsc, Hunit.
    destruct (round_half_even_near (v * s)) as [Hlo Hhi]. fold k in Hlo, Hhi.
    apply Qabs_Qle_condition. split; lra.
  - intros Htie. apply round_half_even_tie. fold k.
    rewrite <- Hsc, Htie. exact Hunit.
  - unfold round_binary64. rewrite Hd. reflexivity.
Qed.

(** C4 -- fees and profit of a completed execution.  The reported values
    are [fee = spot_price * q * 0.001 * 2 + spot_price * q * 0.0002 * 2]
    and [net = |funding_rate| * spot_price * q - fee], computed in binary64
    in this order from the fetched funding rate, the fetched price and the
    actual quantity, each rounded to four decimals; the message shows the
    net profit to four decimals.  Rounding a finite float to four decimals
    gives the float nearest to [k / 10000], where [k / 10000] is the
    multiple of 0.0001 nearest to the exact value of the float (the even
    [k] at a tie).  For price 100, quantity 1 and funding rate 0.001 the
    report is net profit -0.14 and fee 0.24.  A net profit of -0.0001 or
    less is reported as the float nearest to a decimal of -0.0001 or less:
    it is not clamped to zero. *)
Theorem reported_fee_and_net_profit :
  (forall (ex : Exchange) (symbol : string) (quantity : scalar) (w w' : World)
          (n f : PrimFloat.float) (m : option Q),
      execute_hedge_arbitrage_strategy ex symbol quantity w
      = (Returned (HedgeDone n f m), w') ->
      exists balance_result fr sp q,
        fst (get_account_balance ex (replace "USDT" "" symbol) w)
        = Returned balance_result
        /\ actual_quantity quantity (available_balance balance_result) = Returned q
        /\ fetched_funding_rate ex symbol (S (clock w)) = Some fr
        /\ fst (market_data ex symbol (extend w (Sent GetAccount)))
           = Returned (fr, sp)
        /\ let funding_rate := to_binary64 fr in
           let spot_price := to_binary64 sp in
           let actual_quantity := to_binary64 q in
           let fee := (spot_price * actual_quantity * (1 / 1000) * 2
                       + spot_price * actual_quantity * (2 / 10000) * 2)%float in
           let profit := (PrimFloat.abs funding_rate * spot_price
                          * actual_quantity)%float in
           let net_profit := (profit - fee)%float in
           f = round_binary64 fee 4
           /\ n = round_binary64 net_profit 4
           /\ m = round_decimal net_profit 4)
  /\ (forall (x : PrimFloat.float) (v : Q),
         exact_value x = Some v ->
         exists k : Z,
           Qabs ((k # 10000) - v) <= 1 # 20000
           /\ (Qabs ((k # 10000) - v) == 1 # 20000 -> Z.even k = true)
           /\ round_decimal x 4 = Some (k # 10000)
           /\ round_binary64 x 4
              = match k with
                | Z0 => if signbit x then PrimFloat.neg_zero else PrimFloat.zero
                | _ => to_binary64 (k # 10000)
                end
           /\ (v <= - (1 # 10000) -> (k <= -1)%Z))
  /\ (forall x : PrimFloat.float,
         exact_value x = None ->
         round_binary64 x 4 = x /\ round_decimal x 4 = None)
  /\ report (1 # 1000) 100 1
     = HedgeDone (- (14 / 100))%float (24 / 100)%float (Some (- 1400 # 10000)).
Proof.
  split; [|split; [|split]].
  - intros ex symbol quantity w w' n f m Hrun.
    destruct (execute_done_inv _ _ _ _ _ _ _ _ Hrun)
      as [br [w1 [q [fr [sp [w2 [Hb [Hq [Hpos [Hm [Ht Hrep]]]]]]]]]]].
    pose proof (get_account_balance_world ex (replace "USDT" "" symbol) w) as Hw.
    rewrite Hb in Hw; simpl in Hw; subst w1.
    destruct (market_data_grows ex symbol (extend w (Sent GetAccount)))
      as [l [_ [_ Hf]]].
    rewrite clock_extend, Hm in Hf. specialize (Hf _ eq_refl). simpl in Hf.
    exists br, fr, sp, q.
    rewrite Hb, Hm. cbv zeta.
    unfold report, fee_of, profit_of, SPOT_FEE, FUTURES_FEE in Hrep.
    repeat split; auto; congruence.
  - intros x v Hv.
    destruct (round_decimal_nearest x v 4 Hv) as [k [Hd [Hnear [Htie Hr]]]].
    change (Pos.pow 10 4) with 10000%positive in *.
    change (2 * 10000)%positive with 20000%positive in *.
    exists k. repeat split; auto.
    intros Hloss. apply Z.lt_succ_r. change (Z.succ (-1)) with 0%Z.
    apply Z.lt_nge. intros Hge.
    assert (H0 : 0 <= k # 10000) by (unfold Qle; simpl; lia).
    apply Qabs_Qle_condition in Hnear. lra.
  - intros x Hx. unfold round_binary64, round_decimal. rewrite Hx. split; reflexivity.
  - vm_compute. reflexivity.
Qed.

Lemma reported_fee_and_net_profit_witness :
  exists balance_result fr sp q,
    fst (get_account_balance (quiet_exchange (Num 1) (1 # 1000) 100) "BTC" w0)
    = Returned balance_result
    /\ actual_quantity (Num 1) (available_balance balance_result) = Returned q
    /\ fetched_funding_rate (quiet_exchange (Num 1) (1 # 1000) 100) "BTCUSDT" 1
       = Some fr
    /\ fst (market_data (quiet_exchange (Num 1) (1 # 1000) 100) "BTCUSDT"
              (extend w0 (Sent GetAccount)))
       = Returned (fr, sp)
    /\ let funding_rate := to_binary64 fr in
       let spot_price := to_binary64 sp in
       let actual_quantity := to_binary64 q in
       let fee := (spot_price * actual_quantity * (1 / 1000) * 2
                   + spot_price * actual_quantity * (2 / 10000) * 2)%float in
       let profit := (PrimFloat.abs funding_rate * spot_price
                      * actual_quantity)%float in
       let net_profit := (profit - fee)%float in
       (24 / 100)%float = round_binary64 fee 4
       /\ (- (14 / 100))%float = round_binary64 net_profit 4
       /\ Some (- 1400 # 10000) = round_decimal net_profit 4.
Proof.
  exact (proj1 reported_fee_and_net_profit
           (quiet_exchange (Num 1) (1 # 1000) 100) "BTCUSDT" (Num 1) w0
           _ _ _ _ eq_refl).
Defined.

(** The floats of [to_binary64] are those of the correctly rounded
    division of the hardware, and integers and dyadic fractions are kept
    as they are. *)
Lemma to_binary64_samples :
  to_binary64 (1 # 1000) = (1 / 1000)%float
  /\ to_binary64 (- 24 # 10000) = (- (24 / 10000))%float
  /\ to_binary64 100 = 100%float
  /\ to_binary64 (19 # 16) = (19 / 16)%float
  /\ match exact_value (to_binary64 (19 # 16)) with
     | Some v => v == 19 # 16
     | None => False
     end.
Proof. repeat split; vm_compute; reflexivity. Qed.

(** ** The price cache across calls *)

(** C9 -- the spot price is cached across calls.  With a spot price of
    100 at the first call and 200 afterwards, the second call of
    [get_symbol_price] for the same symbol sends no request and returns
    100 again, and a second execution values fees and profit at 100;
    the balance tool, in contrast, sends a request at every call. *)
Theorem second_price_call_is_stale :
  let first := get_symbol_price moving_price "BTCUSDT" w0 in
  let later := extend (snd first) (Slept 3600) in
  let second := get_symbol_price moving_price "BTCUSDT" later in
  fst first = Returned (PriceInfo (Num 100) "BTCUSDT")
  /\ ticker_price moving_price (clock later) "BTCUSDT"
     = ok (mkPrice (Some (Num 200)))
  /\ fst second = Returned (PriceInfo (Num 100) "BTCUSDT")
  /\ new_events later (snd second) = []
  /\ (let run1 := execute_hedge_arbitrage_strategy moving_price "BTCUSDT"
                    (Num 1) (snd second) in
      fst run1 = Returned (report (1 # 1000) 100 1)
      /\ filter (fun e => match e with
                          | Sent (GetTickerPrice _) => true
                          | _ => false
                          end) (new_events (snd second) (snd run1)) = [])
  /\ (forall (ex : Exchange) (asset : string) (w : World),
         new_events w (snd (get_account_balance ex asset w)) = [Sent GetAccount]).
Proof.
  cbv zeta. repeat apply conj; try reflexivity.
  intros ex asset w. rewrite get_account_balance_world.
  apply new_events_app. reflexivity.
Qed.

(** ** The stability score *)

Lemma aligned_shares_sign (r s : Q) : aligned r s = true <-> shares_sign r s.
Proof.
  unfold aligned, shares_sign.
  rewrite orb_true_iff, !andb_true_iff, !Qltb_lt. reflexivity.
Qed.

Lemma aligned_shares_signb (r s : Q) : aligned r s = shares_signb r s.
Proof.
  apply eq_true_iff_eq. rewrite aligned_shares_sign.
  unfold shares_sign, shares_signb, sign.
  destruct (Qcompare_spec r 0) as [Hr|Hr|Hr];
    destruct (Qcompare_spec s 0) as [Hs|Hs|Hs];
    split; intros H; try discriminate; try reflexivity;
    try (destruct H as [[H1 H2]|[H1 H2]]; exfalso; lra);
    [right | left]; split; assumption.
Qed.

Lemma same_dir_count_aligned_count (r : Q) (h : list Q) :
  same_dir_count r h = aligned_count r h.
Proof.
  unfold same_dir_count.
  induction h as [|s h IH]; simpl; [reflexivity|].
  rewrite <- aligned_shares_signb.
  destruct (aligned r s); simpl; now rewrite IH.
Qed.

Lemma same_dir_count_le (r : Q) (h : list Q) :
  (same_dir_count r h <= List.length h)%nat.
Proof.
  unfold same_dir_count.
  induction h as [|s h IH]; simpl; [lia|].
  destruct (aligned r s); simpl; lia.
Qed.

Lemma same_dir_count_all (r : Q) (h : list Q) :
  Forall (shares_sign r) h -> same_dir_count r h = List.length h.
Proof.
  unfold same_dir_count.
  induction 1 as [|s h Hs _ IH]; simpl; [reflexivity|].
  apply aligned_shares_sign in Hs. rewrite Hs. simpl. now rewrite IH.
Qed.

Lemma Zpos_of_nat (n : nat) : n <> O -> Zpos (Pos.of_nat n) = Z.of_nat n.
Proof.
  intros Hn. rewrite <- (Nat2Pos.id n Hn) at 2. now rewrite positive_nat_Z.
Qed.

Lemma stability_score_ratio (r : Q) (s : Q) (h : list Q) :
  stability_score r (s :: h)
  == inject_Z (Z.of_nat (same_dir_count r (s :: h)))
     / inject_Z (Z.of_nat (List.length (s :: h))).
Proof.
  unfold stability_score.
  rewrite (Qmake_Qdiv (Z.of_nat (same_dir_count r (s :: h)))
                      (Pos.of_nat (List.length (s :: h)))).
  rewrite Zpos_of_nat by discriminate. reflexivity.
Qed.

(** C3 -- the stability score: it lies in [0, 1]; it is 0 on the empty
    history; it is 1 on a non-empty history all of whose samples share the
    reference rate's sign; and in general it is the number of samples
    whose sign strictly matches the reference rate's, over the length of
    the history, a zero sample never being counted. *)
Theorem stability_score_properties :
  forall (r : Q) (h : list Q),
    (0 <= stability_score r h /\ stability_score r h <= 1)
    /\ stability_score r [] = 0
    /\ (h <> [] -> Forall (shares_sign r) h -> stability_score r h == 1)
    /\ stability_score r h == spec_score r h
    /\ (forall s, s == 0 -> aligned_count r (s :: h) = aligned_count r h).
Proof.
  intros r h. repeat split.
  - destruct h as [|s h]; [apply Qle_refl|].
    unfold stability_score, Qle; simpl. lia.
  - destruct h as [|s h]; [discriminate|].
    pose proof (same_dir_count_le r (s :: h)) as Hle.
    unfold stability_score, Qle. cbn [Qnum Qden].
    rewrite Zpos_of_nat by discriminate. lia.
  - intros Hne Hall. destruct h as [|s h]; [contradiction|].
    unfold stability_score. rewrite (same_dir_count_all r _ Hall).
    unfold Qeq. cbn [Qnum Qden].
    rewrite Zpos_of_nat by discriminate. lia.
  - destruct h as [|s h]; [reflexivity|].
    rewrite stability_score_ratio, same_dir_count_aligned_count. reflexivity.
  - intros s Hs. simpl. unfold shares_signb, sign.
    assert (Hc : Qcompare s 0 = Eq) by now apply Qeq_alt.
    rewrite Hc. now destruct (Qcompare r 0).
Qed.

Lemma stability_score_properties_witness :
  stability_score (1 # 1000) [1 # 2000; 3 # 1000; 1 # 10000] == 1.
Proof.
  refine (proj1 (proj2 (proj2 (stability_score_properties
                                 (1 # 1000) [1 # 2000; 3 # 1000; 1 # 10000]))) _ _).
  - discriminate.
  - repeat constructor.
Defined.

(** ** One iteration of the scan *)

Section ScanFacts.

Variable ex : Exchange.
Variables (min_funding_rate min_avg_volume : Q) (history_days : Z)
          (stability_threshold : Q).

Local Abbreviation body := (scan_body ex min_funding_rate min_avg_volume history_days
                         stability_threshold).
Local Abbreviation iteration := (scan_pair ex min_funding_rate min_avg_volume history_days
                         stability_threshold).
Local Abbreviation loop := (scan_pairs ex min_funding_rate min_avg_volume history_days
                          stability_threshold).
Local Abbreviation after := (world_after ex min_funding_rate min_avg_volume
                           history_days stability_threshold).
Local Abbreviation gathered := (collected ex min_funding_rate min_avg_volume history_days
                         stability_threshold).

Lemma mapM_rates (l : list funding_json) (w : World) :
  mapM (fun x => v <- getitem (fundingRate x) ;; float v) l w
  = (history_rates l, w).
Proof.
  induction l as [|x rest IH]; simpl; [reflexivity|].
  unfold bind, getitem in *.
  destruct (fundingRate x) as [[q|]|]; try reflexivity.
  simpl. rewrite IH.
  now destruct (history_rates rest).
Qed.

(** The body of the [try] block, decision by decision. *)
Lemma scan_body_run (pair : premium_json) (w : World) :
  body pair w
  = match p_symbol pair, lastFundingRate pair with
    | None, _ => (Raised KeyError, w)
    | Some _, None => (Raised KeyError, w)
    | Some _, Some Junk => (Raised ValueError, w)
    | Some symbol, Some (Num current_rate) =>
        if Qabs current_rate <? min_funding_rate then (Returned None, w)
        else
          let w1 := extend w (Sent (GetFundingRate symbol (history_days * 3))) in
          match funding_rate ex (clock w) symbol (history_days * 3) with
          | NoReply => (Raised RequestException, w1)
          | Responded history_resp =>
              if negb (status_code history_resp =? 200)%Z then (Returned None, w1)
              else
                match history_rates (json history_resp) with
                | Raised e => (Raised e, w1)
                | Returned rates =>
                    let w2 := extend w1 (Sent (GetTicker24hr symbol)) in
                    match ticker_24hr ex (S (clock w)) symbol with
                    | NoReply => (Raised RequestException, w2)
                    | Responded ticker_resp =>
                        if negb (status_code ticker_resp =? 200)%Z
                        then (Returned None, w2)
                        else
                          match dict_get (quoteVolume (json ticker_resp)) (Num 0) with
                          | Junk => (Raised ValueError, w2)
                          | Num volume =>
                              if (min_avg_volume <? volume)
                                 && (stability_threshold
                                     <=? stability_score current_rate rates)
                              then (Returned
                                      (Some (mkCandidate symbol current_rate volume
                                               (round (stability_score
                                                         current_rate rates) 2))),
                                    w2)
                              else (Returned None, w2)
                          end
                    end
                end
          end
    end.
Proof.
  unfold scan_body, getitem.
  destruct (p_symbol pair) as [symbol|]; [|reflexivity].
  rewrite bind_ret.
  destruct (lastFundingRate pair) as [[current_rate|]|]; try reflexivity.
  rewrite bind_ret. unfold float at 1. rewrite bind_ret.
  destruct (Qabs current_rate <? min_funding_rate); [reflexivity|].
  unfold bind at 1. unfold send at 1.
  destruct (funding_rate ex (clock w) symbol (history_days * 3)) as [hr|];
    [|reflexivity].
  destruct (negb (status_code hr =? 200)%Z); [reflexivity|].
  unfold bind at 1. rewrite mapM_rates.
  destruct (history_rates (json hr)) as [rates|e]; [|reflexivity].
  fold (extend w (Sent (GetFundingRate symbol (history_days * 3)))).
  unfold bind at 1. unfold send at 1. rewrite clock_extend.
  destruct (ticker_24hr ex (S (clock w)) symbol) as [tr|]; [|reflexivity].
  destruct (negb (status_code tr =? 200)%Z); [reflexivity|].
  destruct (dict_get (quoteVolume (json tr)) (Num 0)) as [volume|];
    [|reflexivity].
  unfold float at 1. rewrite bind_ret.
  now destruct ((min_avg_volume <? volume)
                && (stability_threshold <=? stability_score current_rate rates)).
Qed.

(** An iteration never raises: the [except] clause turns every exception
    of the body into [continue]. *)
Lemma scan_pair_returns (pair : premium_json) (w : World) :
  exists c, fst (iteration pair w) = Returned c.
Proof.
  unfold scan_pair, try_except.
  destruct (body pair w) as [[c|e] w1]; eexists; reflexivity.
Qed.

Lemma scan_pair_run (pair : premium_json) (w : World) :
  iteration pair w
  = match body pair w with
    | (Returned c, w1) => (Returned c, w1)
    | (Raised _, w1) => (Returned None, w1)
    end.
Proof. reflexivity. Qed.

(** The loop collects what its iterations return, in order. *)
Lemma scan_pairs_run (pairs : list premium_json) (acc : list candidate) (w : World) :
  loop pairs acc w = (Returned (acc ++ gathered pairs w)%list, after pairs w).
Proof.
  revert acc w. induction pairs as [|p rest IH]; intros acc w; simpl.
  - unfold ret. now rewrite app_nil_r.
  - unfold bind at 1.
    destruct (scan_pair_returns p w) as [c Hc].
    destruct (iteration p w) as [o w1]; simpl in *; subst o.
    rewrite IH. destruct c as [c|]; [|reflexivity].
    now rewrite <- app_assoc.
Qed.


End ScanFacts.

(** ** Sorting *)

Lemma sort_key_ltb (x y : candidate) :
  (sort_key y <? sort_key x) = true <-> abs_rate x < abs_rate y.
Proof.
  rewrite Qltb_lt. unfold sort_key, abs_rate. split; intros H; lra.
Qed.

Lemma sort_key_geb (x y : candidate) :
  (sort_key y <? sort_key x) = false <-> abs_rate y <= abs_rate x.
Proof.
  rewrite Qltb_ge. unfold sort_key, abs_rate. split; intros H; lra.
Qed.

Lemma insert_sorted_perm (x : candidate) (l : list candidate) :
  Permutation (x :: l) (insert_sorted x l).
Proof.
  induction l as [|y l IH]; simpl; [reflexivity|].
  destruct (sort_key y <? sort_key x); [|reflexivity].
  rewrite perm_swap. now constructor.
Qed.

Lemma sorted_perm (l : list candidate) : Permutation l (sorted l).
Proof.
  induction l as [|x l IH]; simpl; [constructor|].
  rewrite <- insert_sorted_perm. now constructor.
Qed.

Lemma insert_sorted_ranked (x : candidate) (l : list candidate) :
  ranked l -> ranked (insert_sorted x l).
Proof.
  unfold ranked. induction 1 as [|y l Hl IH Hy]; simpl.
  - constructor; constructor.
  - destruct (sort_key y <? sort_key x) eqn:Hc.
    + apply sort_key_ltb in Hc. constructor; [exact IH|].
      apply (Permutation_Forall (insert_sorted_perm x l)).
      constructor; [now apply Qlt_le_weak | exact Hy].
    + apply sort_key_geb in Hc. constructor; [now constructor|].
      constructor; [exact Hc|].
      apply (Forall_impl _ (P := fun b => abs_rate b <= abs_rate y)); [|exact Hy].
      intros b Hb. now apply (Qle_trans _ (abs_rate y)).
Qed.

Lemma sorted_ranked (l : list candidate) : ranked (sorted l).
Proof.
  induction l as [|x l IH]; simpl; [constructor|].
  now apply insert_sorted_ranked.
Qed.

(** Stability: candidates with the same absolute rate keep their order. *)
Lemma insert_sorted_tied (k : Q) (x : candidate) (l : list candidate) :
  tied k (insert_sorted x l) = tied k (x :: l).
Proof.
  unfold tied. induction l as [|y l IH]; [reflexivity|].
  cbn [insert_sorted]. destruct (sort_key y <? sort_key x) eqn:Hc; [|reflexivity].
  apply sort_key_ltb in Hc. cbn [filter] in *. rewrite IH.
  destruct (Qeq_bool (abs_rate x) k) eqn:Hx; [|reflexivity].
  destruct (Qeq_bool (abs_rate y) k) eqn:Hy; [|reflexivity].
  apply Qeq_bool_iff in Hx, Hy. exfalso. lra.
Qed.

Lemma sorted_tied (k : Q) (l : list candidate) : tied k (sorted l) = tied k l.
Proof.
  induction l as [|x l IH]; [reflexivity|].
  cbn [sorted fold_right]. fold (sorted l). rewrite insert_sorted_tied.
  unfold tied in *. cbn [filter]. now rewrite IH.
Qed.

Lemma ranked_head_max (a : candidate) (l : list candidate) (b : candidate) :
  ranked (a :: l) -> In b (a :: l) -> abs_rate b <= abs_rate a.
Proof.
  intros Hr Hin. inversion Hr as [|? ? _ Hall]; subst.
  destruct Hin as [<-|Hin]; [apply Qle_refl|].
  rewrite Forall_forall in Hall. now apply Hall.
Qed.

(** Two rankings of the same candidates show the same sequence of rates. *)
Lemma ranked_perm_keys (l l' : list candidate) :
  ranked l -> ranked l' -> Permutation (map rank_key l) (map rank_key l') ->
  map rank_key l = map rank_key l'.
Proof.
  revert l'. induction l as [|a l IH]; intros l' Hr Hr' Hp.
  - apply Permutation_nil in Hp. now rewrite Hp.
  - destruct l' as [|a' l'].
    + apply Permutation_sym, Permutation_nil in Hp. discriminate.
    + assert (Hkey : rank_key a = rank_key a').
      { assert (Ha : In (rank_key a) (map rank_key (a' :: l')))
          by (apply (Permutation_in _ Hp); now left).
        assert (Ha' : In (rank_key a') (map rank_key (a :: l)))
          by (apply (Permutation_in _ (Permutation_sym Hp)); now left).
        apply in_map_iff in Ha, Ha'.
        destruct Ha as [b [Hb Hinb]]. destruct Ha' as [b' [Hb' Hinb']].
        pose proof (ranked_head_max _ _ _ Hr' Hinb) as H1.
        pose proof (ranked_head_max _ _ _ Hr Hinb') as H2.
        unfold rank_key in *.
        apply Qred_eq_iff in Hb, Hb'. apply Qred_complete. lra. }
      simpl. rewrite Hkey. f_equal.
      apply IH.
      * now inversion Hr.
      * now inversion Hr'.
      * simpl in Hp. rewrite Hkey in Hp. now apply Permutation_cons_inv in Hp.
Qed.

(** Without ties, two rankings of the same candidates are the same list. *)
Lemma ranked_perm_eq (l l' : list candidate) :
  no_ties l -> ranked l -> ranked l' -> Permutation l l' -> l = l'.
Proof.
  revert l'. induction l as [|a l IH]; intros l' Hnt Hr Hr' Hp.
  - apply Permutation_nil in Hp. now rewrite Hp.
  - destruct l' as [|a' l'].
    + apply Permutation_sym, Permutation_nil in Hp. discriminate.
    + assert (Heq : a = a').
      { assert (Ha : In a (a' :: l')) by (apply (Permutation_in _ Hp); now left).
        assert (Ha' : In a' (a :: l))
          by (apply (Permutation_in _ (Permutation_sym Hp)); now left).
        pose proof (ranked_head_max _ _ _ Hr' Ha) as H1.
        pose proof (ranked_head_max _ _ _ Hr Ha') as H2.
        apply Hnt; [now left | exact Ha' | lra]. }
      subst a'. f_equal. apply IH.
      * intros x y Hx Hy. apply Hnt; now right.
      * now inversion Hr.
      * now inversion Hr'.
      * now apply Permutation_cons_inv in Hp.
Qed.

(** ** The whole scan *)

Section ScanRun.

Variable ex : Exchange.
Variables (min_funding_rate min_avg_volume : Q) (history_days : Z)
          (stability_threshold : Q).

Local Abbreviation iteration :=
  (scan_pair ex min_funding_rate min_avg_volume history_days stability_threshold).
Local Abbreviation gathered :=
  (collected ex min_funding_rate min_avg_volume history_days stability_threshold).
Local Abbreviation after :=
  (world_after ex min_funding_rate min_avg_volume history_days stability_threshold).
Local Abbreviation scan :=
  (find_arbitrage_pairs ex min_funding_rate min_avg_volume history_days
     stability_threshold).
Local Abbreviation pick :=
  (picked ex min_funding_rate min_avg_volume history_days stability_threshold).

Lemma find_arbitrage_pairs_run (w : World) :
  scan w
  = let w1 := extend w (Sent GetPremiumIndex) in
    match premium_index ex (clock w) with
    | NoReply => (Raised RequestException, w1)
    | Responded response =>
        if negb (status_code response =? 200)%Z
        then (Returned [ScanError "Failed to fetch current funding data"], w1)
        else (Returned (map Cand (sorted (gathered (json response) w1))),
              after (json response) w1)
    end.
Proof.
  unfold find_arbitrage_pairs. unfold bind at 1. unfold send.
  destruct (premium_index ex (clock w)) as [r|]; [|reflexivity].
  destruct (negb (status_code r =? 200)%Z); [reflexivity|].
  unfold bind. now rewrite scan_pairs_run.
Qed.

Lemma candidates_of_map_Cand (l : list candidate) : candidates_of (map Cand l) = l.
Proof.
  unfold candidates_of. induction l as [|c l IH]; simpl; [reflexivity|].
  now rewrite IH.
Qed.

Lemma scan_pair_static (p : premium_json) (w w' : World) :
  static ex -> fst (iteration p w) = fst (iteration p w').
Proof.
  intros [Hf Ht]. rewrite !scan_pair_run, !scan_body_run.
  destruct (p_symbol p) as [symbol|]; [|reflexivity].
  destruct (lastFundingRate p) as [[rate|]|]; try reflexivity.
  destruct (Qabs rate <? min_funding_rate); [reflexivity|].
  cbv zeta.
  rewrite (Hf (clock w') (clock w)), (Ht (S (clock w')) (S (clock w))).
  destruct (funding_rate ex (clock w) symbol (history_days * 3)) as [hr|];
    [|reflexivity].
  destruct (negb (status_code hr =? 200)%Z); [reflexivity|].
  destruct (history_rates (json hr)) as [rates|e]; [|reflexivity].
  destruct (ticker_24hr ex (S (clock w)) symbol) as [tr|]; [|reflexivity].
  destruct (negb (status_code tr =? 200)%Z); [reflexivity|].
  destruct (dict_get (quoteVolume (json tr)) (Num 0)) as [volume|]; [|reflexivity].
  now destruct ((min_avg_volume <? volume)
                && (stability_threshold <=? stability_score rate rates)).
Qed.

Lemma collected_static (pairs : list premium_json) (w : World) :
  static ex -> gathered pairs w = flat_map pick pairs.
Proof.
  intros Hs. revert w. induction pairs as [|p rest IH]; intros w; [reflexivity|].
  cbn [collected flat_map]. unfold picked at 1.
  rewrite (scan_pair_static p w w0 Hs), IH.
  now destruct (fst (iteration p w0)) as [[c|]|e].
Qed.

End ScanRun.

(** ** Admission, failure policy and ranking *)



(** C7 -- failure policy of the scan.  A scan fails wholesale exactly
    when the batched funding-rate request fails; a refused batched request
    yields the single error entry and no candidate, with no further
    request.  An iteration never raises: when the history request or the
    24h ticker request of a symbol fails, the symbol yields no candidate,
    and the loop goes on with the remaining entries. *)
Theorem scan_fails_only_on_batched_fetch :
  forall (ex : Exchange) (min_funding_rate min_avg_volume : Q) (history_days : Z)
         (stability_threshold : Q),
    (forall w : World,
        scan_fails (fst (find_arbitrage_pairs ex min_funding_rate min_avg_volume
                           history_days stability_threshold w))
        <-> batched_fetch_fails ex w)
    /\ (forall (w : World) (r : response (list premium_json)),
           premium_index ex (clock w) = Responded r ->
           status_code r <> 200%Z ->
           find_arbitrage_pairs ex min_funding_rate min_avg_volume history_days
             stability_threshold w
           = (Returned [ScanError "Failed to fetch current funding data"],
              extend w (Sent GetPremiumIndex)))
    /\ (forall (w : World) (pair : premium_json),
           exists c,
             fst (scan_pair ex min_funding_rate min_avg_volume history_days
                    stability_threshold pair w) = Returned c)
    /\ (forall (w : World) (pair : premium_json) (symbol : string),
           p_symbol pair = Some symbol ->
           history_fetch_fails ex history_days w symbol
           \/ ticker_fetch_fails ex w symbol ->
           fst (scan_pair ex min_funding_rate min_avg_volume history_days
                  stability_threshold pair w) = Returned None)
    /\ (forall (w : World) (pair : premium_json) (rest : list premium_json)
               (candidates : list candidate),
           fst (scan_pair ex min_funding_rate min_avg_volume history_days
                  stability_threshold pair w) = Returned None ->
           scan_pairs ex min_funding_rate min_avg_volume history_days
             stability_threshold (pair :: rest) candidates w
           = scan_pairs ex min_funding_rate min_avg_volume history_days
               stability_threshold rest candidates
               (snd (scan_pair ex min_funding_rate min_avg_volume history_days
                       stability_threshold pair w))).
Proof.
  intros ex mfr mav hd st. repeat apply conj.
  - intros w. rewrite find_arbitrage_pairs_run. unfold batched_fetch_fails.
    cbv zeta. destruct (premium_index ex (clock w)) as [r|]; [|simpl; tauto].
    destruct (status_code r =? 200)%Z eqn:Hs; simpl.
    + apply Z.eqb_eq in Hs. split.
      * intros [e Hin]. apply in_map_iff in Hin.
        destruct Hin as [c [Hc _]]. discriminate.
      * intros Hne. contradiction.
    + apply Z.eqb_neq in Hs. split; [intros _; exact Hs|].
      intros _. eexists. left. reflexivity.
  - intros w r Hr Hs. rewrite find_arbitrage_pairs_run, Hr.
    apply Z.eqb_neq in Hs. now rewrite Hs.
  - intros w pair. apply scan_pair_returns.
  - intros w pair symbol Hsym Hfail.
    rewrite scan_pair_run, scan_body_run, Hsym.
    unfold history_fetch_fails, ticker_fetch_fails in Hfail.
    destruct (lastFundingRate pair) as [[rate|]|]; try reflexivity.
    destruct (Qabs rate <? mfr); [reflexivity|]. cbv zeta.
    destruct (funding_rate ex (clock w) symbol (hd * 3)) as [hr|]; [|reflexivity].
    destruct (status_code hr =? 200)%Z eqn:Hhs; [|reflexivity]. simpl.
    destruct (history_rates (json hr)) as [rates|e]; [|reflexivity].
    destruct (ticker_24hr ex (S (clock w)) symbol) as [tr|]; [|reflexivity].
    destruct (status_code tr =? 200)%Z eqn:Hts; [|reflexivity].
    exfalso. apply Z.eqb_eq in Hhs, Hts. destruct Hfail as [H|H]; contradiction.
  - intros w pair rest candidates Hnone. cbn [scan_pairs]. unfold bind at 1.
    destruct (scan_pair ex mfr mav hd st pair w) as [o w1]. simpl in *.
    now subst o.
Qed.

Lemma scan_fails_only_on_batched_fetch_witness :
  fst (scan_pair market_with_outage default_min_funding_rate
         default_min_avg_volume default_history_days default_stability_threshold
         (mkPremium (Some "BBBUSDT") (Some (Num (- 2 # 1000)))) w0)
  = Returned None.
Proof.
  refine (proj1 (proj2 (proj2 (proj2 (scan_fails_only_on_batched_fetch
                                        market_with_outage
                                        default_min_funding_rate
                                        default_min_avg_volume
                                        default_history_days
                                        default_stability_threshold))))
            w0 (mkPremium (Some "BBBUSDT") (Some (Num (- 2 # 1000))))
            "BBBUSDT" eq_refl _).
  left. exact I.
Defined.

(** C6 -- ranking.  The candidates a scan returns are sorted by
    descending absolute current funding rate.  With per-symbol data that
    do not depend on the time of the request, two scans whose batched
    listings are permutations of each other return the same candidates
    with the same sequence of absolute rates; candidates tied in absolute
    rate keep the order of the listing (the sort is stable), and without
    ties the two returned sequences are equal. *)
Theorem ranking_is_sorted_and_order_independent :
  forall (ex : Exchange) (min_funding_rate min_avg_volume : Q) (history_days : Z)
         (stability_threshold : Q),
    (forall (w : World) (items : list scan_item),
        fst (find_arbitrage_pairs ex min_funding_rate min_avg_volume history_days
               stability_threshold w) = Returned items ->
        ranked (candidates_of items))
    /\ (static ex ->
        forall (w w' : World) (r r' : response (list premium_json)),
          premium_index ex (clock w) = Responded r ->
          status_code r = 200%Z ->
          premium_index ex (clock w') = Responded r' ->
          status_code r' = 200%Z ->
          Permutation (json r) (json r') ->
          exists l l',
            fst (find_arbitrage_pairs ex min_funding_rate min_avg_volume
                   history_days stability_threshold w) = Returned (map Cand l)
            /\ fst (find_arbitrage_pairs ex min_funding_rate min_avg_volume
                      history_days stability_threshold w') = Returned (map Cand l')
            /\ ranked l /\ ranked l'
            /\ Permutation l l'
            /\ map rank_key l = map rank_key l'
            /\ (no_ties l -> l = l')
            /\ (forall k,
                   tied k l
                   = tied k (flat_map (picked ex min_funding_rate min_avg_volume
                                         history_days stability_threshold)
                                      (json r))
                   /\ tied k l'
                      = tied k (flat_map (picked ex min_funding_rate
                                            min_avg_volume history_days
                                            stability_threshold)
                                         (json r')))).
Proof.
  intros ex mfr mav hd st. split.
  - intros w items. rewrite find_arbitrage_pairs_run. cbv zeta.
    destruct (premium_index ex (clock w)) as [r|]; [|discriminate].
    destruct (negb (status_code r =? 200)%Z); simpl; intros H; inversion H; subst.
    + constructor.
    + rewrite candidates_of_map_Cand. apply sorted_ranked.
  - intros Hst w w' r r' Hr Hs Hr' Hs' Hperm.
    rewrite !find_arbitrage_pairs_run, Hr, Hr', Hs, Hs'. simpl.
    rewrite !(collected_static ex mfr mav hd st _ _ Hst).
    set (pick := picked ex mfr mav hd st).
    exists (sorted (flat_map pick (json r))), (sorted (flat_map pick (json r'))).
    assert (Hp : Permutation (sorted (flat_map pick (json r)))
                             (sorted (flat_map pick (json r')))).
    { rewrite <- !sorted_perm. now apply Permutation_flat_map. }
    repeat apply conj; try reflexivity.
    + apply sorted_ranked.
    + apply sorted_ranked.
    + exact Hp.
    + apply ranked_perm_keys; [apply sorted_ranked | apply sorted_ranked |].
      now apply Permutation_map.
    + intros Hnt. apply ranked_perm_eq; auto using sorted_ranked.
    + intros k. split; apply sorted_tied.
Qed.

Lemma ranking_is_sorted_and_order_independent_witness :
  exists l l',
    fst (find_arbitrage_pairs market default_min_funding_rate
           default_min_avg_volume default_history_days
           default_stability_threshold w0) = Returned (map Cand l)
    /\ fst (find_arbitrage_pairs market default_min_funding_rate
              default_min_avg_volume default_history_days
              default_stability_threshold (extend w0 (Slept 1)))
       = Returned (map Cand l')
    /\ ranked l /\ ranked l'
    /\ Permutation l l'
    /\ map rank_key l = map rank_key l'
    /\ (no_ties l -> l = l')
    /\ (forall k,
           tied k l
           = tied k (flat_map (picked market default_min_funding_rate
                                 default_min_avg_volume default_history_days
                                 default_stability_threshold) listing)
           /\ tied k l'
              = tied k (flat_map (picked market default_min_funding_rate
                                    default_min_avg_volume default_history_days
                                    default_stability_threshold) (rev listing))).
Proof.
  refine (proj2 (ranking_is_sorted_and_order_independent market
                   default_min_funding_rate default_min_avg_volume
                   default_history_days default_stability_threshold)
            _ w0 (extend w0 (Slept 1))
            (mkResponse 200 listing "") (mkResponse 200 (rev listing) "")
            eq_refl eq_refl eq_refl eq_refl _).
  - split; intros; reflexivity.
  - apply Permutation_rev.
Defined.

(** In the sample market the tie is broken by the order of the listing:
    the two scans return different sequences. *)
Lemma tie_order_follows_listing :
  fst (find_arbitrage_pairs market default_min_funding_rate
         default_min_avg_volume default_history_days
         default_stability_threshold w0)
  = Returned
      (map Cand
         [mkCandidate "BBBUSDT" (- 2 # 1000) 2000000 (100 # 100);
          mkCandidate "AAAUSDT" (1 # 1000) 2000000 (100 # 100);
          mkCandidate "TIEUSDT" (- 1 # 1000) 2000000 (100 # 100)])
  /\ fst (find_arbitrage_pairs market default_min_funding_rate
            default_min_avg_volume default_history_days
            default_stability_threshold (extend w0 (Slept 1)))
     = Returned
         (map Cand
            [mkCandidate "BBBUSDT" (- 2 # 1000) 2000000 (100 # 100);
             mkCandidate "TIEUSDT" (- 1 # 1000) 2000000 (100 # 100);
             mkCandidate "AAAUSDT" (1 # 1000) 2000000 (100 # 100)]).
Proof. split; reflexivity. Qed.

(** * Further properties of the tools *)

(** ** The asset of a symbol (line 237) *)

Lemma prefix_split (old s : string) :
  prefix old s = true -> exists t, s = old ++ t.
Proof.
  revert s. induction old as [|a old IH]; intros s H.
  - now exists s.
  - destruct s as [|b s]; simpl in H; [discriminate|].
    destruct (Ascii.ascii_dec a b) as [->|]; [|discriminate].
    destruct (IH s H) as [t ->]. now exists t.
Qed.

Lemma prefix_occurs (old s : string) : prefix old s = true -> occurs old s.
Proof.
  intros H. destruct (prefix_split old s H) as [t ->]. now exists "", t.
Qed.

Lemma occurs_tail (old : string) (c : Ascii.ascii) (s : string) :
  occurs old s -> occurs old (String c s).
Proof. intros [a [b ->]]. now exists (String c a), b. Qed.

Lemma replace_without_occurrence (old new s : string) :
  ~ occurs old s -> replace old new s = s.
Proof.
  unfold replace. induction s as [|c s IH]; intros Hno; [reflexivity|].
  cbn [replace_from].
  destruct (prefix old (String c s)) eqn:Hp.
  - exfalso. apply Hno. now apply prefix_occurs.
  - rewrite IH; [reflexivity|]. intros Ho. apply Hno. now apply occurs_tail.
Qed.

Lemma no_straddling_USDT (c : Ascii.ascii) (b : string) :
  ~ occurs "USDT" (String c b) -> prefix "USDT" (String c b ++ "USDT") = false.
Proof.
  intros Hno. destruct (prefix "USDT" (String c b ++ "USDT")) eqn:Hp; [|reflexivity].
  exfalso. apply prefix_split in Hp. destruct Hp as [t Ht].
  simpl in Ht. injection Ht as Hc Hb. subst c.
  destruct b as [|x [|y [|z b]]]; simpl in Hb; inversion Hb; subst.
  apply Hno. now exists "", b.
Qed.

Lemma replace_from_skip (old new a s : string) :
  replace_from old new (String.length a) (a ++ s) = replace_from old new O s.
Proof. induction a as [|c a IH]; simpl; [reflexivity | exact IH]. Qed.

Lemma replace_leading_USDT (s : string) :
  replace "USDT" "" ("USDT" ++ s) = replace "USDT" "" s.
Proof. unfold replace. simpl. now destruct s. Qed.

(** X1 -- the asset the executor looks up is the symbol with every
    occurrence of "USDT" removed in one left-to-right pass: a symbol in
    which "USDT" does not occur is its own asset; a base in which "USDT"
    does not occur, followed by "USDT", gives the base; and a leading
    "USDT" is removed as well, so the removal is not limited to a suffix. *)
Theorem asset_of_symbol :
  forall base : string,
    ~ occurs "USDT" base ->
    replace "USDT" "" base = base
    /\ replace "USDT" "" (base ++ "USDT") = base
    /\ replace "USDT" "" ("USDT" ++ base) = base
    /\ replace "USDT" "" ("USDT" ++ base ++ "USDT") = base.
Proof.
  intros base Hno.
  assert (H1 : replace "USDT" "" base = base)
    by now apply replace_without_occurrence.
  assert (H2 : replace "USDT" "" (base ++ "USDT") = base).
  { clear H1. unfold replace. induction base as [|c b IH]; [reflexivity|].
    change (String c b ++ "USDT") with (String c (b ++ "USDT")).
    cbn [replace_from].
    change (String c (b ++ "USDT")) with (String c b ++ "USDT").
    rewrite (no_straddling_USDT c b Hno).
    rewrite IH; [reflexivity|].
    intros Ho. apply Hno. now apply occurs_tail. }
  repeat split; auto.
  - now rewrite replace_leading_USDT.
  - now rewrite replace_leading_USDT.
Qed.

Lemma asset_of_symbol_witness :
  replace "USDT" "" "BUSD" = "BUSD"
  /\ replace "USDT" "" ("BUSD" ++ "USDT") = "BUSD"
  /\ replace "USDT" "" ("USDT" ++ "BUSD") = "BUSD"
  /\ replace "USDT" "" ("USDT" ++ "BUSD" ++ "USDT") = "BUSD".
Proof.
  apply (asset_of_symbol "BUSD").
  intros [a [b H]].
  destruct a as [|a1 [|a2 [|a3 [|a4 [|a5 a]]]]]; simpl in H; discriminate.
Defined.

(** ** The price cache (lines 26-28) *)

Lemma cache_find_remove_other (key k : string) (cache : list (string * price_dict)) :
  k <> key -> cache_find k (cache_remove key cache) = cache_find k cache.
Proof.
  intros Hk. induction cache as [|[k0 v0] rest IH]; [reflexivity|].
  simpl. destruct (String.eqb k0 key) eqn:E0.
  - apply String.eqb_eq in E0. subst k0.
    destruct (String.eqb key k) eqn:E1; [|reflexivity].
    apply String.eqb_eq in E1. congruence.
  - simpl. now rewrite IH.
Qed.

Lemma cache_remove_length (key : string) (v : price_dict)
      (cache : list (string * price_dict)) :
  cache_find key cache = Some v ->
  S (List.length (cache_remove key cache)) = List.length cache.
Proof.
  induction cache as [|[k0 v0] rest IH]; [discriminate|].
  simpl. destruct (String.eqb k0 key); [reflexivity|].
  intros H. simpl. now rewrite IH.
Qed.

(** What a call of [get_symbol_price] does to the cache. *)
Lemma get_symbol_price_cache (ex : Exchange) (symbol : string) (w : World) :
  price_cache (snd (get_symbol_price ex symbol w))
  = match cache_find symbol (price_cache w) with
    | Some v => (symbol, v) :: cache_remove symbol (price_cache w)
    | None =>
        match fst (get_symbol_price_body ex symbol w) with
        | Returned v => cache_store symbol v (price_cache w)
        | Raised _ => price_cache w
        end
    end.
Proof.
  destruct (cache_find symbol (price_cache w)) as [v|] eqn:Hc.
  - now rewrite (get_symbol_price_hit _ _ _ _ Hc).
  - rewrite (get_symbol_price_miss _ _ _ Hc).
    now destruct (fst (get_symbol_price_body ex symbol w)).
Qed.

(** X2 -- the price cache never outgrows its [maxsize] of 100 entries. *)
Theorem price_cache_stays_bounded :
  forall (ex : Exchange) (symbol : string) (w : World),
    (List.length (price_cache w) <= maxsize)%nat ->
    (List.length (price_cache (snd (get_symbol_price ex symbol w))) <= maxsize)%nat.
Proof.
  intros ex symbol w Hlen. rewrite get_symbol_price_cache.
  destruct (cache_find symbol (price_cache w)) as [v|] eqn:Hc.
  - simpl. now rewrite (cache_remove_length _ _ _ Hc).
  - destruct (fst (get_symbol_price_body ex symbol w)); [|exact Hlen].
    unfold cache_store. cbn [List.length].
    rewrite length_firstn. unfold maxsize in *. lia.
Qed.

Lemma price_cache_stays_bounded_witness :
  (List.length (price_cache (snd (get_symbol_price market "AAAUSDT" w0)))
   <= maxsize)%nat.
Proof.
  apply (price_cache_stays_bounded market "AAAUSDT" w0).
  unfold maxsize. simpl. lia.
Defined.

(** X3 -- a call for one symbol leaves every other symbol's cached
    dictionary in place, unless it is a miss on a full cache. *)
Theorem price_cache_keeps_other_symbols :
  forall (ex : Exchange) (symbol k : string) (w : World),
    k <> symbol ->
    cache_find symbol (price_cache w) <> None
    \/ (List.length (price_cache w) < maxsize)%nat ->
    cache_find k (price_cache (snd (get_symbol_price ex symbol w)))
    = cache_find k (price_cache w).
Proof.
  intros ex symbol k w Hk Hroom. rewrite get_symbol_price_cache.
  assert (Hneq : String.eqb symbol k = false)
    by (apply String.eqb_neq; congruence).
  destruct (cache_find symbol (price_cache w)) as [v|] eqn:Hc.
  - simpl. rewrite Hneq. now apply cache_find_remove_other.
  - destruct Hroom as [Hhit|Hlen]; [congruence|].
    destruct (fst (get_symbol_price_body ex symbol w)); [|reflexivity].
    unfold cache_store. cbn [cache_find]. rewrite Hneq.
    rewrite firstn_all2; [reflexivity | unfold maxsize in *; lia].
Qed.

Lemma price_cache_keeps_other_symbols_witness :
  cache_find "AAAUSDT"
    (price_cache (snd (get_symbol_price market "BBBUSDT"
                         (snd (get_symbol_price market "AAAUSDT" w0)))))
  = cache_find "AAAUSDT" (price_cache (snd (get_symbol_price market "AAAUSDT" w0))).
Proof.
  apply (price_cache_keeps_other_symbols market "BBBUSDT" "AAAUSDT").
  - discriminate.
  - right. unfold maxsize. simpl. lia.
Defined.

(** X4 -- what is cached: a refused price request (status other than 200)
    is cached like a price, so the next call returns the same error
    without a request whatever the exchange would answer; a call that
    raises (no reply, or a 200 reply without a price) caches nothing, and
    the next call sends a request again. *)
Theorem errors_are_cached_exceptions_are_not :
  forall (ex : Exchange) (symbol : string) (w : World),
    cache_find symbol (price_cache w) = None ->
    let first := get_symbol_price ex symbol w in
    (forall r : response price_json,
        ticker_price ex (clock w) symbol = Responded r ->
        status_code r <> 200%Z ->
        fst first = Returned (PriceError (text r))
        /\ forall ex' : Exchange,
            get_symbol_price ex' symbol (snd first)
            = (Returned (PriceError (text r)),
               mkWorld (log (snd first))
                       ((symbol, PriceError (text r))
                          :: cache_remove symbol (price_cache (snd first)))))
    /\ (forall e : exn,
           fst first = Raised e ->
           price_cache (snd first) = price_cache w
           /\ forall ex' : Exchange,
               new_events (snd first) (snd (get_symbol_price ex' symbol (snd first)))
               = [Sent (GetTickerPrice symbol)]).
Proof.
  intros ex symbol w Hc first. split.
  - intros r Hr Hs.
    assert (Hbody : fst (get_symbol_price_body ex symbol w)
                    = Returned (PriceError (text r))).
    { unfold get_symbol_price_body.
      rewrite (bind_returned _ _ _ _ _ (send_responded _ _ _ _ Hr)).
      apply Z.eqb_neq in Hs. now rewrite Hs. }
    assert (Hfirst : first = (Returned (PriceError (text r)),
                              mkWorld (log w ++ [Sent (GetTickerPrice symbol)])
                                      (cache_store symbol (PriceError (text r))
                                                   (price_cache w)))).
    { unfold first. rewrite (get_symbol_price_miss _ _ _ Hc). now rewrite Hbody. }
    rewrite Hfirst. split; [reflexivity|]. intros ex'.
    apply get_symbol_price_hit. simpl. apply cache_find_store.
  - intros e He. unfold first in *.
    rewrite (get_symbol_price_miss _ _ _ Hc) in *.
    destruct (fst (get_symbol_price_body ex symbol w)) as [v|e0]; [discriminate|].
    simpl. split; [reflexivity|]. intros ex'.
    rewrite (get_symbol_price_miss ex' symbol (extend w (Sent (GetTickerPrice symbol))) Hc).
    apply new_events_app.
    now destruct (fst (get_symbol_price_body ex' symbol
                         (extend w (Sent (GetTickerPrice symbol))))).
Qed.

Lemma errors_are_cached_exceptions_are_not_witness :
  fst (get_symbol_price price_refused "BTCUSDT" w0)
  = Returned (PriceError "{code: -1013, msg: rejected}")
  /\ forall ex' : Exchange,
      get_symbol_price ex' "BTCUSDT" (snd (get_symbol_price price_refused "BTCUSDT" w0))
      = (Returned (PriceError "{code: -1013, msg: rejected}"),
         mkWorld (log (snd (get_symbol_price price_refused "BTCUSDT" w0)))
                 (("BTCUSDT", PriceError "{code: -1013, msg: rejected}")
                    :: cache_remove "BTCUSDT"
                         (price_cache
                            (snd (get_symbol_price price_refused "BTCUSDT" w0))))).
Proof.
  refine (proj1 (errors_are_cached_exceptions_are_not price_refused "BTCUSDT" w0
                   eq_refl)
            (mkResponse 400 (mkPrice None) "{code: -1013, msg: rejected}")
            eq_refl _).
  discriminate.
Defined.

(** ** The balance tool (lines 47-72) *)

Lemma find_balance_skips (asset : string) (pre rest : list balance_json) (w : World) :
  Forall (other_asset asset) pre ->
  find_balance asset (pre ++ rest) w = find_balance asset rest w.
Proof.
  induction 1 as [|b pre [a [Ha Hne]] _ IH]; [reflexivity|].
  simpl. rewrite Ha. unfold getitem. rewrite bind_ret.
  apply String.eqb_neq in Hne. now rewrite Hne.
Qed.

(** X5 -- the balance tool answers from the first entry of the asset: with
    a 200 reply whose entries before it all name other assets, it returns
    that entry's free amount (or raises [KeyError] when the entry has no
    ["free"]), never looking at later entries; when every entry names
    another asset it returns the "No balance found" error; and an entry
    without ["asset"] met before any match makes the call raise. *)
Theorem balance_comes_from_first_matching_entry :
  forall (ex : Exchange) (asset : string) (w : World)
         (r : response (list balance_json)) (pre : list balance_json),
    account ex (clock w) = Responded r ->
    status_code r = 200%Z ->
    Forall (other_asset asset) pre ->
    (forall free post,
        json r = (pre ++ mkBalance (Some asset) (Some free) :: post)%list ->
        fst (get_account_balance ex asset w) = Returned (BalanceInfo asset free))
    /\ (forall post,
           json r = (pre ++ mkBalance (Some asset) None :: post)%list ->
           fst (get_account_balance ex asset w) = Raised KeyError)
    /\ (forall free post,
           json r = (pre ++ mkBalance None free :: post)%list ->
           fst (get_account_balance ex asset w) = Raised KeyError)
    /\ (json r = pre ->
        fst (get_account_balance ex asset w)
        = Returned (BalanceError ("No balance found for " ++ asset))).
Proof.
  intros ex asset w r pre Hr Hs Hpre.
  assert (Hrun : forall l, json r = (pre ++ l)%list ->
                           get_account_balance ex asset w
                           = find_balance asset l (extend w (Sent GetAccount))).
  { intros l Hl. unfold get_account_balance.
    rewrite (bind_returned _ _ _ _ _ (send_responded _ _ _ _ Hr)).
    rewrite Hs, Hl. simpl. now apply find_balance_skips. }
  repeat split.
  - intros free post Hj. rewrite (Hrun _ Hj). simpl.
    unfold getitem. rewrite bind_ret, String.eqb_refl. reflexivity.
  - intros post Hj. rewrite (Hrun _ Hj). simpl.
    unfold getitem. rewrite bind_ret, String.eqb_refl. reflexivity.
  - intros free post Hj. rewrite (Hrun _ Hj). reflexivity.
  - intros Hj. rewrite (Hrun [] ); [reflexivity | now rewrite app_nil_r].
Qed.

Lemma balance_comes_from_first_matching_entry_witness :
  fst (get_account_balance (quiet_exchange (Num (1 # 2)) (1 # 1000) 100) "BTC" w0)
  = Returned (BalanceInfo "BTC" (Num (1 # 2))).
Proof.
  refine (proj1 (balance_comes_from_first_matching_entry
                   (quiet_exchange (Num (1 # 2)) (1 # 1000) 100) "BTC" w0
                   (mkResponse 200 [mkBalance (Some "ETH") (Some (Num 7));
                                    mkBalance (Some "BTC") (Some (Num (1 # 2)))] "")
                   [mkBalance (Some "ETH") (Some (Num 7))]
                   eq_refl eq_refl _)
            (Num (1 # 2)) [] eq_refl).
  repeat constructor. exists "ETH". split; [reflexivity | discriminate].
Defined.

(** ** The executor beyond the claims (lines 237-267) *)

(** The requests of lines 248-251: the funding history, then the spot
    ticker unless the price is cached. *)
Lemma market_data_events (ex : Exchange) (symbol : string) (w : World) :
  exists l,
    grows w (snd (market_data ex symbol w)) l
    /\ (l = [Sent (GetFundingRate symbol 100)]
        \/ l = [Sent (GetFundingRate symbol 100); Sent (GetTickerPrice symbol)]).
Proof.
  rewrite market_data_run. cbv zeta.
  set (w1 := extend w (Sent (GetFundingRate symbol 100))).
  destruct (funding_rate_outcome ex symbol (clock w)) as [fr|e].
  - assert (Hp : exists l2, grows w1 (snd (get_symbol_price ex symbol w1)) l2
                            /\ (l2 = [] \/ l2 = [Sent (GetTickerPrice symbol)])).
    { destruct (cache_find symbol (price_cache w1)) as [v|] eqn:Hc.
      - rewrite (get_symbol_price_hit _ _ _ _ Hc). exists []. split; [|now left].
        unfold grows; simpl. now rewrite app_nil_r.
      - rewrite (get_symbol_price_miss _ _ _ Hc).
        exists [Sent (GetTickerPrice symbol)]. split; [|now right].
        now destruct (fst (get_symbol_price_body ex symbol w1)). }
    destruct Hp as [l2 [Hg Hl2]].
    exists (Sent (GetFundingRate symbol 100) :: l2). split.
    + assert (Hall : grows w (snd (get_symbol_price ex symbol w1))
                           ([Sent (GetFundingRate symbol 100)] ++ l2))
        by exact (grows_trans _ _ _ _ _ (grows_extend _ _) Hg).
      now destruct (get_symbol_price ex symbol w1) as [[[[sp|] sy|err]|e] w2].
    + destruct Hl2 as [->| ->]; [now left | now right].
  - exists [Sent (GetFundingRate symbol 100)]. split; [apply grows_extend | now left].
Qed.

Lemma order_calls_legs_symbol (symbol : string) (fr q : Q) (n : nat) :
  Forall (fun e => order_quantity e = Some q /\ order_symbol e = Some symbol)
         (order_calls (firstn n (spec_legs symbol fr q))).
Proof.
  unfold spec_legs. destruct (0 <? fr);
    do 6 (destruct n as [|n]; [repeat constructor|]); repeat constructor.
Qed.

Lemma order_calls_legs_length (symbol : string) (fr q : Q) (n : nat) :
  (List.length (order_calls (firstn n (spec_legs symbol fr q))) <= 4)%nat
  /\ (List.length (firstn n (spec_legs symbol fr q)) <= 5)%nat.
Proof.
  unfold spec_legs. destruct (0 <? fr);
    do 6 (destruct n as [|n]; [simpl; lia|]); simpl; lia.
Qed.

(** The events of lines 248-279: market data requests, then an initial
    segment of the five steps. *)
Lemma run_hedge_events (ex : Exchange) (symbol : string) (q : Q) (w : World) :
  exists l fr n,
    grows w (snd (run_hedge ex symbol q w)) (l ++ firstn n (spec_legs symbol fr q))
    /\ (l = [Sent (GetFundingRate symbol 100)]
        \/ l = [Sent (GetFundingRate symbol 100); Sent (GetTickerPrice symbol)]).
Proof.
  rewrite run_hedge_run.
  destruct (market_data_events ex symbol w) as [l [Hg Hl]].
  destruct (market_data ex symbol w) as [[d|e] w2]; simpl in Hg.
  - destruct (trade_prefix ex symbol (fst d) q w2) as [n [o [Ht _]]].
    rewrite Ht. exists l, (fst d), n. split; [|exact Hl].
    apply (grows_trans _ w2 _ _ _ Hg). now destruct o.
  - exists l, 0, 0%nat. split; [|exact Hl]. simpl. now rewrite app_nil_r.
Qed.

(** The events of a whole run. *)
Lemma execute_events (ex : Exchange) (symbol : string) (quantity : scalar)
      (w : World) :
  let run := execute_hedge_arbitrage_strategy ex symbol quantity w in
  grows w (snd run) [Sent GetAccount]
  \/ exists balance_result q l fr n,
      fst (get_account_balance ex (replace "USDT" "" symbol) w)
      = Returned balance_result
      /\ actual_quantity quantity (available_balance balance_result) = Returned q
      /\ 0 < q
      /\ grows w (snd run)
               (Sent GetAccount :: l ++ firstn n (spec_legs symbol fr q))
      /\ (l = [Sent (GetFundingRate symbol 100)]
          \/ l = [Sent (GetFundingRate symbol 100); Sent (GetTickerPrice symbol)]).
Proof.
  cbv zeta. rewrite execute_run.
  pose proof (get_account_balance_world ex (replace "USDT" "" symbol) w) as Hw.
  destruct (get_account_balance ex (replace "USDT" "" symbol) w) as [[br|e] w1];
    simpl in Hw; subst w1; [|left; apply grows_extend].
  destruct (actual_quantity quantity (available_balance br)) as [q|e] eqn:Hq;
    [|left; apply grows_extend].
  destruct (q <=? 0) eqn:Hpos; [left; apply grows_extend|].
  right. apply Qleb_gt in Hpos.
  destruct (run_hedge_events ex symbol q (extend w (Sent GetAccount)))
    as [l [fr [n [Hg Hl]]]].
  exists br, q, l, fr, n. repeat split; auto.
  exact (grows_trans _ _ _ [_] _ (grows_extend _ _) Hg).
Qed.

Lemma actual_quantity_bounds (quantity : scalar) (available q : Q) :
  actual_quantity quantity available = Returned q ->
  0 < q ->
  q <= available /\ forall requested, quantity = Num requested -> q <= requested.
Proof.
  unfold actual_quantity. destruct (0 <? available).
  - destruct quantity as [r|]; [|discriminate].
    intros H _. inversion H; subst. destruct (py_min_bounds r available).
    split; [assumption|]. intros requested Hr. now inversion Hr; subst.
  - intros H Hq. inversion H; subst. exfalso. lra.
Qed.

(** X6 -- for a requested quantity that is a finite number, every order a
    run sends is for the requested symbol, with one strictly positive
    quantity that exceeds neither the available balance the balance tool
    reported nor the requested quantity, and is one of the two.  (A
    quantity of 'nan', which [float] accepts, is not among the
    quantities [Num requested] stands for: line 245 lets it through.) *)
Theorem orders_are_positive_and_covered :
  forall (ex : Exchange) (symbol : string) (requested : Q) (w : World)
         (e : event),
    In e (order_calls
            (new_events w (snd (execute_hedge_arbitrage_strategy ex symbol
                                  (Num requested) w)))) ->
    exists balance_result q,
      fst (get_account_balance ex (replace "USDT" "" symbol) w)
      = Returned balance_result
      /\ order_symbol e = Some symbol
      /\ order_quantity e = Some q
      /\ 0 < q
      /\ q <= available_balance balance_result
      /\ q <= requested
      /\ (q = requested \/ q = available_balance balance_result).
Proof.
  intros ex symbol requested w e Hin.
  destruct (execute_events ex symbol (Num requested) w)
    as [Hg|[br [q [l [fr [n [Hb [Hq [Hpos [Hg Hl]]]]]]]]]].
  - rewrite (grows_new_events _ _ _ Hg) in Hin. contradiction.
  - rewrite (grows_new_events _ _ _ Hg) in Hin.
    assert (Hin' : In e (order_calls (firstn n (spec_legs symbol fr q)))).
    { unfold order_calls in *.
      change (Sent GetAccount :: l ++ firstn n (spec_legs symbol fr q))
        with ([Sent GetAccount] ++ l ++ firstn n (spec_legs symbol fr q))%list in Hin.
      rewrite !filter_app in Hin.
      destruct Hl as [-> | ->]; exact Hin. }
    pose proof (order_calls_legs_symbol symbol fr q n) as Hall.
    rewrite Forall_forall in Hall. destruct (Hall e Hin') as [Hqe Hse].
    destruct (actual_quantity_bounds _ _ _ Hq Hpos) as [Hav Hreq].
    assert (Hone : q = requested \/ q = available_balance br).
    { unfold actual_quantity in Hq.
      destruct (0 <? available_balance br).
      - inversion Hq; subst. apply py_min_cases.
      - inversion Hq; subst. exfalso. lra. }
    exists br, q. repeat split; auto.
Qed.

Lemma orders_are_positive_and_covered_witness :
  exists balance_result q,
    fst (get_account_balance (quiet_exchange (Num (1 # 2)) (1 # 1000) 100)
           (replace "USDT" "" "BTCUSDT") w0)
    = Returned balance_result
    /\ order_symbol (Sent (PostFuturesOrder "BTCUSDT" SELL (1 # 2))) = Some "BTCUSDT"
    /\ order_quantity (Sent (PostFuturesOrder "BTCUSDT" SELL (1 # 2))) = Some q
    /\ 0 < q
    /\ q <= available_balance balance_result
    /\ q <= 2
    /\ (q = 2 \/ q = available_balance balance_result).
Proof.
  apply (orders_are_positive_and_covered
           (quiet_exchange (Num (1 # 2)) (1 # 1000) 100) "BTCUSDT" 2 w0).
  vm_compute. right. left. reflexivity.
Defined.

(** X7 -- the effects of one run are bounded: it appends at most eight
    events to the log, of which at most four are orders, and the first
    event is always the balance request. *)
Theorem execution_effects_are_bounded :
  forall (ex : Exchange) (symbol : string) (quantity : scalar) (w : World),
    let events :=
      new_events w (snd (execute_hedge_arbitrage_strategy ex symbol quantity w)) in
    log (snd (execute_hedge_arbitrage_strategy ex symbol quantity w))
    = (log w ++ events)%list
    /\ hd_error events = Some (Sent GetAccount)
    /\ (List.length events <= 8)%nat
    /\ (List.length (order_calls events) <= 4)%nat.
Proof.
  intros ex symbol quantity w. cbv zeta.
  destruct (execute_events ex symbol quantity w)
    as [Hg|[br [q [l [fr [n [Hb [Hq [Hpos [Hg Hl]]]]]]]]]];
    rewrite (grows_new_events _ _ _ Hg).
  - repeat split; auto; simpl; lia.
  - destruct (order_calls_legs_length symbol fr q n) as [H4 H5].
    split; [exact Hg|]. split; [reflexivity|].
    unfold order_calls in *.
    change (Sent GetAccount :: l ++ firstn n (spec_legs symbol fr q))
      with ([Sent GetAccount] ++ l ++ firstn n (spec_legs symbol fr q))%list.
    rewrite !filter_app, !length_app.
    destruct Hl as [-> | ->]; simpl; lia.
Qed.

(** X8 -- a quantity that is not a number: it is only converted when the
    available balance is positive, so the run returns the
    insufficient-balance error when the balance is not positive and raises
    [ValueError] otherwise, in both cases after the balance request alone. *)
Theorem non_numeric_quantity :
  forall (ex : Exchange) (symbol : string) (w w1 : World)
         (balance_result : balance_dict),
    get_account_balance ex (replace "USDT" "" symbol) w
    = (Returned balance_result, w1) ->
    new_events w w1 = [Sent GetAccount]
    /\ (available_balance balance_result <= 0 ->
        execute_hedge_arbitrage_strategy ex symbol Junk w
        = (Returned (insufficient (replace "USDT" "" symbol)), w1))
    /\ (0 < available_balance balance_result ->
        execute_hedge_arbitrage_strategy ex symbol Junk w = (Raised ValueError, w1)).
Proof.
  intros ex symbol w w1 br Hb. split; [|split].
  - pose proof (get_account_balance_world ex (replace "USDT" "" symbol) w) as H.
    rewrite Hb in H; simpl in H; subst w1. now apply new_events_app.
  - intros Hle. exact (execute_insufficient _ _ _ _ _ _ Hb Hle).
  - intros Hpos. rewrite execute_run, Hb. unfold actual_quantity.
    apply Qltb_lt in Hpos. now rewrite Hpos.
Qed.

Lemma non_numeric_quantity_witness :
  new_events w0 (extend w0 (Sent GetAccount)) = [Sent GetAccount]
  /\ (available_balance (BalanceInfo "BTC" (Num 1)) <= 0 ->
      execute_hedge_arbitrage_strategy (quiet_exchange (Num 1) (1 # 1000) 100)
        "BTCUSDT" Junk w0
      = (Returned (insufficient (replace "USDT" "" "BTCUSDT")),
         extend w0 (Sent GetAccount)))
  /\ (0 < available_balance (BalanceInfo "BTC" (Num 1)) ->
      execute_hedge_arbitrage_strategy (quiet_exchange (Num 1) (1 # 1000) 100)
        "BTCUSDT" Junk w0
      = (Raised ValueError, extend w0 (Sent GetAccount))).
Proof.
  exact (non_numeric_quantity (quiet_exchange (Num 1) (1 # 1000) 100) "BTCUSDT"
           w0 (extend w0 (Sent GetAccount)) (BalanceInfo "BTC" (Num 1)) eq_refl).
Defined.

(** A run that has passed the quantity check. *)
Lemma execute_past_preflight (ex : Exchange) (symbol : string) (quantity : scalar)
      (w w1 : World) (balance_result : balance_dict) (q : Q) :
  get_account_balance ex (replace "USDT" "" symbol) w
  = (Returned balance_result, w1) ->
  actual_quantity quantity (available_balance balance_result) = Returned q ->
  0 < q ->
  execute_hedge_arbitrage_strategy ex symbol quantity w = run_hedge ex symbol q w1.
Proof.
  intros Hb Hq Hpos. rewrite execute_run, Hb, Hq.
  apply Qleb_gt in Hpos. now rewrite Hpos.
Qed.

(** X9 -- market-data failures stop a run before any order.  Once the
    quantity check has passed: when the funding rate cannot be read
    (request refused or unanswered, empty history, missing or non-numeric
    rate) the run raises the corresponding exception right after the
    funding request; when the price tool returns its error dictionary the
    run raises [KeyError], and when the price is not numeric it raises
    [ValueError]; no order is sent in any of these cases. *)
Theorem data_failures_raise_before_any_order :
  forall (ex : Exchange) (symbol : string) (quantity : scalar) (w w1 : World)
         (balance_result : balance_dict) (q : Q),
    get_account_balance ex (replace "USDT" "" symbol) w
    = (Returned balance_result, w1) ->
    actual_quantity quantity (available_balance balance_result) = Returned q ->
    0 < q ->
    let run := execute_hedge_arbitrage_strategy ex symbol quantity w in
    let w2 := extend w1 (Sent (GetFundingRate symbol 100)) in
    (forall e, funding_rate_outcome ex symbol (clock w1) = Raised e ->
               run = (Raised e, w2))
    /\ (forall fr, funding_rate_outcome ex symbol (clock w1) = Returned fr ->
          (forall err, fst (get_symbol_price ex symbol w2) = Returned (PriceError err) ->
                       fst run = Raised KeyError
                       /\ order_calls (new_events w (snd run)) = [])
          /\ (forall s, fst (get_symbol_price ex symbol w2) = Returned (PriceInfo Junk s) ->
                        fst run = Raised ValueError
                        /\ order_calls (new_events w (snd run)) = [])).
Proof.
  intros ex symbol quantity w w1 br q Hb Hq Hpos run w2.
  assert (Hrun : run = run_hedge ex symbol q w1)
    by exact (execute_past_preflight _ _ _ _ _ _ _ Hb Hq Hpos).
  assert (Hw1 : grows w w1 [Sent GetAccount]).
  { pose proof (get_account_balance_world ex (replace "USDT" "" symbol) w) as H.
    rewrite Hb in H; simpl in H; subst w1. apply grows_extend. }
  rewrite Hrun, run_hedge_run, market_data_run. cbv zeta. fold w2.
  split.
  - intros e He. now rewrite He.
  - intros fr Hfr. rewrite Hfr.
    destruct (get_symbol_price_grows ex symbol w2) as [l [Hg Hs]].
    assert (Hno : forall W, W = snd (get_symbol_price ex symbol w2) ->
                            order_calls (new_events w W) = []).
    { intros W ->.
      assert (Hall : grows w (snd (get_symbol_price ex symbol w2))
                           ([Sent GetAccount] ++ [Sent (GetFundingRate symbol 100)] ++ l)).
      { apply (grows_trans _ _ _ _ _ Hw1).
        apply (grows_trans _ w2 _ _ _ (grows_extend _ _) Hg). }
      rewrite (grows_new_events _ _ _ Hall).
      apply order_calls_no_steps. now rewrite !steps_app, Hs. }
    destruct (get_symbol_price ex symbol w2) as [[[[sp|] sy|err0]|e] w3];
      simpl; split; intros x Hx; inversion Hx; subst;
      (split; [reflexivity | now apply Hno]).
Qed.

Lemma data_failures_raise_before_any_order_witness :
  fst (execute_hedge_arbitrage_strategy price_refused "BTCUSDT" (Num 1) w0)
  = Raised KeyError
  /\ order_calls
       (new_events w0
          (snd (execute_hedge_arbitrage_strategy price_refused "BTCUSDT" (Num 1) w0)))
     = [].
Proof.
  refine (proj1 (proj2 (data_failures_raise_before_any_order price_refused
                          "BTCUSDT" (Num 1) w0 (extend w0 (Sent GetAccount))
                          (BalanceInfo "BTC" (Num 1)) 1 eq_refl eq_refl _)
                   (1 # 1000) eq_refl)
            "{code: -1013, msg: rejected}" eq_refl).
  reflexivity.
Defined.

(** X10 -- a cached price error blocks the symbol: while the cache holds
    an error dictionary for a symbol, no run for that symbol reports
    success, sends an order or asks for the price again, and the error is
    still cached afterwards. *)
Theorem cached_price_error_blocks_execution :
  forall (ex : Exchange) (symbol : string) (quantity : scalar) (w : World)
         (err : string),
    cache_find symbol (price_cache w) = Some (PriceError err) ->
    let run := execute_hedge_arbitrage_strategy ex symbol quantity w in
    is_done (fst run) = false
    /\ order_calls (new_events w (snd run)) = []
    /\ filter is_ticker_request (new_events w (snd run)) = []
    /\ cache_find symbol (price_cache (snd run)) = Some (PriceError err).
Proof.
  intros ex symbol quantity w err Hc. cbv zeta. rewrite execute_run.
  pose proof (get_account_balance_world ex (replace "USDT" "" symbol) w) as Hw.
  assert (Hquiet : forall (o : outcome hedge_dict) (l : list event) (W : World),
             is_done o = false ->
             grows w W l ->
             order_calls l = [] ->
             filter is_ticker_request l = [] ->
             cache_find symbol (price_cache W) = Some (PriceError err) ->
             is_done (fst (o, W)) = false
             /\ order_calls (new_events w (snd (o, W))) = []
             /\ filter is_ticker_request (new_events w (snd (o, W))) = []
             /\ cache_find symbol (price_cache (snd (o, W))) = Some (PriceError err)).
  { intros o l W Ho Hg Ho1 Ht HcW. simpl.
    rewrite (grows_new_events _ _ _ Hg). auto. }
  destruct (get_account_balance ex (replace "USDT" "" symbol) w) as [[br|e] w1];
    simpl in Hw; subst w1;
    [|apply (Hquiet _ [Sent GetAccount]); [reflexivity | apply grows_extend | reflexivity | reflexivity | exact Hc]].
  destruct (actual_quantity quantity (available_balance br)) as [q|e];
    [|apply (Hquiet _ [Sent GetAccount]); [reflexivity | apply grows_extend | reflexivity | reflexivity | exact Hc]].
  destruct (q <=? 0);
    [apply (Hquiet _ [Sent GetAccount]); [reflexivity | apply grows_extend | reflexivity | reflexivity | exact Hc]|].
  rewrite run_hedge_run, market_data_run. cbv zeta.
  set (w1 := extend w (Sent GetAccount)).
  set (w2 := extend w1 (Sent (GetFundingRate symbol 100))).
  assert (Hg2 : grows w w2 [Sent GetAccount; Sent (GetFundingRate symbol 100)])
    by exact (grows_trans _ w1 _ [_] [_] (grows_extend _ _) (grows_extend _ _)).
  destruct (funding_rate_outcome ex symbol (clock w1)) as [fr|e];
    [|apply (Hquiet _ [Sent GetAccount; Sent (GetFundingRate symbol 100)]);
      [reflexivity | exact Hg2 | reflexivity | reflexivity | exact Hc]].
  assert (Hc2 : cache_find symbol (price_cache w2) = Some (PriceError err)) by exact Hc.
  rewrite (get_symbol_price_hit _ _ _ _ Hc2).
  apply (Hquiet _ [Sent GetAccount; Sent (GetFundingRate symbol 100)]);
    try reflexivity.
  - exact Hg2.
  - simpl. now rewrite String.eqb_refl.
Qed.

Lemma cached_price_error_blocks_execution_witness :
  let w := snd (get_symbol_price price_refused "BTCUSDT" w0) in
  let run := execute_hedge_arbitrage_strategy
               (quiet_exchange (Num 1) (1 # 1000) 100) "BTCUSDT" (Num 1) w in
  is_done (fst run) = false
  /\ order_calls (new_events w (snd run)) = []
  /\ filter is_ticker_request (new_events w (snd run)) = []
  /\ cache_find "BTCUSDT" (price_cache (snd run))
     = Some (PriceError "{code: -1013, msg: rejected}").
Proof.
  exact (cached_price_error_blocks_execution
           (quiet_exchange (Num 1) (1 # 1000) 100) "BTCUSDT" (Num 1)
           (snd (get_symbol_price price_refused "BTCUSDT" w0))
           "{code: -1013, msg: rejected}" eq_refl).
Defined.

(** ** The report in binary64 (lines 269-277) *)

(** X18 -- the arithmetic of the report is that of binary64, not of the
    rationals.  At a price of 1.1875, a quantity of 1 and a funding rate
    of 0 the exact fee, 0.00285, lies half-way between 0.0028 and 0.0029
    and would round to the even 0.0028; the float the code computes lies
    above it, and a fee of 0.0029 and a net profit of -0.0029 are
    reported.  At a funding rate of 0.0024, a price of 100 and a quantity
    of 1, where fee and profit are equal as rationals, the computed fee
    is above the computed profit, and the reported net profit is the
    negative zero. *)
Theorem report_is_computed_in_binary64 :
  report 0 (19 # 16) 1
  = HedgeDone (- (29 / 10000))%float (29 / 10000)%float (Some (- 29 # 10000))
  /\ round ((19 # 16) * 1 * (1 # 1000) * 2 + (19 # 16) * 1 * (2 # 10000) * 2) 4
     == 28 # 10000
  /\ PrimFloat.ltb (profit_of (to_binary64 (24 # 10000)) 100 1) (fee_of 100 1) = true
  /\ report (24 # 10000) 100 1
     = HedgeDone PrimFloat.neg_zero (24 / 100)%float (Some (0 # 10000)).
Proof. repeat split; vm_compute; reflexivity. Qed.

(** ** Rounding of the stability (line 369) *)





(** ** The scanner beyond the claims (lines 330-375) *)


Section ScanExtras.

Variable ex : Exchange.
Variables (min_funding_rate min_avg_volume : Q) (history_days : Z)
          (stability_threshold : Q).

Local Abbreviation iteration :=
  (scan_pair ex min_funding_rate min_avg_volume history_days stability_threshold).
Local Abbreviation gathered :=
  (collected ex min_funding_rate min_avg_volume history_days stability_threshold).
Local Abbreviation after :=
  (world_after ex min_funding_rate min_avg_volume history_days stability_threshold).

(** What an iteration that yields a candidate has seen. *)
Lemma scan_pair_some_inv (p : premium_json) (w : World) (c : candidate) :
  fst (iteration p w) = Returned (Some c) ->
  exists rates,
    p_symbol p = Some (c_symbol c)
    /\ lastFundingRate p = Some (Num (current_funding_rate c))
    /\ min_funding_rate <= Qabs (current_funding_rate c)
    /\ min_avg_volume < avg_volume c
    /\ stability_threshold <= stability_score (current_funding_rate c) rates
    /\ c_stability c = round (stability_score (current_funding_rate c) rates) 2.
Proof.
  rewrite scan_pair_run, scan_body_run.
  destruct (p_symbol p) as [symbol|]; [|discriminate].
  destruct (lastFundingRate p) as [[rate|]|]; try discriminate.
  destruct (Qabs rate <? min_funding_rate) eqn:Hrate; [discriminate|].
  cbv zeta.
  destruct (funding_rate ex (clock w) symbol (history_days * 3)) as [hr|];
    [|discriminate].
  destruct (negb (status_code hr =? 200)%Z); [discriminate|].
  destruct (history_rates (json hr)) as [rates|e]; [|discriminate].
  destruct (ticker_24hr ex (S (clock w)) symbol) as [tr|]; [|discriminate].
  destruct (negb (status_code tr =? 200)%Z); [discriminate|].
  destruct (dict_get (quoteVolume (json tr)) (Num 0)) as [volume|]; [|discriminate].
  destruct ((min_avg_volume <? volume)
            && (stability_threshold <=? stability_score rate rates)) eqn:Hadm;
    [|discriminate].
  simpl. intros H. inversion H; subst c. simpl.
  apply andb_true_iff in Hadm. destruct Hadm as [Hvol Hstab].
  exists rates. repeat split.
  - now apply Qltb_ge.
  - now apply Qltb_lt.
  - now apply Qle_bool_iff.
Qed.

(** The requests of one iteration: none below the rate filter, at most
    two otherwise, never an order or a sleep, and the cache untouched. *)
Lemma scan_pair_events (p : premium_json) (w : World) :
  exists l,
    grows w (snd (iteration p w)) l
    /\ price_cache (snd (iteration p w)) = price_cache w
    /\ steps l = []
    /\ (List.length l <= if survives min_funding_rate p then 2 else 0)%nat.
Proof.
  rewrite scan_pair_run, scan_body_run. unfold survives.
  assert (Hnil : grows w w []) by (unfold grows; now rewrite app_nil_r).
  destruct (p_symbol p) as [symbol|];
    [|exists []; simpl; repeat split; auto].
  destruct (lastFundingRate p) as [[rate|]|];
    try (exists []; simpl; repeat split; auto; fail).
  destruct (Qabs rate <? min_funding_rate);
    [exists []; simpl; repeat split; auto|].
  cbv zeta.
  set (w1 := extend w (Sent (GetFundingRate symbol (history_days * 3)))).
  set (w2 := extend w1 (Sent (GetTicker24hr symbol))).
  assert (H1 : exists l, grows w w1 l /\ price_cache w1 = price_cache w
                         /\ steps l = [] /\ (List.length l <= 2)%nat).
  { exists [Sent (GetFundingRate symbol (history_days * 3))].
    repeat split; simpl; auto. }
  assert (H2 : exists l, grows w w2 l /\ price_cache w2 = price_cache w
                         /\ steps l = [] /\ (List.length l <= 2)%nat).
  { exists [Sent (GetFundingRate symbol (history_days * 3));
            Sent (GetTicker24hr symbol)].
    repeat split; simpl; auto.
    exact (grows_trans _ w1 _ [_] [_] (grows_extend _ _) (grows_extend _ _)). }
  destruct (funding_rate ex (clock w) symbol (history_days * 3)) as [hr|];
    [|exact H1].
  destruct (negb (status_code hr =? 200)%Z); [exact H1|].
  destruct (history_rates (json hr)) as [rates|e]; [|exact H1].
  destruct (ticker_24hr ex (S (clock w)) symbol) as [tr|]; [|exact H2].
  destruct (negb (status_code tr =? 200)%Z); [exact H2|].
  destruct (dict_get (quoteVolume (json tr)) (Num 0)) as [volume|]; [|exact H2].
  now destruct ((min_avg_volume <? volume)
                && (stability_threshold <=? stability_score rate rates)).
Qed.

Lemma world_after_events (pairs : list premium_json) (w : World) :
  exists l,
    grows w (after pairs w) l
    /\ price_cache (after pairs w) = price_cache w
    /\ steps l = []
    /\ (List.length l
        <= 2 * List.length (filter (survives min_funding_rate) pairs))%nat.
Proof.
  revert w. induction pairs as [|p rest IH]; intros w.
  - exists []. simpl. repeat split; auto. unfold grows. now rewrite app_nil_r.
  - destruct (scan_pair_events p w) as [l1 [Hg1 [Hc1 [Hs1 Hn1]]]].
    destruct (IH (snd (iteration p w))) as [l2 [Hg2 [Hc2 [Hs2 Hn2]]]].
    exists (l1 ++ l2)%list. cbn [world_after filter].
    repeat split.
    + exact (grows_trans _ _ _ _ _ Hg1 Hg2).
    + now rewrite Hc2.
    + now rewrite steps_app, Hs1, Hs2.
    + rewrite length_app.
      destruct (survives min_funding_rate p); simpl in *; lia.
Qed.

Lemma gathered_length (pairs : list premium_json) (w : World) :
  (List.length (gathered pairs w)
   <= List.length (filter (survives min_funding_rate) pairs))%nat.
Proof.
  revert w. induction pairs as [|p rest IH]; intros w; [simpl; lia|].
  cbn [collected filter].
  specialize (IH (snd (iteration p w))).
  destruct (fst (iteration p w)) as [[c|]|e] eqn:Hrun.
  - destruct (scan_pair_some_inv p w c Hrun) as [rates [Hs [Hr [Hmin _]]]].
    assert (Hsv : survives min_funding_rate p = true).
    { unfold survives. rewrite Hs, Hr.
      apply Qltb_ge in Hmin. now rewrite Hmin. }
    rewrite Hsv. simpl. lia.
  - destruct (survives min_funding_rate p); simpl; lia.
  - destruct (survives min_funding_rate p); simpl; lia.
Qed.

End ScanExtras.



(** X14 -- a scan only reads: it sends no order, never sleeps and leaves
    the price cache as it was; it sends the batched request first and
    then at most two requests for every listed entry that gets past the
    funding-rate filter, and it returns at most one candidate per such
    entry. *)
Theorem scan_is_read_only_and_bounded :
  forall (ex : Exchange) (min_funding_rate min_avg_volume : Q) (history_days : Z)
         (stability_threshold : Q) (w : World),
    let run := find_arbitrage_pairs ex min_funding_rate min_avg_volume history_days
                 stability_threshold w in
    let survivors := filter (survives min_funding_rate) (listed ex w) in
    price_cache (snd run) = price_cache w
    /\ steps (new_events w (snd run)) = []
    /\ hd_error (new_events w (snd run)) = Some (Sent GetPremiumIndex)
    /\ (List.length (new_events w (snd run)) <= 1 + 2 * List.length survivors)%nat
    /\ (forall items, fst run = Returned items ->
                      (List.length (candidates_of items) <= List.length survivors)%nat).
Proof.
  intros ex mfr mav hd st w. cbv zeta.
  rewrite find_arbitrage_pairs_run. cbv zeta. unfold listed.
  set (w1 := extend w (Sent GetPremiumIndex)).
  assert (Hw1 : new_events w w1 = [Sent GetPremiumIndex])
    by (apply new_events_app; reflexivity).
  destruct (premium_index ex (clock w)) as [r|].
  2:{ simpl. rewrite Hw1. repeat split; simpl; auto; try lia. discriminate. }
  destruct (status_code r =? 200)%Z; simpl.
  2:{ rewrite Hw1. repeat split; simpl; auto; try lia.
      intros items H. inversion H; simpl; lia. }
  destruct (world_after_events ex mfr mav hd st (json r) w1)
    as [l [Hg [Hc [Hs Hn]]]].
  assert (Hall : grows w (world_after ex mfr mav hd st (json r) w1)
                       ([Sent GetPremiumIndex] ++ l))
    by exact (grows_trans _ w1 _ _ _ (grows_extend _ _) Hg).
  rewrite (grows_new_events _ _ _ Hall).
  split; [exact Hc|].
  split; [now rewrite steps_app, Hs|].
  split; [reflexivity|].
  split; [simpl; lia|].
  intros items H. inversion H; subst items.
  rewrite candidates_of_map_Cand.
  rewrite <- (Permutation_length (sorted_perm _)).
  apply gathered_length.
Qed.

Lemma scan_is_read_only_and_bounded_witness :
  (List.length
     (candidates_of
        (map Cand
           [mkCandidate "BBBUSDT" (- 2 # 1000) 2000000 (100 # 100);
            mkCandidate "AAAUSDT" (1 # 1000) 2000000 (100 # 100);
            mkCandidate "TIEUSDT" (- 1 # 1000) 2000000 (100 # 100)]))
   <= List.length (filter (survives default_min_funding_rate) (listed market w0)))%nat.
Proof.
  apply (proj2 (proj2 (proj2 (proj2 (scan_is_read_only_and_bounded market
                                       default_min_funding_rate
                                       default_min_avg_volume default_history_days
                                       default_stability_threshold w0))))).
  reflexivity.
Defined.

(** ** The stability score beyond the claims (lines 355-356) *)

Lemma aligned_zero_reference (r s : Q) : r == 0 -> aligned r s = false.
Proof.
  intros Hr. unfold aligned.
  assert (H1 : (0 <? r) = false) by (apply Qltb_ge; lra).
  assert (H2 : (r <? 0) = false) by (apply Qltb_ge; lra).
  now rewrite H1, H2, !andb_false_r.
Qed.

Lemma aligned_opp (r s : Q) : aligned (- r) (- s) = aligned r s.
Proof.
  apply eq_true_iff_eq. rewrite !aligned_shares_sign. unfold shares_sign.
  split; intros [[H1 H2]|[H1 H2]]; [right | left | right | left]; split; lra.
Qed.

Lemma same_dir_count_opp (r : Q) (h : list Q) :
  same_dir_count (- r) (map Qopp h) = same_dir_count r h.
Proof.
  unfold same_dir_count. induction h as [|s h IH]; [reflexivity|].
  simpl. rewrite aligned_opp. destruct (aligned r s); simpl; now rewrite IH.
Qed.

Lemma same_dir_count_full (r : Q) (h : list Q) :
  same_dir_count r h = List.length h -> Forall (shares_sign r) h.
Proof.
  unfold same_dir_count. induction h as [|s h IH]; [constructor|].
  simpl. pose proof (same_dir_count_le r h) as Hle. unfold same_dir_count in Hle.
  destruct (aligned r s) eqn:Ha; simpl; intros H.
  - constructor; [now apply aligned_shares_sign | apply IH; lia].
  - exfalso. lia.
Qed.

Lemma same_dir_count_exclusive (r : Q) (h : list Q) :
  (same_dir_count r h + same_dir_count (- r) h <= List.length h)%nat.
Proof.
  unfold same_dir_count. induction h as [|s h IH]; [simpl; lia|].
  simpl.
  destruct (aligned r s) eqn:H1; destruct (aligned (- r) s) eqn:H2; simpl; try lia.
  exfalso. apply aligned_shares_sign in H1, H2. unfold shares_sign in *.
  destruct H1 as [[A B]|[A B]]; destruct H2 as [[C D]|[C D]]; lra.
Qed.

(** X15 -- further facts on the stability score: a reference rate of zero
    scores 0 on every history; negating the reference rate and every
    sample leaves the score unchanged; the score is 1 only for a non-empty
    history whose samples all share the reference rate's sign; and the
    scores of a history against a rate and against its opposite add up to
    at most 1. *)
Theorem stability_score_sign_facts :
  forall (r : Q) (h : list Q),
    (r == 0 -> stability_score r h == 0)
    /\ stability_score (- r) (map Qopp h) = stability_score r h
    /\ (stability_score r h == 1 -> h <> [] /\ Forall (shares_sign r) h)
    /\ stability_score r h + stability_score (- r) h <= 1.
Proof.
  intros r h. split; [|split; [|split]].
  - intros Hr. destruct h as [|s h]; [reflexivity|].
    unfold stability_score, same_dir_count.
    assert (Hf : filter (aligned r) (s :: h) = []).
    { induction (s :: h) as [|x l IH]; [reflexivity|].
      simpl. now rewrite (aligned_zero_reference r x Hr). }
    rewrite Hf. reflexivity.
  - destruct h as [|s h]; [reflexivity|].
    unfold stability_score.
    change (map Qopp (s :: h)) with (- s :: map Qopp h).
    change (- s :: map Qopp h) with (map Qopp (s :: h)).
    now rewrite same_dir_count_opp, length_map.
  - intros H1. destruct h as [|s h]; [discriminate H1|].
    split; [discriminate|].
    apply same_dir_count_full.
    unfold stability_score, Qeq in H1. cbn [Qnum Qden] in H1.
    rewrite Zpos_of_nat in H1 by discriminate. lia.
  - destruct h as [|s h]; [discriminate|].
    pose proof (same_dir_count_exclusive r (s :: h)) as Hex.
    unfold stability_score, Qle, Qplus. cbn [Qnum Qden].
    rewrite Pos2Z.inj_mul, Zpos_of_nat by discriminate.
    set (n := Z.of_nat (List.length (s :: h))) in *.
    assert (Hn : (0 < n)%Z) by (unfold n; simpl; lia).
    nia.
Qed.

Lemma stability_score_sign_facts_witness :
  stability_score 0 [1 # 1000; - 2 # 1000] == 0.
Proof.
  apply (proj1 (stability_score_sign_facts 0 [1 # 1000; - 2 # 1000])).
  reflexivity.
Defined.

(** ** Trade history and open orders (lines 107-173) *)

Lemma comprehension_complete {A B} (f : A -> outcome B) (l : list A) :
  Forall (fun x => exists y, f x = Returned y) l ->
  exists ys, comprehension f l = Returned ys
             /\ Forall2 (fun x y => f x = Returned y) l ys.
Proof.
  induction 1 as [|x l [y Hy] _ [ys [Hys Hall]]].
  - exists []. split; [reflexivity | constructor].
  - exists (y :: ys). simpl. rewrite Hy, Hys. split; [reflexivity|].
    now constructor.
Qed.

Lemma comprehension_raises {A B} (f : A -> outcome B) (l : list A) (e : exn) :
  Forall (fun x => (exists y, f x = Returned y) \/ f x = Raised e) l ->
  Exists (fun x => f x = Raised e) l ->
  comprehension f l = Raised e.
Proof.
  induction 1 as [|x l Hx Hl IH]; intros Hex; [inversion Hex|].
  simpl. destruct Hx as [[y Hy]|Hx].
  - rewrite Hy. inversion Hex as [? ? Hbad|? ? Htail]; subst; [congruence|].
    now rewrite (IH Htail).
  - now rewrite Hx.
Qed.

Lemma summarise_trade_cases (trade : trade_json) :
  (complete_trade trade
   /\ exists s, summarise_trade trade = Returned s /\ renders_trade trade s)
  \/ (~ complete_trade trade /\ summarise_trade trade = Raised KeyError).
Proof.
  unfold summarise_trade, complete_trade, renders_trade.
  destruct (tr_time trade) as [time|];
    [|right; split; [intros [H _]; congruence | reflexivity]].
  destruct (tr_isBuyer trade) as [b|];
    [|right; split; [intros [_ [H _]]; congruence | reflexivity]].
  destruct (tr_qty trade) as [qty|];
    [|right; split; [intros [_ [_ [H _]]]; congruence | reflexivity]].
  destruct (tr_price trade) as [price|];
    [|right; split; [intros [_ [_ [_ H]]]; congruence | reflexivity]].
  left. split; [repeat split; discriminate|].
  eexists. split; [reflexivity|]. simpl. now destruct b.
Qed.

Lemma summarise_order_cases (order : order_json) :
  (complete_order order
   /\ exists s, summarise_order order = Returned s /\ renders_order order s)
  \/ (~ complete_order order /\ summarise_order order = Raised KeyError).
Proof.
  unfold summarise_order, complete_order, renders_order.
  destruct (or_side order) as [side|];
    [|right; split; [intros [H _]; congruence | reflexivity]].
  destruct (or_origQty order) as [qty|];
    [|right; split; [intros [_ [H _]]; congruence | reflexivity]].
  destruct (or_price order) as [price|];
    [|right; split; [intros [_ [_ H]]; congruence | reflexivity]].
  left. split; [repeat split; discriminate|].
  eexists. split; [reflexivity|]. simpl. auto.
Qed.

(** X16 -- the trade history is complete or absent.  On a 200 reply whose
    trades all carry the four keys read, [get_trade_history] returns one
    summary per trade, in the exchange's order, each with the trade's
    time, quantity and price and with side BUY exactly for a buyer trade;
    if any trade lacks a key the call raises [KeyError] and returns no
    partial list; a reply with another status gives the error dictionary;
    one request is sent in every case. *)
Theorem trade_history_is_complete_or_raises :
  forall (desk : AccountDesk) (symbol : string) (limit : Z)
         (sent : list account_request) (r : response (list trade_json)),
    my_trades desk (List.length sent) symbol limit = Responded r ->
    let run := get_trade_history desk symbol limit sent in
    snd run = (sent ++ [GetMyTrades symbol limit])%list
    /\ (status_code r <> 200%Z -> fst run = Returned (TradeError (text r)))
    /\ (status_code r = 200%Z ->
        (Forall complete_trade (json r) ->
         exists l, fst run = Returned (TradeList l)
                   /\ Forall2 renders_trade (json r) l)
        /\ (Exists (fun trade => ~ complete_trade trade) (json r) ->
            fst run = Raised KeyError)).
Proof.
  intros desk symbol limit sent r Hr run. unfold run, get_trade_history.
  rewrite Hr. cbv zeta. split; [|split].
  - destruct (status_code r =? 200)%Z; [|reflexivity].
    now destruct (comprehension summarise_trade (json r)).
  - intros Hs. apply Z.eqb_neq in Hs. now rewrite Hs.
  - intros Hs. rewrite Hs. simpl. split.
    + intros Hall.
      destruct (comprehension_complete summarise_trade (json r)) as [l [Hl Hren]].
      { apply (Forall_impl _ (P := complete_trade)); [|exact Hall].
        intros trade Hc.
        destruct (summarise_trade_cases trade) as [[_ [s [Hsum _]]]|[Hn _]];
          [now exists s | contradiction]. }
      exists l. rewrite Hl. split; [reflexivity|].
      apply (Forall2_impl (R1 := fun x y => summarise_trade x = Returned y));
        [|exact Hren].
      intros trade s Hsum.
      destruct (summarise_trade_cases trade) as [[_ [s' [Hsum' Hr']]]|[_ Hbad]];
        congruence.
    + intros Hex.
      rewrite (comprehension_raises summarise_trade (json r) KeyError);
        [reflexivity | |].
      * apply Forall_forall. intros trade _.
        destruct (summarise_trade_cases trade) as [[_ [s [Hsum _]]]|[_ Hbad]];
          [left; now exists s | now right].
      * apply (Exists_impl (P := fun trade => ~ complete_trade trade));
          [|exact Hex].
        intros trade Hn.
        destruct (summarise_trade_cases trade) as [[Hc _]|[_ Hbad]];
          [contradiction | exact Hbad].
Qed.

Lemma trade_history_is_complete_or_raises_witness :
  exists l,
    fst (get_trade_history sample_desk "BTCUSDT" 10 []) = Returned (TradeList l)
    /\ Forall2 renders_trade
         [mkTrade (Some "1700000000000") (Some true) (Some "0.5") (Some "100.0");
          mkTrade (Some "1700000360000") (Some false) (Some "0.5") (Some "101.5")]
         l.
Proof.
  refine (proj1 (proj2 (proj2 (trade_history_is_complete_or_raises sample_desk
                                 "BTCUSDT" 10 [] _ eq_refl)) eq_refl) _).
  repeat constructor; discriminate.
Defined.

(** X17 -- the open orders are complete or absent.  On a 200 reply whose
    orders all carry ["side"], ["origQty"] and ["price"],
    [get_open_orders] returns one summary per order, in the exchange's
    order, with exactly these three values; if any order lacks a key the
    call raises [KeyError] and returns no partial list; a reply with
    another status gives the error dictionary; one request is sent in
    every case. *)
Theorem open_orders_are_complete_or_raise :
  forall (desk : AccountDesk) (symbol : string) (sent : list account_request)
         (r : response (list order_json)),
    open_orders desk (List.length sent) symbol = Responded r ->
    let run := get_open_orders desk symbol sent in
    snd run = (sent ++ [GetOpenOrders symbol])%list
    /\ (status_code r <> 200%Z -> fst run = Returned (OpenOrdersError (text r)))
    /\ (status_code r = 200%Z ->
        (Forall complete_order (json r) ->
         exists l, fst run = Returned (OpenOrderList l)
                   /\ Forall2 renders_order (json r) l)
        /\ (Exists (fun order => ~ complete_order order) (json r) ->
            fst run = Raised KeyError)).
Proof.
  intros desk symbol sent r Hr run. unfold run, get_open_orders.
  rewrite Hr. cbv zeta. split; [|split].
  - destruct (status_code r =? 200)%Z; [|reflexivity].
    now destruct (comprehension summarise_order (json r)).
  - intros Hs. apply Z.eqb_neq in Hs. now rewrite Hs.
  - intros Hs. rewrite Hs. simpl. split.
    + intros Hall.
      destruct (comprehension_complete summarise_order (json r)) as [l [Hl Hren]].
      { apply (Forall_impl _ (P := complete_order)); [|exact Hall].
        intros order Hc.
        destruct (summarise_order_cases order) as [[_ [s [Hsum _]]]|[Hn _]];
          [now exists s | contradiction]. }
      exists l. rewrite Hl. split; [reflexivity|].
      apply (Forall2_impl (R1 := fun x y => summarise_order x = Returned y));
        [|exact Hren].
      intros order s Hsum.
      destruct (summarise_order_cases order) as [[_ [s' [Hsum' Hr']]]|[_ Hbad]];
        congruence.
    + intros Hex.
      rewrite (comprehension_raises summarise_order (json r) KeyError);
        [reflexivity | |].
      * apply Forall_forall. intros order _.
        destruct (summarise_order_cases order) as [[_ [s [Hsum _]]]|[_ Hbad]];
          [left; now exists s | now right].
      * apply (Exists_impl (P := fun order => ~ complete_order order));
          [|exact Hex].
        intros order Hn.
        destruct (summarise_order_cases order) as [[Hc _]|[_ Hbad]];
          [contradiction | exact Hbad].
Qed.

Lemma open_orders_are_complete_or_raise_witness :
  exists l,
    fst (get_open_orders sample_desk "BTCUSDT" []) = Returned (OpenOrderList l)
    /\ Forall2 renders_order [mkOrder (Some "SELL") (Some "0.25") (Some "120.0")] l.
Proof.
  refine (proj1 (proj2 (proj2 (open_orders_are_complete_or_raise sample_desk
                                 "BTCUSDT" [] _ eq_refl)) eq_refl) _).
  repeat constructor; discriminate.
Defined.
